(** * PyViewer: the session/streaming engine of the remote-desktop host

    A shallow embedding of the parts of [pyviewer.server.py] and
    [pyviewer_client.py] that the specification talks about: the coordinate
    mapper of [process_control_event], the legacy frame protocol, the
    control-channel receiver, the media-pipeline loops, the restart
    operations, the teardown and the settings; and of what surrounds them:
    the audio and Wayland pipelines, the pre-flight checks, the encoder
    detection and the mode buttons of the host's window, the viewer's
    [Worker] (connecting, the stream handlers, the control sender,
    [disconnect]) and the button and key events.

    Python values are modelled as the interpreter has them: [int] is an
    unbounded integer ([Z]), [float] is an IEEE-754 binary64 number (Rocq's
    primitive [float], the same format with the same round-to-nearest-even
    operations), exceptions are an explicit error result. *)

From Stdlib Require Import ZArith List String Ascii Bool Lia Floats.
From Stdlib Require Import DecimalString.
From Stdlib.Strings Require Import Byte.
Import ListNotations.

Local Open Scope Z_scope.

(** ** Python numbers and exceptions *)

Module Py.
(** The exceptions the modelled code can raise. *)
Inductive pyexn : Set :=
| KeyError
| TypeError
| ValueError
| OverflowError
| ZeroDivisionError
| UnicodeDecodeError
| StructError
| AttributeError.

(** A computation that returns a value or raises. *)
Inductive result (A : Type) : Type :=
| Ok (a : A)
| Raise (e : pyexn).
Arguments Ok {A} a.
Arguments Raise {A} e.

Definition bind {A B : Type} (m : result A) (k : A -> result B) : result B :=
  match m with
  | Ok a => k a
  | Raise e => Raise e
  end.

Notation "x <- m ;; k" := (bind m (fun x => k))
  (at level 61, m at next level, right associativity).

(** **** Numbers *)

(** A JSON number as [json.loads] delivers it: an [int] or a [float].
    ([True]/[False] behave as the ints 1/0 in all the arithmetic below.) *)
Inductive pynum : Set :=
| PyInt (z : Z)
| PyFloat (f : float).

(** The exact value of an integer as an (unrounded) binary float. *)
Definition Z2SF (z : Z) : spec_float :=
  match z with
  | Z0 => S754_zero false
  | Zpos p => S754_finite false p 0
  | Zneg p => S754_finite true p 0
  end.

(** [float(z)] for an int [z]: round to nearest even, [OverflowError] when
    the int is too large for a binary64. *)
Definition float_of_int (z : Z) : result float :=
  match binary_normalize prec emax z 0 false with
  | S754_infinity _ => Raise OverflowError
  | sf => Ok (SF2Prim sf)
  end.

Definition to_float (a : pynum) : result float :=
  match a with
  | PyInt z => float_of_int z
  | PyFloat f => Ok f
  end.

(** [x / y] on floats: Python raises on a zero divisor. *)
Definition float_truediv (x y : float) : result float :=
  if (y =? 0)%float then Raise ZeroDivisionError else Ok (x / y)%float.

(** [a / b] on ints (true division): the correctly rounded quotient. *)
Definition int_truediv (a b : Z) : result float :=
  if b =? 0 then Raise ZeroDivisionError
  else match SFdiv prec emax (Z2SF a) (Z2SF b) with
       | S754_infinity _ => Raise OverflowError
       | sf => Ok (SF2Prim sf)
       end.

Definition py_truediv (a b : pynum) : result float :=
  match a, b with
  | PyInt x, PyInt y => int_truediv x y
  | _, _ => x <- to_float a ;; y <- to_float b ;; float_truediv x y
  end.

(** [a * n] for an int [n]. *)
Definition py_mul_int (a : pynum) (n : Z) : result pynum :=
  match a with
  | PyInt x => Ok (PyInt (x * n))
  | PyFloat f => w <- float_of_int n ;; Ok (PyFloat (f * w)%float)
  end.

(** [a - y] for a float [y]. *)
Definition py_sub_float (a : pynum) (y : float) : result float :=
  x <- to_float a ;; Ok (x - y)%float.

(** The integer 2^e-scaled mantissa of a finite float, as a signed pair. *)
Definition signed_mantissa (s : bool) (m : positive) : Z :=
  if s then Zneg m else Zpos m.

(** [int(f)]: truncation toward zero; [ValueError] on NaN, [OverflowError]
    on an infinity. *)
Definition int_of_float (f : float) : result Z :=
  match Prim2SF f with
  | S754_nan => Raise ValueError
  | S754_infinity _ => Raise OverflowError
  | S754_zero _ => Ok 0
  | S754_finite s m e =>
      Ok (match e with
          | Zneg k => Z.quot (signed_mantissa s m) (2 ^ Zpos k)
          | _ => signed_mantissa s m * 2 ^ e
          end)
  end.

Definition py_int (a : pynum) : result Z :=
  match a with
  | PyInt z => Ok z
  | PyFloat f => int_of_float f
  end.

(** [math.floor(f)], the rounding the specification's example names. *)
Definition floor_of_float (f : float) : result Z :=
  match Prim2SF f with
  | S754_nan => Raise ValueError
  | S754_infinity _ => Raise OverflowError
  | S754_zero _ => Ok 0
  | S754_finite s m e =>
      Ok (match e with
          | Zneg k => Z.div (signed_mantissa s m) (2 ^ Zpos k)
          | _ => signed_mantissa s m * 2 ^ e
          end)
  end.

Definition py_floor (a : pynum) : result Z :=
  match a with
  | PyInt z => Ok z
  | PyFloat f => floor_of_float f
  end.

(** Exact comparison of an int with a float (Python compares the
    mathematical values; a NaN is unordered). *)
Definition int_float_compare (z : Z) (f : float) : option comparison :=
  match Prim2SF f with
  | S754_nan => None
  | S754_infinity s => Some (if s then Gt else Lt)
  | S754_zero _ => Some (z ?= 0)
  | S754_finite s m e =>
      Some (match e with
            | Zneg k => (z * 2 ^ Zpos k ?= signed_mantissa s m)
            | _ => (z ?= signed_mantissa s m * 2 ^ e)
            end)
  end.

(** [a < y] and [a > y] for a float [y]. *)
Definition py_lt (a : pynum) (y : float) : bool :=
  match a with
  | PyFloat x => (x <? y)%float
  | PyInt z => match int_float_compare z y with Some Lt => true | _ => false end
  end.

Definition py_gt (a : pynum) (y : float) : bool :=
  match a with
  | PyFloat x => (y <? x)%float
  | PyInt z => match int_float_compare z y with Some Gt => true | _ => false end
  end.

(** Truth value of an optional number: [None], [0], [0.0] and [-0.0] are
    falsy, everything else (a NaN included) is truthy. *)
Definition num_truthy (a : pynum) : bool :=
  match a with
  | PyInt z => negb (z =? 0)
  | PyFloat f => negb (f =? 0)%float
  end.

Definition truthy (a : option pynum) : bool :=
  match a with
  | None => false
  | Some n => num_truthy n
  end.

Definition float_finite (f : float) : bool :=
  negb (is_nan f) && negb (is_infinity f).

(** *** Properties *)

Lemma Ok_inj {A : Type} (a b : A) : Ok a = Ok b -> a = b.
Proof. intros H. injection H. trivial. Qed.

End Py.

(** ** Coordinate mapper: the [mouse_move] branch of [process_control_event] *)

Module Mapper.
Import Py.

(** [self.monitor_dims]: the capturable desktop rectangle (ints from mss, or
    the fallback 1920x1080 at the origin). *)
Record MonitorGeometry : Set := {
  left : Z;
  top : Z;
  width : Z;
  height : Z
}.

Definition fallback_dims : MonitorGeometry :=
  {| left := 0; top := 0; width := 1920; height := 1080 |}.

(** The [data] object of a [mouse_move] event. [client_video_width] and
    [client_video_height] are read with [data.get], so an absent key and a
    JSON [null] are both [None]. *)
Record mouse_move_data : Set := {
  rel_x : pynum;
  rel_y : pynum;
  client_video_width : option pynum;
  client_video_height : option pynum
}.

(** What the host did with the event: set the pointer position, returned
    without injecting anything, or raised inside the [try] (caught and
    logged, nothing injected). *)
Inductive move_outcome : Set :=
| Moved (target_x target_y : Z)
| NotMoved
| Failed (e : pyexn).

(** [int(rel * dim) + origin] *)
Definition scale_axis (rel : pynum) (dim origin : Z) : result Z :=
  p <- py_mul_int rel dim ;;
  i <- py_int p ;;
  Ok (i + origin).

(** [max(origin, min(target, origin + dim - 1))] *)
Definition clamp (origin dim target : Z) : Z :=
  Z.max origin (Z.min target (origin + dim - 1)).

(** The aspect-ratio correction of the [else] branch: [Ok None] is the
    early [return] inside a padding band, [Ok (Some (x, y))] the corrected
    normalized position. *)
Definition aspect_correct (server_width server_height : Z)
  (client_rel_x client_rel_y client_width client_height : pynum)
  : result (option (pynum * pynum)) :=
  server_aspect <- int_truediv server_width server_height ;;
  client_aspect <- py_truediv client_width client_height ;;
  if (server_aspect <? client_aspect)%float then
    scale <- float_truediv server_aspect client_aspect ;;
    let offset := ((1 - scale) / 2)%float in
    if py_lt client_rel_y offset || py_gt client_rel_y (1 - offset)%float
    then Ok None
    else
      d <- py_sub_float client_rel_y offset ;;
      corrected_rel_y <- float_truediv d scale ;;
      Ok (Some (client_rel_x, PyFloat corrected_rel_y))
  else if (client_aspect <? server_aspect)%float then
    scale <- float_truediv client_aspect server_aspect ;;
    let offset := ((1 - scale) / 2)%float in
    if py_lt client_rel_x offset || py_gt client_rel_x (1 - offset)%float
    then Ok None
    else
      d <- py_sub_float client_rel_x offset ;;
      corrected_rel_x <- float_truediv d scale ;;
      Ok (Some (PyFloat corrected_rel_x, client_rel_y))
  else Ok (Some (client_rel_x, client_rel_y)).

(** The unclamped target of the naive path. *)
Definition naive_target (g : MonitorGeometry) (data : mouse_move_data)
  : result (Z * Z) :=
  target_x <- scale_axis (rel_x data) (width g) (left g) ;;
  target_y <- scale_axis (rel_y data) (height g) (top g) ;;
  Ok (target_x, target_y).

(** The unclamped target, or [None] for the early [return]. *)
Definition mouse_move_target (g : MonitorGeometry) (data : mouse_move_data)
  : result (option (Z * Z)) :=
  match client_video_width data, client_video_height data with
  | Some client_width, Some client_height =>
      if negb (num_truthy client_width) || negb (num_truthy client_height)
      then t <- naive_target g data ;; Ok (Some t)
      else
        c <- aspect_correct (width g) (height g) (rel_x data) (rel_y data)
               client_width client_height ;;
        match c with
        | None => Ok None
        | Some (corrected_rel_x, corrected_rel_y) =>
            target_x <- scale_axis corrected_rel_x (width g) (left g) ;;
            target_y <- scale_axis corrected_rel_y (height g) (top g) ;;
            Ok (Some (target_x, target_y))
        end
  | _, _ => t <- naive_target g data ;; Ok (Some t)
  end.

(** [process_control_event] on an event of type ['mouse_move'] with the
    given [data] (the other event types do not touch the pointer position).
    [controllers] is false when [PYNPUT_SUPPORT] is off or a controller is
    [None]: the method then returns at once. *)
Definition process_control_event (controllers : bool) (monitor_dims : MonitorGeometry)
  (data : mouse_move_data) : move_outcome :=
  if negb controllers then NotMoved
  else
    match mouse_move_target monitor_dims data with
    | Raise e => Failed e
    | Ok None => NotMoved
    | Ok (Some (target_x, target_y)) =>
        Moved (clamp (left monitor_dims) (width monitor_dims) target_x)
              (clamp (top monitor_dims) (height monitor_dims) target_y)
    end.

(** **** Sample events *)

(** An event at the centre of the video surface from a viewer that does
    not report its dimensions. *)
Definition centre_legacy : mouse_move_data :=
  {| rel_x := PyFloat 0.5; rel_y := PyFloat 0.5;
     client_video_width := None; client_video_height := None |}.

(** The 1600x900 viewer of the specification's example. *)
Definition centre_1600x900 : mouse_move_data :=
  {| rel_x := PyFloat 0.5; rel_y := PyFloat 0.5;
     client_video_width := Some (PyInt 1600);
     client_video_height := Some (PyInt 900) |}.

(** The 2000x1000 viewer of the specification's example, a quarter of the
    way across and at height [y]. *)
Definition letterboxed (y : float) : mouse_move_data :=
  {| rel_x := PyFloat 0.25; rel_y := PyFloat y;
     client_video_width := Some (PyInt 2000);
     client_video_height := Some (PyInt 1000) |}.

(** The same event with the viewer dimensions removed. *)
Definition without_dims (data : mouse_move_data) : mouse_move_data :=
  {| rel_x := rel_x data; rel_y := rel_y data;
     client_video_width := None; client_video_height := None |}.

(** [rel * dim] is a finite number, so that [int] accepts it. *)
Definition scalable (rel : pynum) (dim : Z) : Prop :=
  match rel with
  | PyInt _ => True
  | PyFloat f => exists w, float_of_int dim = Ok w /\ float_finite (f * w) = true
  end.

(** A viewer that reports a zero height, on a rectangle of height zero. *)
Definition zero_height : mouse_move_data :=
  {| rel_x := PyFloat 0.5; rel_y := PyInt 1;
     client_video_width := Some (PyInt 1600);
     client_video_height := Some (PyInt 0) |}.

(** A viewer that reports a zero width and the horizontal position [x],
    which [json.loads] also reads from [NaN] and [Infinity]. *)
Definition zero_width (x : float) : mouse_move_data :=
  {| rel_x := PyFloat x; rel_y := PyFloat 0.5;
     client_video_width := Some (PyInt 0);
     client_video_height := Some (PyInt 900) |}.

(** The event of a viewer that sends whole numbers and no dimensions. *)
Definition at_integers (a b : Z) : mouse_move_data :=
  {| rel_x := PyInt a; rel_y := PyInt b;
     client_video_width := None; client_video_height := None |}.

(** *** Properties *)

(** **** Clamping and rounding *)

Lemma clamp_bounds (origin dim target : Z) :
  1 <= dim -> origin <= clamp origin dim target <= origin + dim - 1.
Proof. unfold clamp. lia. Qed.

Lemma clamp_nonpositive (dim target : Z) :
  1 <= dim -> target <= 0 -> clamp 0 dim target = 0.
Proof. unfold clamp. lia. Qed.

Lemma pow2_pos (k : positive) : 0 < 2 ^ Zpos k.
Proof. apply Z.pow_pos_nonneg; lia. Qed.

(** Truncation and floor of a float agree once clamped to a rectangle whose
    origin is 0: they differ only below zero. *)
Lemma int_floor_of_float_clamp (f : float) (dim i : Z) :
  1 <= dim ->
  floor_of_float f = Ok i ->
  exists j, int_of_float f = Ok j /\ clamp 0 dim j = clamp 0 dim i.
Proof.
  intros Hdim. unfold floor_of_float, int_of_float.
  destruct (Prim2SF f) as [s| s| |s m e]; try discriminate.
  - intros [= <-]. eauto.
  - destruct e as [|p|k].
    + intros [= <-]. eauto.
    + intros [= <-]. eauto.
    + intros [= <-]. eexists; split; [reflexivity|].
      pose proof (pow2_pos k) as Hk.
      destruct s; cbn [signed_mantissa].
      * rewrite !clamp_nonpositive; trivial.
        -- apply Z.lt_le_incl, Z.div_lt_upper_bound; lia.
        -- change (Zneg m) with (- Zpos m). rewrite Z.quot_opp_l by lia.
           pose proof (Z.quot_pos (Zpos m) (2 ^ Zpos k)). lia.
      * rewrite Z.quot_div_nonneg by lia. reflexivity.
Qed.

Lemma py_int_floor_clamp (p : pynum) (dim i : Z) :
  1 <= dim ->
  py_floor p = Ok i ->
  exists j, py_int p = Ok j /\ clamp 0 dim j = clamp 0 dim i.
Proof.
  destruct p as [z|f]; cbn [py_floor py_int].
  - intros _ [= <-]. eauto.
  - apply int_floor_of_float_clamp.
Qed.

(** **** The naive path *)

Lemma mouse_move_target_naive (g : MonitorGeometry) (data : mouse_move_data) :
  truthy (client_video_width data) = false \/
  truthy (client_video_height data) = false ->
  mouse_move_target g data = (t <- naive_target g data ;; Ok (Some t)).
Proof.
  unfold mouse_move_target, truthy.
  destruct (client_video_width data) as [cw|], (client_video_height data) as [ch|];
    try reflexivity.
  intros [H | H]; rewrite H; cbn [negb orb]; [reflexivity|].
  rewrite orb_true_r. reflexivity.
Qed.

Lemma process_control_event_in_bounds (c : bool) (g : MonitorGeometry)
  (data : mouse_move_data) (x y : Z) :
  1 <= width g -> 1 <= height g ->
  process_control_event c g data = Moved x y ->
  left g <= x <= left g + width g - 1 /\ top g <= y <= top g + height g - 1.
Proof.
  intros Hw Hh. unfold process_control_event.
  destruct (negb c); [discriminate|].
  destruct (mouse_move_target g data) as [[[tx ty]|]|e]; try discriminate.
  intros [= <- <-]. split; apply clamp_bounds; assumption.
Qed.

(** With equal aspect ratios neither correction branch is taken. *)
Lemma aspect_correct_equal (sw sh : Z) (rx ry cw ch : pynum) (sa ca : float) :
  int_truediv sw sh = Ok sa ->
  py_truediv cw ch = Ok ca ->
  (sa <? ca)%float = false ->
  (ca <? sa)%float = false ->
  aspect_correct sw sh rx ry cw ch = Ok (Some (rx, ry)).
Proof.
  intros Hsa Hca Hgt Hlt. unfold aspect_correct.
  rewrite Hsa. cbn [bind]. rewrite Hca. cbn [bind].
  rewrite Hgt, Hlt. reflexivity.
Qed.

(** **** Naive scaling and clamping *)

(** C1. For a [mouse_move] event on a rectangle of positive width and
    height: (1) when the event carries no, or a falsy,
    [client_video_width] or [client_video_height], the pointer is set to
    [int(rel_x * width) + left], [int(rel_y * height) + top], clamped;
    (2) whatever path is taken, an injected coordinate lies in
    [[left, left + width - 1]] x [[top, top + height - 1]];
    (3) on the 1920x1080 rectangle at (0,0), when the viewer's aspect ratio
    equals the capture's, the pointer is set to [floor(rel_x * 1920)],
    [floor(rel_y * 1080)] clamped to [[0,1919]] x [[0,1079]]. *)
Theorem mouse_move_naive_scaling_and_clamp
  (g : MonitorGeometry) (data : mouse_move_data)
  (Hwidth : 1 <= width g) (Hheight : 1 <= height g) :
  (truthy (client_video_width data) = false \/
   truthy (client_video_height data) = false ->
   forall px py ix iy,
     py_mul_int (rel_x data) (width g) = Ok px -> py_int px = Ok ix ->
     py_mul_int (rel_y data) (height g) = Ok py -> py_int py = Ok iy ->
     process_control_event true g data =
     Moved (clamp (left g) (width g) (ix + left g))
           (clamp (top g) (height g) (iy + top g)))
  /\
  (forall c x y,
     process_control_event c g data = Moved x y ->
     left g <= x <= left g + width g - 1 /\
     top g <= y <= top g + height g - 1)
  /\
  (g = fallback_dims ->
   forall cw ch sa ca px py fx fy,
     client_video_width data = Some cw -> num_truthy cw = true ->
     client_video_height data = Some ch -> num_truthy ch = true ->
     int_truediv 1920 1080 = Ok sa -> py_truediv cw ch = Ok ca ->
     (sa <? ca)%float = false -> (ca <? sa)%float = false ->
     py_mul_int (rel_x data) 1920 = Ok px -> py_floor px = Ok fx ->
     py_mul_int (rel_y data) 1080 = Ok py -> py_floor py = Ok fy ->
     process_control_event true g data =
     Moved (clamp 0 1920 fx) (clamp 0 1080 fy) /\
     0 <= clamp 0 1920 fx <= 1919 /\ 0 <= clamp 0 1080 fy <= 1079).
Proof.
  split; [|split].
  - intros Hfalsy px py ix iy Hpx Hix Hpy Hiy.
    unfold process_control_event. cbn [negb].
    rewrite (mouse_move_target_naive g data Hfalsy).
    unfold naive_target, scale_axis.
    rewrite Hpx. cbn [bind]. rewrite Hix. cbn [bind].
    rewrite Hpy. cbn [bind]. rewrite Hiy. reflexivity.
  - intros c x y Hmove.
    exact (process_control_event_in_bounds c g data x y Hwidth Hheight Hmove).
  - intros -> cw ch sa ca px py fx fy Hcw Tcw Hch Tch Hsa Hca Hgt Hlt
           Hpx Hfx Hpy Hfy.
    destruct (py_int_floor_clamp px 1920 fx ltac:(lia) Hfx) as (ix & Hix & Ex).
    destruct (py_int_floor_clamp py 1080 fy ltac:(lia) Hfy) as (iy & Hiy & Ey).
    split.
    + unfold process_control_event, mouse_move_target. cbn [negb].
      rewrite Hcw, Hch, Tcw, Tch. cbn [negb orb fallback_dims width height left top].
      rewrite (aspect_correct_equal _ _ _ _ _ _ sa ca Hsa Hca Hgt Hlt).
      cbn [bind]. unfold scale_axis.
      rewrite Hpx. cbn [bind]. rewrite Hix. cbn [bind].
      rewrite Hpy. cbn [bind]. rewrite Hiy. cbn [bind].
      rewrite !Z.add_0_r, Ex, Ey. reflexivity.
    + pose proof (clamp_bounds 0 1920 fx ltac:(lia)).
      pose proof (clamp_bounds 0 1080 fy ltac:(lia)). lia.
Qed.

Lemma mouse_move_naive_scaling_and_clamp_witness :
  process_control_event true fallback_dims centre_legacy = Moved 960 540 /\
  process_control_event true fallback_dims centre_1600x900 = Moved 960 540.
Proof.
  split.
  - refine (proj1 (mouse_move_naive_scaling_and_clamp fallback_dims centre_legacy
                     _ _) _ (PyFloat 960) (PyFloat 540) 960 540 _ _ _ _);
      first [ discriminate | left; reflexivity | vm_compute; reflexivity ].
  - refine (proj1 (proj2 (proj2 (mouse_move_naive_scaling_and_clamp fallback_dims
                     centre_1600x900 _ _)) eq_refl
                     (PyInt 1600) (PyInt 900)
                     (1920 / 1080)%float (1600 / 900)%float
                     (PyFloat 960) (PyFloat 540) 960 540
                     _ _ _ _ _ _ _ _ _ _ _ _));
      first [ discriminate | vm_compute; reflexivity ].
Defined.

(** **** Letterboxing and pillarboxing *)

Section AspectCorrection.

Variables (g : MonitorGeometry) (data : mouse_move_data).
Variables (client_width client_height : pynum).
Variables (server_aspect client_aspect scale : float).

Hypothesis Hwidth : client_video_width data = Some client_width.
Hypothesis Hheight : client_video_height data = Some client_height.
Hypothesis Twidth : num_truthy client_width = true.
Hypothesis Theight : num_truthy client_height = true.
Hypothesis Hserver : int_truediv (width g) (height g) = Ok server_aspect.
Hypothesis Hclient : py_truediv client_width client_height = Ok client_aspect.

Let offset : float := ((1 - scale) / 2)%float.

Lemma target_reported_dims :
  mouse_move_target g data =
  (c <- aspect_correct (width g) (height g) (rel_x data) (rel_y data)
          client_width client_height ;;
   match c with
   | None => Ok None
   | Some (corrected_rel_x, corrected_rel_y) =>
       target_x <- scale_axis corrected_rel_x (width g) (left g) ;;
       target_y <- scale_axis corrected_rel_y (height g) (top g) ;;
       Ok (Some (target_x, target_y))
   end).
Proof.
  unfold mouse_move_target. rewrite Hwidth, Hheight, Twidth, Theight.
  reflexivity.
Qed.

(** Viewer relatively wider than the capture: the Y axis is corrected. *)
Lemma letterbox_correct :
  (server_aspect <? client_aspect)%float = true ->
  float_truediv server_aspect client_aspect = Ok scale ->
  aspect_correct (width g) (height g) (rel_x data) (rel_y data)
    client_width client_height =
  if py_lt (rel_y data) offset || py_gt (rel_y data) (1 - offset)%float
  then Ok None
  else d <- py_sub_float (rel_y data) offset ;;
       corrected_rel_y <- float_truediv d scale ;;
       Ok (Some (rel_x data, PyFloat corrected_rel_y)).
Proof.
  intros Hgt Hscale. unfold aspect_correct.
  rewrite Hserver. cbn [bind]. rewrite Hclient. cbn [bind].
  rewrite Hgt, Hscale. reflexivity.
Qed.

(** Viewer relatively taller than the capture: the X axis is corrected. *)
Lemma pillarbox_correct :
  (server_aspect <? client_aspect)%float = false ->
  (client_aspect <? server_aspect)%float = true ->
  float_truediv client_aspect server_aspect = Ok scale ->
  aspect_correct (width g) (height g) (rel_x data) (rel_y data)
    client_width client_height =
  if py_lt (rel_x data) offset || py_gt (rel_x data) (1 - offset)%float
  then Ok None
  else d <- py_sub_float (rel_x data) offset ;;
       corrected_rel_x <- float_truediv d scale ;;
       Ok (Some (PyFloat corrected_rel_x, rel_y data)).
Proof.
  intros Hgt Hlt Hscale. unfold aspect_correct.
  rewrite Hserver. cbn [bind]. rewrite Hclient. cbn [bind].
  rewrite Hgt, Hlt, Hscale. reflexivity.
Qed.

Lemma letterbox_dropped (c : bool) :
  (server_aspect <? client_aspect)%float = true ->
  float_truediv server_aspect client_aspect = Ok scale ->
  py_lt (rel_y data) offset = true \/
  py_gt (rel_y data) (1 - offset)%float = true ->
  process_control_event c g data = NotMoved.
Proof.
  intros Hgt Hscale Hband. unfold process_control_event.
  destruct (negb c); [reflexivity|].
  rewrite target_reported_dims, (letterbox_correct Hgt Hscale).
  replace (py_lt (rel_y data) offset || py_gt (rel_y data) (1 - offset)%float)
    with true by (destruct Hband as [-> | ->]; now rewrite ?orb_true_r).
  reflexivity.
Qed.

Lemma letterbox_mapped (d corrected_rel_y : float) (target_x target_y : Z) :
  (server_aspect <? client_aspect)%float = true ->
  float_truediv server_aspect client_aspect = Ok scale ->
  py_lt (rel_y data) offset = false ->
  py_gt (rel_y data) (1 - offset)%float = false ->
  py_sub_float (rel_y data) offset = Ok d ->
  float_truediv d scale = Ok corrected_rel_y ->
  scale_axis (rel_x data) (width g) (left g) = Ok target_x ->
  scale_axis (PyFloat corrected_rel_y) (height g) (top g) = Ok target_y ->
  process_control_event true g data =
  Moved (clamp (left g) (width g) target_x) (clamp (top g) (height g) target_y).
Proof.
  intros Hgt Hscale Hlo Hhi Hd Hc Hx Hy. unfold process_control_event. cbn [negb].
  rewrite target_reported_dims, (letterbox_correct Hgt Hscale), Hlo, Hhi.
  cbn [orb]. rewrite Hd. cbn [bind]. rewrite Hc. cbn [bind].
  rewrite Hx. cbn [bind]. rewrite Hy. reflexivity.
Qed.

Lemma pillarbox_dropped (c : bool) :
  (server_aspect <? client_aspect)%float = false ->
  (client_aspect <? server_aspect)%float = true ->
  float_truediv client_aspect server_aspect = Ok scale ->
  py_lt (rel_x data) offset = true \/
  py_gt (rel_x data) (1 - offset)%float = true ->
  process_control_event c g data = NotMoved.
Proof.
  intros Hgt Hlt Hscale Hband. unfold process_control_event.
  destruct (negb c); [reflexivity|].
  rewrite target_reported_dims, (pillarbox_correct Hgt Hlt Hscale).
  replace (py_lt (rel_x data) offset || py_gt (rel_x data) (1 - offset)%float)
    with true by (destruct Hband as [-> | ->]; now rewrite ?orb_true_r).
  reflexivity.
Qed.

Lemma pillarbox_mapped (d corrected_rel_x : float) (target_x target_y : Z) :
  (server_aspect <? client_aspect)%float = false ->
  (client_aspect <? server_aspect)%float = true ->
  float_truediv client_aspect server_aspect = Ok scale ->
  py_lt (rel_x data) offset = false ->
  py_gt (rel_x data) (1 - offset)%float = false ->
  py_sub_float (rel_x data) offset = Ok d ->
  float_truediv d scale = Ok corrected_rel_x ->
  scale_axis (PyFloat corrected_rel_x) (width g) (left g) = Ok target_x ->
  scale_axis (rel_y data) (height g) (top g) = Ok target_y ->
  process_control_event true g data =
  Moved (clamp (left g) (width g) target_x) (clamp (top g) (height g) target_y).
Proof.
  intros Hgt Hlt Hscale Hlo Hhi Hd Hc Hx Hy. unfold process_control_event. cbn [negb].
  rewrite target_reported_dims, (pillarbox_correct Hgt Hlt Hscale), Hlo, Hhi.
  cbn [orb]. rewrite Hd. cbn [bind]. rewrite Hc. cbn [bind].
  rewrite Hx. cbn [bind]. rewrite Hy. reflexivity.
Qed.

End AspectCorrection.

(** C2. For a [mouse_move] event with reported (truthy) viewer dimensions,
    with [server_aspect = width / height] of the capture and
    [client_aspect = client_width / client_height]:
    when [client_aspect > server_aspect], with
    [scale = server_aspect / client_aspect] and [offset = (1 - scale) / 2],
    a [rel_y] below [offset] or above [1 - offset] injects no pointer move,
    and otherwise [rel_y] is replaced by [(rel_y - offset) / scale] before
    the scaling to host pixels; symmetrically on [rel_x] when
    [client_aspect < server_aspect].  For a 2000x1000 viewer on the
    1920x1080 capture, [rel_y = 0.03] is dropped and [rel_y = 0.5] is mapped
    to row 540. *)
Theorem aspect_ratio_correction
  (g : MonitorGeometry) (data : mouse_move_data)
  (client_width client_height : pynum) (server_aspect client_aspect : float)
  (Hwidth : client_video_width data = Some client_width)
  (Hheight : client_video_height data = Some client_height)
  (Twidth : num_truthy client_width = true)
  (Theight : num_truthy client_height = true)
  (Hserver : int_truediv (width g) (height g) = Ok server_aspect)
  (Hclient : py_truediv client_width client_height = Ok client_aspect) :
  ((server_aspect <? client_aspect)%float = true ->
   forall scale, float_truediv server_aspect client_aspect = Ok scale ->
   let offset := ((1 - scale) / 2)%float in
   (py_lt (rel_y data) offset = true \/
    py_gt (rel_y data) (1 - offset)%float = true ->
    forall c, process_control_event c g data = NotMoved)
   /\
   (py_lt (rel_y data) offset = false ->
    py_gt (rel_y data) (1 - offset)%float = false ->
    forall d corrected_rel_y target_x target_y,
      py_sub_float (rel_y data) offset = Ok d ->
      float_truediv d scale = Ok corrected_rel_y ->
      scale_axis (rel_x data) (width g) (left g) = Ok target_x ->
      scale_axis (PyFloat corrected_rel_y) (height g) (top g) = Ok target_y ->
      process_control_event true g data =
      Moved (clamp (left g) (width g) target_x)
            (clamp (top g) (height g) target_y)))
  /\
  ((server_aspect <? client_aspect)%float = false ->
   (client_aspect <? server_aspect)%float = true ->
   forall scale, float_truediv client_aspect server_aspect = Ok scale ->
   let offset := ((1 - scale) / 2)%float in
   (py_lt (rel_x data) offset = true \/
    py_gt (rel_x data) (1 - offset)%float = true ->
    forall c, process_control_event c g data = NotMoved)
   /\
   (py_lt (rel_x data) offset = false ->
    py_gt (rel_x data) (1 - offset)%float = false ->
    forall d corrected_rel_x target_x target_y,
      py_sub_float (rel_x data) offset = Ok d ->
      float_truediv d scale = Ok corrected_rel_x ->
      scale_axis (PyFloat corrected_rel_x) (width g) (left g) = Ok target_x ->
      scale_axis (rel_y data) (height g) (top g) = Ok target_y ->
      process_control_event true g data =
      Moved (clamp (left g) (width g) target_x)
            (clamp (top g) (height g) target_y)))
  /\
  (g = fallback_dims ->
   client_width = PyInt 2000 -> client_height = PyInt 1000 ->
   (rel_y data = PyFloat 0x1.eb851eb851eb8p-6 (* 0.03 *) ->
    forall c, process_control_event c g data = NotMoved)
   /\
   (rel_y data = PyFloat 0.5 ->
    forall target_x,
      scale_axis (rel_x data) 1920 0 = Ok target_x ->
      process_control_event true g data = Moved (clamp 0 1920 target_x) 540)).
Proof.
  split; [|split].
  - intros Hgt scale Hscale offset. split.
    + intros Hband c.
      exact (letterbox_dropped g data client_width client_height server_aspect
               client_aspect scale Hwidth Hheight Twidth Theight Hserver Hclient
               c Hgt Hscale Hband).
    + intros Hlo Hhi d cy tx ty Hd Hc Hx Hy.
      exact (letterbox_mapped g data client_width client_height server_aspect
               client_aspect scale Hwidth Hheight Twidth Theight Hserver Hclient
               d cy tx ty Hgt Hscale Hlo Hhi Hd Hc Hx Hy).
  - intros Hgt Hlt scale Hscale offset. split.
    + intros Hband c.
      exact (pillarbox_dropped g data client_width client_height server_aspect
               client_aspect scale Hwidth Hheight Twidth Theight Hserver Hclient
               c Hgt Hlt Hscale Hband).
    + intros Hlo Hhi d cx tx ty Hd Hc Hx Hy.
      exact (pillarbox_mapped g data client_width client_height server_aspect
               client_aspect scale Hwidth Hheight Twidth Theight Hserver Hclient
               d cx tx ty Hgt Hlt Hscale Hlo Hhi Hd Hc Hx Hy).
  - intros -> -> ->.
    assert (Hsa : Ok server_aspect = Ok (1920 / 1080)%float)
      by (rewrite <- Hserver; vm_compute; reflexivity).
    assert (Hca : Ok client_aspect = Ok 2%float)
      by (rewrite <- Hclient; vm_compute; reflexivity).
    injection Hsa as ->. injection Hca as ->. split.
    + intros Hy c.
      apply (letterbox_dropped fallback_dims data (PyInt 2000) (PyInt 1000)
               (1920 / 1080)%float 2%float ((1920 / 1080) / 2)%float
               Hwidth Hheight Twidth Theight Hserver Hclient c).
      * vm_compute; reflexivity.
      * vm_compute; reflexivity.
      * left. rewrite Hy. vm_compute; reflexivity.
    + intros Hy tx Hx.
      apply (letterbox_mapped fallback_dims data (PyInt 2000) (PyInt 1000)
               (1920 / 1080)%float 2%float ((1920 / 1080) / 2)%float
               Hwidth Hheight Twidth Theight Hserver Hclient
               (0.5 - (1 - (1920 / 1080) / 2) / 2)%float 0.5%float tx 540);
        rewrite ?Hy; try (vm_compute; reflexivity).
      exact Hx.
Qed.

Lemma aspect_ratio_correction_witness :
  process_control_event true fallback_dims (letterboxed 0x1.eb851eb851eb8p-6)
  = NotMoved /\
  process_control_event true fallback_dims (letterboxed 0.5) = Moved 480 540.
Proof.
  split.
  - refine (proj1 (proj2 (proj2 (aspect_ratio_correction fallback_dims
              (letterboxed 0x1.eb851eb851eb8p-6) (PyInt 2000) (PyInt 1000)
              (1920 / 1080)%float 2%float _ _ _ _ _ _)) eq_refl eq_refl eq_refl)
              eq_refl true); vm_compute; reflexivity.
  - refine (proj2 (proj2 (proj2 (aspect_ratio_correction fallback_dims
              (letterboxed 0.5) (PyInt 2000) (PyInt 1000)
              (1920 / 1080)%float 2%float _ _ _ _ _ _)) eq_refl eq_refl eq_refl)
              eq_refl 480 _); vm_compute; reflexivity.
Defined.

(** **** The guard against a missing or zero viewer dimension *)

Lemma int_of_float_finite (f : float) :
  float_finite f = true -> exists i, int_of_float f = Ok i.
Proof.
  unfold float_finite, int_of_float, Prim2SF. intros H.
  apply andb_true_iff in H. destruct H as [Hnan Hinf].
  apply negb_true_iff in Hnan. apply negb_true_iff in Hinf.
  rewrite Hnan, Hinf.
  destruct (is_zero f); [eauto|].
  destruct (Z.frexp f) as [r e].
  destruct (shr_fexp prec emax _ _ _) as [shr e'].
  destruct (shr_m shr); eauto.
Qed.

Lemma scale_axis_scalable (rel : pynum) (dim origin : Z) :
  scalable rel dim -> exists t, scale_axis rel dim origin = Ok t.
Proof.
  unfold scalable, scale_axis. destruct rel as [z|f]; cbn [py_mul_int bind py_int].
  - eauto.
  - intros (w & -> & Hfin). cbn [bind py_int].
    destruct (int_of_float_finite _ Hfin) as (i & ->). cbn [bind]. eauto.
Qed.

Lemma float_of_int_error (z : Z) (e : pyexn) :
  float_of_int z = Raise e -> e = OverflowError.
Proof.
  unfold float_of_int.
  destruct (binary_normalize prec emax z 0 false); congruence.
Qed.

Lemma int_of_float_error (f : float) (e : pyexn) :
  int_of_float f = Raise e -> e = ValueError \/ e = OverflowError.
Proof.
  unfold int_of_float. destruct (Prim2SF f); intros [=]; auto.
Qed.

(** The scaling of one axis divides nothing. *)
Lemma scale_axis_error (rel : pynum) (dim origin : Z) (e : pyexn) :
  scale_axis rel dim origin = Raise e -> e <> ZeroDivisionError.
Proof.
  unfold scale_axis. destruct rel as [z|f]; cbn [py_mul_int bind py_int].
  - discriminate.
  - destruct (float_of_int dim) as [w|e'] eqn:Hw; cbn [bind py_int].
    + destruct (int_of_float (f * w)) as [i|e'] eqn:Hi; cbn [bind]; [discriminate|].
      intros [= <-]. destruct (int_of_float_error _ _ Hi); congruence.
    + intros [= <-]. rewrite (float_of_int_error _ _ Hw). discriminate.
Qed.

Lemma naive_target_error (g : MonitorGeometry) (data : mouse_move_data) (e : pyexn) :
  naive_target g data = Raise e -> e <> ZeroDivisionError.
Proof.
  unfold naive_target.
  destruct (scale_axis (rel_x data) (width g) (left g)) as [tx|ex] eqn:Hx; cbn [bind].
  - destruct (scale_axis (rel_y data) (height g) (top g)) as [ty|ey] eqn:Hy;
      cbn [bind]; [discriminate|].
    intros [= <-]. exact (scale_axis_error _ _ _ _ Hy).
  - intros [= <-]. exact (scale_axis_error _ _ _ _ Hx).
Qed.

Lemma SFeqb_refl_finite (s : bool) (m : positive) (e : Z) :
  SFeqb (S754_finite s m e) (S754_finite s m e) = true.
Proof.
  unfold SFeqb, SFcompare.
  destruct s; rewrite Z.compare_refl, ?Pos.compare_cont_refl; reflexivity.
Qed.

(** [int] accepts finite floats only. *)
Lemma int_of_float_ok (f : float) (i : Z) :
  int_of_float f = Ok i -> float_finite f = true.
Proof.
  unfold int_of_float, float_finite, is_nan, is_infinity.
  rewrite !eqb_spec, abs_spec.
  destruct (Prim2SF f) as [s| s| |s m e]; try discriminate; intros _.
  - destruct s; reflexivity.
  - rewrite SFeqb_refl_finite. destruct s; reflexivity.
Qed.

Lemma scale_axis_ok (rel : pynum) (dim origin t : Z) :
  scale_axis rel dim origin = Ok t -> scalable rel dim.
Proof.
  unfold scalable, scale_axis. destruct rel as [z|f]; [trivial|].
  cbn [py_mul_int bind].
  destruct (float_of_int dim) as [w|e]; cbn [bind py_int]; [|discriminate].
  destruct (int_of_float (f * w)) as [i|e] eqn:Hi; cbn [bind]; [|discriminate].
  intros _. exists w. split; [reflexivity|]. exact (int_of_float_ok _ _ Hi).
Qed.

(** The naive path raises what [float] and [int] raise. *)
Lemma scale_axis_raises (rel : pynum) (dim origin : Z) (e : pyexn) :
  scale_axis rel dim origin = Raise e -> e = ValueError \/ e = OverflowError.
Proof.
  unfold scale_axis. destruct rel as [z|f]; cbn [py_mul_int bind py_int].
  - discriminate.
  - destruct (float_of_int dim) as [w|e'] eqn:Hw; cbn [bind py_int].
    + destruct (int_of_float (f * w)) as [i|e'] eqn:Hi; cbn [bind]; [discriminate|].
      intros [= <-]. exact (int_of_float_error _ _ Hi).
    + intros [= <-]. right. exact (float_of_int_error _ _ Hw).
Qed.

Lemma naive_target_raises (g : MonitorGeometry) (data : mouse_move_data)
  (e : pyexn) :
  naive_target g data = Raise e -> e = ValueError \/ e = OverflowError.
Proof.
  unfold naive_target.
  destruct (scale_axis (rel_x data) (width g) (left g)) as [tx|ex] eqn:Hx; cbn [bind].
  - destruct (scale_axis (rel_y data) (height g) (top g)) as [ty|ey] eqn:Hy;
      cbn [bind]; [discriminate|].
    intros [= <-]. exact (scale_axis_raises _ _ _ _ Hy).
  - intros [= <-]. exact (scale_axis_raises _ _ _ _ Hx).
Qed.

(** C10. When [client_video_width] or [client_video_height] is absent, zero
    or otherwise falsy, the event takes the naive path: it is processed
    exactly as the event without viewer dimensions, no division
    (neither [server_width / server_height] nor
    [client_width / client_height]) is evaluated, so no
    [ZeroDivisionError] arises whatever the rectangle and the other
    dimension are.  The event is not always processed without error: the
    pointer is moved exactly when the products of the position with the
    rectangle's sides are finite, and otherwise [int] raises [ValueError]
    or [OverflowError] inside the [try]. *)
Theorem falsy_dims_take_naive_path
  (g : MonitorGeometry) (data : mouse_move_data)
  (Hfalsy : truthy (client_video_width data) = false \/
            truthy (client_video_height data) = false) :
  (forall c, process_control_event c g data =
             process_control_event c g (without_dims data))
  /\
  (forall c, process_control_event c g data =
             if negb c then NotMoved
             else match naive_target g data with
                  | Ok (target_x, target_y) =>
                      Moved (clamp (left g) (width g) target_x)
                            (clamp (top g) (height g) target_y)
                  | Raise e => Failed e
                  end)
  /\
  (forall c, process_control_event c g data <> Failed ZeroDivisionError)
  /\
  (forall c e, process_control_event c g data = Failed e ->
               e = ValueError \/ e = OverflowError)
  /\
  (scalable (rel_x data) (width g) /\ scalable (rel_y data) (height g) <->
   exists x y, process_control_event true g data = Moved x y)
  /\
  ((exists x y, process_control_event true g data = Moved x y) \/
   (exists e, process_control_event true g data = Failed e)).
Proof.
  assert (Hnaive : forall c, process_control_event c g data =
             if negb c then NotMoved
             else match naive_target g data with
                  | Ok (target_x, target_y) =>
                      Moved (clamp (left g) (width g) target_x)
                            (clamp (top g) (height g) target_y)
                  | Raise e => Failed e
                  end).
  { intros c. unfold process_control_event.
    rewrite (mouse_move_target_naive g data Hfalsy).
    destruct (naive_target g data) as [[tx ty]|e]; reflexivity. }
  split; [|split; [exact Hnaive|split; [|split; [|split]]]].
  - intros c. rewrite Hnaive. unfold process_control_event, mouse_move_target.
    cbn [without_dims client_video_width client_video_height].
    unfold naive_target. cbn [without_dims rel_x rel_y].
    fold (naive_target g data).
    destruct (naive_target g data) as [[tx ty]|e]; reflexivity.
  - intros c. rewrite Hnaive. destruct (negb c); [discriminate|].
    destruct (naive_target g data) as [[tx ty]|e] eqn:Ht; [discriminate|].
    intros [= ->]. exact (naive_target_error g data _ Ht eq_refl).
  - intros c e. rewrite Hnaive. destruct (negb c); [discriminate|].
    destruct (naive_target g data) as [[tx ty]|e'] eqn:Ht; [discriminate|].
    intros [= ->]. exact (naive_target_raises g data _ Ht).
  - rewrite Hnaive. cbn [negb]. unfold naive_target. split.
    + intros [Hx Hy].
      destruct (scale_axis_scalable _ _ (left g) Hx) as (tx & ->).
      destruct (scale_axis_scalable _ _ (top g) Hy) as (ty & ->).
      cbn [bind]. eauto.
    + intros (x & y & H).
      destruct (scale_axis (rel_x data) (width g) (left g)) as [tx|ex] eqn:Hx;
        cbn [bind] in H; [|discriminate].
      destruct (scale_axis (rel_y data) (height g) (top g)) as [ty|ey] eqn:Hy;
        cbn [bind] in H; [|discriminate].
      split; [exact (scale_axis_ok _ _ _ _ Hx) | exact (scale_axis_ok _ _ _ _ Hy)].
  - rewrite Hnaive. cbn [negb].
    destruct (naive_target g data) as [[tx ty]|e]; [left | right]; eauto.
Qed.

Lemma falsy_dims_take_naive_path_witness :
  process_control_event true fallback_dims zero_height = Moved 960 1079 /\
  process_control_event true {| left := 0; top := 0; width := 1920; height := 0 |}
    zero_height <> Failed ZeroDivisionError.
Proof.
  split.
  - rewrite (proj1 (proj2 (falsy_dims_take_naive_path fallback_dims zero_height
                             (or_intror eq_refl))) true).
    vm_compute. reflexivity.
  - exact (proj1 (proj2 (proj2 (falsy_dims_take_naive_path
             {| left := 0; top := 0; width := 1920; height := 0 |} zero_height
             (or_intror eq_refl)))) true).
Defined.

(** A falsy dimension does not make the event safe: a position that is not
    a number, or an infinite one, takes the naive path and [int] raises. *)
Lemma falsy_dims_event_fails :
  truthy (client_video_width (zero_width nan)) = false /\
  process_control_event true fallback_dims (zero_width nan)
  = Failed ValueError /\
  process_control_event true fallback_dims (zero_width infinity)
  = Failed OverflowError.
Proof. repeat split; vm_compute; reflexivity. Qed.

(** **** Whole-number positions and equal aspect ratios *)

(** X2. A position given with integer coordinates is scaled exactly (no
    float is involved, nothing can raise) and saturates at the edges of the
    monitor: a coordinate of 0 or less is the first pixel, a coordinate of 1
    or more is the last pixel, not the one after it. *)
Theorem integer_position_saturates (g : MonitorGeometry) (a b : Z)
  (Hwidth : 1 <= width g) (Hheight : 1 <= height g) :
  process_control_event true g (at_integers a b) =
  Moved (clamp (left g) (width g) (a * width g + left g))
        (clamp (top g) (height g) (b * height g + top g))
  /\
  (a <= 0 -> clamp (left g) (width g) (a * width g + left g) = left g) /\
  (1 <= a ->
   clamp (left g) (width g) (a * width g + left g) = left g + width g - 1) /\
  (b <= 0 -> clamp (top g) (height g) (b * height g + top g) = top g) /\
  (1 <= b ->
   clamp (top g) (height g) (b * height g + top g) = top g + height g - 1).
Proof.
  split; [reflexivity|]. unfold clamp. repeat split; intros; nia.
Qed.

Lemma integer_position_saturates_witness :
  process_control_event true fallback_dims (at_integers 1 0) = Moved 1919 0.
Proof.
  destruct (integer_position_saturates fallback_dims 1 0) as (H & _);
    [cbn; lia | cbn; lia |].
  rewrite H. reflexivity.
Defined.

(** X3. A viewer that reports a video surface of the monitor's own aspect
    ratio (neither aspect compares smaller than the other) is treated as
    one that reports nothing: the reported dimensions do not change the
    outcome of the event. *)
Theorem same_aspect_ignores_dims
  (g : MonitorGeometry) (data : mouse_move_data)
  (client_width client_height : pynum) (server_aspect client_aspect : float)
  (Hwidth : client_video_width data = Some client_width)
  (Hheight : client_video_height data = Some client_height)
  (Twidth : num_truthy client_width = true)
  (Theight : num_truthy client_height = true)
  (Hserver : int_truediv (width g) (height g) = Ok server_aspect)
  (Hclient : py_truediv client_width client_height = Ok client_aspect)
  (Hnot_wider : (server_aspect <? client_aspect)%float = false)
  (Hnot_taller : (client_aspect <? server_aspect)%float = false) :
  forall c, process_control_event c g data =
            process_control_event c g (without_dims data).
Proof.
  intros c. unfold process_control_event.
  rewrite (target_reported_dims g data client_width client_height
             Hwidth Hheight Twidth Theight).
  rewrite (aspect_correct_equal _ _ _ _ _ _ _ _ Hserver Hclient
             Hnot_wider Hnot_taller).
  cbn [bind]. unfold mouse_move_target, without_dims, naive_target. cbn.
  destruct (scale_axis (rel_x data) (width g) (left g)); cbn [bind];
    [|reflexivity].
  destruct (scale_axis (rel_y data) (height g) (top g)); reflexivity.
Qed.

Lemma same_aspect_ignores_dims_witness :
  process_control_event true fallback_dims centre_1600x900 =
  process_control_event true fallback_dims (without_dims centre_1600x900).
Proof.
  refine (same_aspect_ignores_dims fallback_dims centre_1600x900
            (PyInt 1600) (PyInt 900) _ _ eq_refl eq_refl eq_refl eq_refl
            eq_refl eq_refl _ _ true); vm_compute; reflexivity.
Defined.

End Mapper.

(** ** Legacy frame protocol: [struct.pack('>I', n)] + image bytes *)

Module Wire.
Import Py.

Definition bytes : Set := list byte.

Definition byte_of_Z (z : Z) : byte :=
  match Byte.of_N (Z.to_N (z mod 256)) with
  | Some b => b
  | None => x00
  end.

Definition Z_of_byte (b : byte) : Z := Z.of_N (Byte.to_N b).

(** [struct.pack('>I', n)]: four bytes, most significant first;
    [struct.error] when [n] is not an unsigned 32-bit value. *)
Definition pack_be32 (n : Z) : result bytes :=
  if (0 <=? n) && (n <? 2 ^ 32)
  then Ok [ byte_of_Z (Z.land (Z.shiftr n 24) 255);
            byte_of_Z (Z.land (Z.shiftr n 16) 255);
            byte_of_Z (Z.land (Z.shiftr n 8) 255);
            byte_of_Z (Z.land n 255) ]
  else Raise StructError.

(** [struct.unpack('>I', data)[0]] *)
Definition unpack_be32 (data : bytes) : result Z :=
  match data with
  | [b3; b2; b1; b0] =>
      Ok (Z_of_byte b3 * 2 ^ 24 + Z_of_byte b2 * 2 ^ 16
          + Z_of_byte b1 * 2 ^ 8 + Z_of_byte b0)
  | _ => Raise StructError
  end.

(** The two [sendall] calls of one iteration of the legacy video loop, for
    the encoded image [img_bytes]. *)
Definition send_frame (img_bytes : bytes) : result (list bytes) :=
  header <- pack_be32 (Z.of_nat (List.length img_bytes)) ;;
  Ok [header; img_bytes].

(** **** The receiving end *)

(** The receiving end of a TCP connection: the bytes still to be delivered,
    in the segments in which they will arrive.  The empty list is a closed
    connection. *)
Definition network : Set := list bytes.

(** [sock.recv(bufsize)]: at most [bufsize] bytes of the next segment;
    [b''] when the peer has closed. *)
Fixpoint recv (net : network) (bufsize : nat) : bytes * network :=
  match net with
  | [] => ([], [])
  | [] :: rest => recv rest bufsize
  | seg :: rest =>
      (firstn bufsize seg,
       match skipn bufsize seg with
       | [] => rest
       | later => later :: rest
       end)
  end.

(** The loop of [_recv_all]: [while len(data) < n]. Every [recv] of a
    positive size yields at least one byte or ends the loop, so [n] rounds
    are enough. *)
Fixpoint _recv_all_loop (rounds : nat) (net : network) (data : bytes) (n : nat)
  : option bytes * network :=
  if (n <=? List.length data)%nat then (Some data, net)
  else
    match rounds with
    | O => (None, net)
    | S rounds' =>
        let (packet, net') := recv net (n - List.length data) in
        match packet with
        | [] => (None, net')
        | _ => _recv_all_loop rounds' net' (data ++ packet) n
        end
    end.

Definition _recv_all (net : network) (n : nat) : option bytes * network :=
  _recv_all_loop n net [] n.

(** One iteration of the viewer's [_handle_legacy_stream] loop: the frame
    handed to [QImage.fromData], or [break]. *)
Inductive frame_result : Set :=
| Frame (img_data : bytes) (net : network)
| Break.

Definition recv_frame (net : network) : frame_result :=
  match _recv_all net 4 with
  | (None, _) => Break
  | (Some [], _) => Break
  | (Some img_size_data, net1) =>
      match unpack_be32 img_size_data with
      | Raise _ => Break
      | Ok img_size =>
          match _recv_all net1 (Z.to_nat img_size) with
          | (None, _) => Break
          | (Some [], _) => Break
          | (Some img_data, net2) => Frame img_data net2
          end
      end
  end.

(** *** Properties *)

(** **** Bytes and the 32-bit length prefix *)

Lemma Z_of_byte_of_Z (z : Z) : Z_of_byte (byte_of_Z z) = z mod 256.
Proof.
  unfold Z_of_byte, byte_of_Z.
  assert (Hr : 0 <= z mod 256 < 256) by (apply Z.mod_pos_bound; lia).
  destruct (Byte.of_N (Z.to_N (z mod 256))) as [b|] eqn:Hb.
  - apply Byte.to_of_N in Hb. rewrite Hb. rewrite Z2N.id; lia.
  - apply Byte.of_N_None_iff in Hb. lia.
Qed.

Lemma be32_digits (n : Z) :
  0 <= n < 4294967296 ->
  (n / 16777216) mod 256 * 16777216 + (n / 65536) mod 256 * 65536
  + (n / 256) mod 256 * 256 + n mod 256 = n.
Proof.
  intros H.
  assert (E2 : n / 65536 = n / 256 / 256)
    by (rewrite Z.div_div by lia; reflexivity).
  assert (E3 : n / 16777216 = n / 256 / 256 / 256)
    by (rewrite !Z.div_div by lia; reflexivity).
  rewrite E2, E3.
  generalize (Z.div_mod n 256 ltac:(lia)) (Z.mod_pos_bound n 256 ltac:(lia)).
  set (q1 := n / 256). set (r0 := n mod 256). intros D0 B0.
  generalize (Z.div_mod q1 256 ltac:(lia)) (Z.mod_pos_bound q1 256 ltac:(lia)).
  set (q2 := q1 / 256). set (r1 := q1 mod 256). intros D1 B1.
  generalize (Z.div_mod q2 256 ltac:(lia)) (Z.mod_pos_bound q2 256 ltac:(lia)).
  set (q3 := q2 / 256). set (r2 := q2 mod 256). intros D2 B2.
  assert (0 <= q3 < 256) by lia.
  rewrite (Z.mod_small q3 256) by lia. lia.
Qed.

Lemma unpack_pack_be32 (n : Z) (header : bytes) :
  pack_be32 n = Ok header ->
  List.length header = 4%nat /\ unpack_be32 header = Ok n.
Proof.
  unfold pack_be32.
  destruct ((0 <=? n) && (n <? 2 ^ 32)) eqn:Hrange; [|discriminate].
  apply andb_true_iff in Hrange. destruct Hrange as [Hlo Hhi].
  apply Z.leb_le in Hlo. apply Z.ltb_lt in Hhi.
  intros Hheader. apply Ok_inj in Hheader. subst header.
  split; [reflexivity|].
  cbn [unpack_be32]. rewrite !Z_of_byte_of_Z.
  change 255 with (Z.ones 8). rewrite !Z.land_ones by lia.
  rewrite !Z.shiftr_div_pow2 by lia.
  change (2 ^ 8) with 256. change (2 ^ 16) with 65536.
  change (2 ^ 24) with 16777216. change (2 ^ 32) with 4294967296 in Hhi.
  rewrite !Z.mod_mod by lia.
  f_equal. apply be32_digits. lia.
Qed.

(** **** Receiving from the network *)

Lemma recv_spec (net : network) (bufsize : nat) :
  forall packet net', recv net bufsize = (packet, net') ->
    packet ++ List.concat net' = List.concat net /\
    (List.length packet <= bufsize)%nat /\
    ((0 < bufsize)%nat -> List.concat net <> [] -> packet <> []).
Proof.
  induction net as [|seg rest IH]; intros packet net'; cbn [recv].
  - intros [= <- <-]. cbn. repeat split; [lia | congruence].
  - destruct seg as [|b seg].
    + intros H. cbn [List.concat app]. exact (IH _ _ H).
    + intros [= <- <-]. repeat split.
      * cbn [List.concat].
        rewrite <- (firstn_skipn bufsize (b :: seg)) at 3.
        destruct (skipn bufsize (b :: seg)); cbn [List.concat];
          rewrite ?app_nil_r, <- ?app_assoc; reflexivity.
      * rewrite length_firstn. lia.
      * intros Hpos _. destruct bufsize; [lia|]. cbn. discriminate.
Qed.

Lemma recv_all_loop_spec (rounds : nat) :
  forall (net : network) (data : bytes) (n : nat),
    (n - List.length data <= rounds)%nat ->
    (n <= List.length data + List.length (List.concat net))%nat ->
    exists net',
      _recv_all_loop rounds net data n =
        (Some (data ++ firstn (n - List.length data) (List.concat net)), net') /\
      List.concat net' = skipn (n - List.length data) (List.concat net).
Proof.
  induction rounds as [|rounds IH]; intros net data n Hrounds Havail;
    cbn [_recv_all_loop].
  - destruct (Nat.leb_spec n (List.length data)) as [Hle|Hlt]; [|lia].
    replace (n - List.length data)%nat with 0%nat by lia.
    exists net. now rewrite app_nil_r.
  - destruct (Nat.leb_spec n (List.length data)) as [Hle|Hlt].
    + replace (n - List.length data)%nat with 0%nat by lia.
      exists net. now rewrite app_nil_r.
    + destruct (recv net (n - List.length data)) as [packet net1] eqn:Hrecv.
      destruct (recv_spec _ _ _ _ Hrecv) as (Hcat & Hlen & Hne).
      assert (Hpacket : packet <> []).
      { apply Hne; [lia|]. intros E. rewrite E in Havail. cbn in Havail. lia. }
      destruct packet as [|b packet]; [congruence|].
      destruct (IH net1 (data ++ b :: packet) n) as (net' & Hloop & Hrest).
      * rewrite length_app. cbn [List.length] in *. lia.
      * rewrite length_app, <- Hcat, length_app in *. lia.
      * exists net'. rewrite Hloop, Hrest. clear Hloop Hrest IH.
        rewrite length_app, <- Hcat.
        set (p := b :: packet) in *.
        replace (n - List.length data)%nat
          with (List.length p + (n - (List.length data + List.length p)))%nat
          by lia.
        rewrite firstn_app_2, skipn_app.
        rewrite (skipn_all2 p) by lia.
        replace (List.length p + (n - (List.length data + List.length p))
                 - List.length p)%nat
          with (n - (List.length data + List.length p))%nat by lia.
        rewrite <- app_assoc. split; reflexivity.
Qed.

Lemma recv_all_spec (net : network) (n : nat) :
  (n <= List.length (List.concat net))%nat ->
  exists net',
    _recv_all net n = (Some (firstn n (List.concat net)), net') /\
    List.concat net' = skipn n (List.concat net).
Proof.
  intros Havail. unfold _recv_all.
  destruct (recv_all_loop_spec n net [] n) as (net' & H & Hrest);
    cbn [List.length]; try lia.
  rewrite Nat.sub_0_r in *. cbn [app] in H. eauto.
Qed.

(** **** Round trip of one frame *)

(** C5. For an encoded image of [N] bytes (a JPEG file is never empty, and
    [N] fits the unsigned 32-bit prefix), the sender writes exactly the
    4-byte big-endian length [N] and then the [N] image bytes; the receiver,
    however the bytes are segmented on the way and whatever follows them,
    reads exactly 4 bytes, then exactly [N] bytes, and obtains the image
    bytes unchanged, leaving what follows in the connection. *)
Theorem legacy_frame_round_trip (img_bytes : bytes)
  (Hnonempty : img_bytes <> [])
  (Hsize : Z.of_nat (List.length img_bytes) < 2 ^ 32) :
  exists header,
    send_frame img_bytes = Ok [header; img_bytes] /\
    List.length header = 4%nat /\
    unpack_be32 header = Ok (Z.of_nat (List.length img_bytes)) /\
    forall (net : network) (rest : bytes),
      List.concat net = header ++ img_bytes ++ rest ->
      exists net',
        recv_frame net = Frame img_bytes net' /\ List.concat net' = rest.
Proof.
  unfold send_frame.
  destruct (pack_be32 (Z.of_nat (List.length img_bytes))) as [header|e] eqn:Hpack.
  2:{ unfold pack_be32 in Hpack.
      replace (0 <=? Z.of_nat (List.length img_bytes)) with true in Hpack
        by (symmetry; apply Z.leb_le; lia).
      replace (Z.of_nat (List.length img_bytes) <? 2 ^ 32) with true in Hpack
        by (symmetry; apply Z.ltb_lt; lia).
      discriminate. }
  destruct (unpack_pack_be32 _ _ Hpack) as [Hlen Hunpack].
  exists header. cbn [bind]. repeat split; trivial.
  intros net rest Hnet. unfold recv_frame.
  destruct (recv_all_spec net 4) as (net1 & Hhdr & Hnet1).
  { rewrite Hnet, length_app. lia. }
  rewrite Hnet in Hhdr, Hnet1.
  rewrite <- Hlen in Hhdr at 2. rewrite <- Hlen in Hnet1 at 1.
  rewrite firstn_app, Nat.sub_diag, firstn_all, firstn_O, app_nil_r in Hhdr.
  rewrite skipn_app, Nat.sub_diag, skipn_all, skipn_O in Hnet1.
  cbn [app] in Hnet1.
  rewrite Hhdr.
  destruct header as [|b3 header]; [discriminate|].
  rewrite Hunpack, Nat2Z.id.
  destruct (recv_all_spec net1 (List.length img_bytes)) as (net2 & Himg & Hnet2).
  { rewrite Hnet1, length_app. lia. }
  rewrite Hnet1 in Himg, Hnet2.
  rewrite firstn_app, Nat.sub_diag, firstn_all, firstn_O, app_nil_r in Himg.
  rewrite skipn_app, Nat.sub_diag, skipn_all, skipn_O in Hnet2.
  cbn [app] in Hnet2.
  rewrite Himg.
  destruct img_bytes as [|b img_bytes]; [congruence|].
  eauto.
Qed.

(** A three-byte image, delivered one byte at a time in front of the next
    frame's first byte. *)
Lemma legacy_frame_round_trip_witness :
  send_frame [xff; xd8; xd9] = Ok [[x00; x00; x00; x03]; [xff; xd8; xd9]] /\
  exists net',
    recv_frame [[x00]; [x00; x00]; [x03; xff]; [xd8]; [xd9; x00]]
    = Frame [xff; xd8; xd9] net' /\ List.concat net' = [x00].
Proof.
  destruct (legacy_frame_round_trip [xff; xd8; xd9]) as (header & Hs & _ & _ & Hr).
  - discriminate.
  - reflexivity.
  - assert (Hh : header = [x00; x00; x00; x03]).
    { vm_compute in Hs. apply Ok_inj in Hs. congruence. }
    subst header. split; [exact Hs|].
    exact (Hr [[x00]; [x00; x00]; [x03; xff]; [xd8]; [xd9; x00]] [x00] eq_refl).
Defined.

(** An empty payload is not a frame for the receiver: it leaves the loop. *)
Example empty_frame_breaks :
  send_frame [] = Ok [[x00; x00; x00; x00]; []] /\
  recv_frame [[x00; x00; x00; x00]] = Break.
Proof. split; reflexivity. Qed.

(** **** Reads that the stream cannot satisfy *)

Lemma recv_all_loop_short (rounds : nat) :
  forall (net : network) (data : bytes) (n : nat),
    (List.length data + List.length (List.concat net) < n)%nat ->
    fst (_recv_all_loop rounds net data n) = None.
Proof.
  induction rounds as [|rounds IH]; intros net data n Hshort;
    cbn [_recv_all_loop];
    destruct (Nat.leb_spec n (List.length data)) as [Hle|Hlt]; try lia.
  - reflexivity.
  - destruct (recv net (n - List.length data)) as [packet net1] eqn:Hrecv.
    destruct (recv_spec _ _ _ _ Hrecv) as (Hcat & _ & _).
    destruct packet as [|b packet]; [reflexivity|].
    apply IH. rewrite <- Hcat in Hshort. rewrite !length_app in *. lia.
Qed.

Lemma recv_all_short (net : network) (n : nat) :
  (List.length (List.concat net) < n)%nat -> fst (_recv_all net n) = None.
Proof. intros H. apply recv_all_loop_short. cbn [List.length]. lia. Qed.

(** X1. [_recv_all(sock, n)] returns exactly the first [n] bytes of the
    stream, however the network segments them, and leaves the bytes after
    them unread; it returns [None] exactly when the peer closes before [n]
    bytes have arrived; for [n = 0] it returns [b''] without reading. *)
Theorem recv_all_exact_or_none (net : network) (n : nat) :
  fst (_recv_all net n) =
    (if (n <=? List.length (List.concat net))%nat
     then Some (firstn n (List.concat net)) else None)
  /\
  ((n <= List.length (List.concat net))%nat ->
   List.concat (snd (_recv_all net n)) = skipn n (List.concat net))
  /\
  _recv_all net 0 = (Some [], net).
Proof.
  split; [|split].
  - destruct (Nat.leb_spec n (List.length (List.concat net))) as [Hle|Hlt].
    + destruct (recv_all_spec net n Hle) as (net' & H & _). now rewrite H.
    + now apply recv_all_short.
  - intros Hle. destruct (recv_all_spec net n Hle) as (net' & H & Hrest).
    now rewrite H.
  - reflexivity.
Qed.

(** **** Frames in a stream *)

(** A complete frame at the head of the stream is read as that frame,
    whatever follows it. *)
Lemma recv_frame_complete (img_bytes header : bytes) (net : network) (rest : bytes) :
  img_bytes <> [] ->
  pack_be32 (Z.of_nat (List.length img_bytes)) = Ok header ->
  List.concat net = header ++ img_bytes ++ rest ->
  exists net', recv_frame net = Frame img_bytes net' /\ List.concat net' = rest.
Proof.
  intros Hnonempty Hpack Hnet.
  destruct (unpack_pack_be32 _ _ Hpack) as [Hlen Hunpack].
  unfold recv_frame.
  destruct (recv_all_spec net 4) as (net1 & Hhdr & Hnet1).
  { rewrite Hnet, length_app. lia. }
  rewrite Hnet in Hhdr, Hnet1.
  rewrite <- Hlen in Hhdr at 2. rewrite <- Hlen in Hnet1 at 1.
  rewrite firstn_app, Nat.sub_diag, firstn_all, firstn_O, app_nil_r in Hhdr.
  rewrite skipn_app, Nat.sub_diag, skipn_all, skipn_O in Hnet1.
  cbn [app] in Hnet1.
  rewrite Hhdr.
  destruct header as [|b3 header]; [discriminate|].
  rewrite Hunpack, Nat2Z.id.
  destruct (recv_all_spec net1 (List.length img_bytes)) as (net2 & Himg & Hnet2).
  { rewrite Hnet1, length_app. lia. }
  rewrite Hnet1 in Himg, Hnet2.
  rewrite firstn_app, Nat.sub_diag, firstn_all, firstn_O, app_nil_r in Himg.
  rewrite skipn_app, Nat.sub_diag, skipn_all, skipn_O in Hnet2.
  cbn [app] in Hnet2.
  rewrite Himg.
  destruct img_bytes as [|b img_bytes]; [congruence|].
  eauto.
Qed.

(** A frame of which the end is missing when the peer closes is not read
    as a frame. *)
Lemma recv_frame_truncated (img_bytes header missing : bytes) (net : network) :
  pack_be32 (Z.of_nat (List.length img_bytes)) = Ok header ->
  missing <> [] ->
  List.concat net ++ missing = header ++ img_bytes ->
  recv_frame net = Break.
Proof.
  intros Hpack Hmissing Hnet.
  destruct (unpack_pack_be32 _ _ Hpack) as [Hlen Hunpack].
  assert (Hlength : (List.length (List.concat net) + List.length missing
                     = 4 + List.length img_bytes)%nat).
  { rewrite <- Hlen, <- !length_app. now rewrite Hnet. }
  assert (Hpos : (0 < List.length missing)%nat).
  { destruct missing; [congruence|cbn; lia]. }
  unfold recv_frame.
  destruct (Nat.leb_spec 4 (List.length (List.concat net))) as [Hle|Hlt].
  - destruct (recv_all_spec net 4 Hle) as (net1 & Hhdr & Hnet1).
    assert (Hsplit : List.concat net =
                     header ++ skipn 4 (List.concat net)).
    { rewrite <- (firstn_skipn 4 (List.concat net)) at 1. f_equal.
      apply (f_equal (firstn 4)) in Hnet.
      rewrite firstn_app in Hnet.
      replace (4 - List.length (List.concat net))%nat with 0%nat in Hnet by lia.
      rewrite firstn_O, app_nil_r in Hnet. rewrite Hnet.
      rewrite <- Hlen, firstn_app, Nat.sub_diag, firstn_all, firstn_O.
      now rewrite app_nil_r. }
    rewrite Hhdr.
    replace (firstn 4 (List.concat net)) with header.
    2:{ rewrite Hsplit at 1. rewrite <- Hlen, firstn_app, Nat.sub_diag.
        now rewrite firstn_all, firstn_O, app_nil_r. }
    destruct header as [|b3 header]; [discriminate|].
    rewrite Hunpack, Nat2Z.id.
    pose proof (recv_all_short net1 (List.length img_bytes)) as Hshort.
    destruct (_recv_all net1 (List.length img_bytes)) as [got net2].
    cbn [fst] in Hshort. rewrite Hshort; [reflexivity|].
    rewrite Hnet1, length_skipn. lia.
  - pose proof (recv_all_short net 4 Hlt) as Hshort.
    destruct (_recv_all net 4) as [got net1]. cbn [fst] in Hshort.
    now rewrite Hshort.
Qed.

End Wire.

(** ** Control channel: [_handle_control_client] *)

Module Control.
Import Py Wire.

(** **** Text *)

(** A Python [str]: a sequence of Unicode code points. *)
Definition pystr : Set := list Z.

Definition newline : Z := 10.

(** A continuation byte, [0x80..0xBF]. *)
Definition is_cont (b : Z) : bool := (128 <=? b) && (b <=? 191).

Definition in_range (lo hi b : Z) : bool := (lo <=? b) && (b <=? hi).

(** [chunk.decode('utf-8')] with the default strict error handler: the
    well-formed byte sequences of the Unicode standard (no overlong forms,
    no surrogates, nothing above U+10FFFF), anything else raises
    [UnicodeDecodeError], a sequence cut short by the end of the chunk
    included. *)
Fixpoint utf8_decode (data : bytes) : result pystr :=
  match data with
  | [] => Ok []
  | c0 :: r0 =>
      let b0 := Z_of_byte c0 in
      if b0 <? 128 then
        s <- utf8_decode r0 ;; Ok (b0 :: s)
      else if in_range 194 223 b0 then
        match r0 with
        | c1 :: r1 =>
            let b1 := Z_of_byte c1 in
            if is_cont b1 then
              s <- utf8_decode r1 ;;
              Ok (((b0 - 192) * 64 + (b1 - 128)) :: s)
            else Raise UnicodeDecodeError
        | _ => Raise UnicodeDecodeError
        end
      else if in_range 224 239 b0 then
        match r0 with
        | c1 :: c2 :: r2 =>
            let b1 := Z_of_byte c1 in
            let b2 := Z_of_byte c2 in
            if in_range (if b0 =? 224 then 160 else 128)
                        (if b0 =? 237 then 159 else 191) b1
               && is_cont b2 then
              s <- utf8_decode r2 ;;
              Ok (((b0 - 224) * 4096 + (b1 - 128) * 64 + (b2 - 128)) :: s)
            else Raise UnicodeDecodeError
        | _ => Raise UnicodeDecodeError
        end
      else if in_range 240 244 b0 then
        match r0 with
        | c1 :: c2 :: c3 :: r3 =>
            let b1 := Z_of_byte c1 in
            let b2 := Z_of_byte c2 in
            let b3 := Z_of_byte c3 in
            if in_range (if b0 =? 240 then 144 else 128)
                        (if b0 =? 244 then 143 else 191) b1
               && is_cont b2 && is_cont b3 then
              s <- utf8_decode r3 ;;
              Ok (((b0 - 240) * 262144 + (b1 - 128) * 4096
                   + (b2 - 128) * 64 + (b3 - 128)) :: s)
            else Raise UnicodeDecodeError
        | _ => Raise UnicodeDecodeError
        end
      else Raise UnicodeDecodeError
  end.

(** [buffer.split("\n", 1)] when ["\n" in buffer]: the text before the
    first newline and the text after it; [None] when there is no newline. *)
Fixpoint split_newline (buffer : pystr) : option (pystr * pystr) :=
  match buffer with
  | [] => None
  | c :: rest =>
      if c =? newline then Some ([], rest)
      else match split_newline rest with
           | Some (line, after) => Some (c :: line, after)
           | None => None
           end
  end.

(** **** The receive loop *)

Section Handler.

(** The parsed event object, [json.loads] ([None] for a
    [json.JSONDecodeError]) and whether [process_control_event] returns or
    raises on an event object. *)
Variable event : Type.
Variable json_loads : pystr -> option event.
Variable process_raises : event -> bool.

(** What the handler did with one line. *)
Inductive action : Type :=
| Processed (e : event)       (* process_control_event returned *)
| EventError (e : event)      (* it raised: logged, line discarded *)
| JsonError (line : pystr).   (* JSONDecodeError: logged, line discarded *)

(** The body of the inner [try]. *)
Definition handle_line (line : pystr) : action :=
  match json_loads line with
  | None => JsonError line
  | Some event_data =>
      if process_raises event_data then EventError event_data
      else Processed event_data
  end.

(** [while "\n" in buffer: line, buffer = buffer.split("\n", 1); ...].
    Each round shortens the buffer, so [rounds] bounds the loop. *)
Fixpoint drain_lines (rounds : nat) (buffer : pystr) : list action * pystr :=
  match rounds with
  | O => ([], buffer)
  | S rounds' =>
      match split_newline buffer with
      | None => ([], buffer)
      | Some (line, after) =>
          let (acts, buffer') := drain_lines rounds' after in
          (handle_line line :: acts, buffer')
      end
  end.

(** How the receive loop ended. *)
Inductive loop_exit : Set :=
| ClientDisconnected          (* recv returned b'' *)
| HandlerError (e : pyexn).   (* the outer [except Exception] *)

(** The receive loop, for the chunks that the successive [conn.recv(4096)]
    calls return while the host is running and the control stop event is
    clear (an empty chunk, or the end of the list, is the peer closing the
    connection).  The result is what was done with the lines, in order, and
    how the loop ended; in both cases the [finally] block then closes the
    connection. *)
Fixpoint _handle_control_client (chunks : list bytes) (buffer : pystr)
  : list action * loop_exit :=
  match chunks with
  | [] => ([], ClientDisconnected)
  | chunk :: later =>
      match utf8_decode chunk with
      | Raise e => ([], HandlerError e)
      | Ok [] => ([], ClientDisconnected)
      | Ok data =>
          let (acts, buffer') :=
            drain_lines (S (List.length (buffer ++ data))) (buffer ++ data) in
          let (acts', exit) := _handle_control_client later buffer' in
          (acts ++ acts', exit)
      end
  end.

(** The specification's receiver: the complete lines of the whole byte
    stream, each handled, in order. *)
Fixpoint complete_lines (rounds : nat) (text : pystr) : list pystr :=
  match rounds with
  | O => []
  | S rounds' =>
      match split_newline text with
      | None => []
      | Some (line, after) => line :: complete_lines rounds' after
      end
  end.

Definition spec_actions (stream : bytes) : result (list action) :=
  text <- utf8_decode stream ;;
  Ok (map handle_line (complete_lines (S (List.length text)) text)).

End Handler.

(** A chunk as [recv] returns it while the peer is connected: not empty,
    and valid UTF-8 on its own. *)
Definition decodable (chunk : bytes) : Prop :=
  chunk <> [] /\ exists s, utf8_decode chunk = Ok s.

(** **** A character split between two reads *)

(** The bytes of a JSON text written with ['] for the double quote. *)
Definition json_bytes (s : string) : bytes :=
  map (fun b => match b with x27 => x22 | _ => b end) (list_byte_of_string s).

(** A [keyboard_press] event whose [char] is U+00E9 (e with an acute
    accent, the two UTF-8 bytes [0xC3 0xA9]), and a second event. *)
Definition key_event_head : bytes :=
  json_bytes "{'type':'keyboard_press','data':{'char':'" ++ [xc3].

Definition key_event_tail : bytes := [xa9] ++ json_bytes "'}}".

Definition scroll_event : bytes :=
  json_bytes "{'type':'mouse_scroll','data':{'dx':0,'dy':1}}".

(** The stream as two reads, the first ending inside the character. *)
Definition split_character_reads : list bytes :=
  [key_event_head; key_event_tail ++ [x0a] ++ scroll_event ++ [x0a]].

(** The same stream read in one piece, and cut between the lines. *)
Definition whole_read : list bytes :=
  [key_event_head ++ key_event_tail ++ [x0a] ++ scroll_event ++ [x0a]].

(** A line that is not UTF-8 at all, followed by a well-formed event. *)
Definition undecodable_line_reads : list bytes :=
  [[xff; x0a] ++ scroll_event ++ [x0a]].

(** *** Properties *)

(** **** Decoding chunk by chunk *)

Local Ltac decode_tail IH H b :=
  match type of H with
  | context [utf8_decode ?r] =>
      let s := fresh "s" in
      let E := fresh "E" in
      destruct (utf8_decode r) as [s|] eqn:E; cbn [bind] in H; [|discriminate];
      apply Ok_inj in H; subst;
      rewrite (IH r ltac:(cbn [List.length] in *; lia) s b E);
      destruct (utf8_decode b); reflexivity
  end.

(** Chunks that decode on their own decode to the pieces of the whole. *)
Lemma utf8_decode_app (n : nat) :
  forall (a : bytes), (List.length a <= n)%nat ->
  forall (sa : pystr) (b : bytes),
    utf8_decode a = Ok sa ->
    utf8_decode (a ++ b) = (sb <- utf8_decode b ;; Ok (sa ++ sb)).
Proof.
  induction n as [|n IH]; intros a Hlen sa b H.
  - destruct a; [|cbn in Hlen; lia]. cbn in H. apply Ok_inj in H. subst.
    cbn [app]. destruct (utf8_decode b); reflexivity.
  - destruct a as [|c0 r0].
    { cbn in H. apply Ok_inj in H. subst.
      cbn [app]. destruct (utf8_decode b); reflexivity. }
    cbn [utf8_decode app] in *.
    destruct (Z_of_byte c0 <? 128); [decode_tail IH H b|].
    destruct (in_range 194 223 (Z_of_byte c0)).
    { destruct r0 as [|c1 r1]; [discriminate|]. cbn [app].
      destruct (is_cont (Z_of_byte c1)); [|discriminate].
      decode_tail IH H b. }
    destruct (in_range 224 239 (Z_of_byte c0)).
    { destruct r0 as [|c1 [|c2 r2]]; try discriminate. cbn [app].
      destruct (in_range _ _ (Z_of_byte c1) && is_cont (Z_of_byte c2));
        [|discriminate].
      decode_tail IH H b. }
    destruct (in_range 240 244 (Z_of_byte c0)); [|discriminate].
    destruct r0 as [|c1 [|c2 [|c3 r3]]]; try discriminate. cbn [app].
    destruct (in_range _ _ (Z_of_byte c1) && is_cont (Z_of_byte c2)
              && is_cont (Z_of_byte c3)); [|discriminate].
    decode_tail IH H b.
Qed.

Lemma utf8_decode_nonempty (c : byte) (r : bytes) (s : pystr) :
  utf8_decode (c :: r) = Ok s -> s <> [].
Proof.
  cbn [utf8_decode].
  repeat match goal with
         | |- context [if ?c then _ else _] => destruct c
         | |- context [match ?l with [] => _ | _ :: _ => _ end] => destruct l
         | |- context [bind (utf8_decode ?r) _] => destruct (utf8_decode r)
         end; cbn [bind]; intros H; try discriminate;
    apply Ok_inj in H; subst; discriminate.
Qed.

(** **** Lines of a buffer *)

Lemma split_newline_length (t line after : pystr) :
  split_newline t = Some (line, after) ->
  (List.length after < List.length t)%nat.
Proof.
  revert line. induction t as [|c t IH]; intros line; cbn [split_newline].
  - discriminate.
  - destruct (c =? newline).
    + intros [= <- <-]. cbn. lia.
    + destruct (split_newline t) as [[l a]|]; [|discriminate].
      intros [= <- <-]. specialize (IH l eq_refl). cbn. lia.
Qed.

Lemma split_newline_app (t u line after : pystr) :
  split_newline t = Some (line, after) ->
  split_newline (t ++ u) = Some (line, after ++ u).
Proof.
  revert line. induction t as [|c t IH]; intros line; cbn [split_newline app].
  - discriminate.
  - destruct (c =? newline).
    + intros [= <- <-]. reflexivity.
    + destruct (split_newline t) as [[l a]|]; [|discriminate].
      intros [= <- <-]. rewrite (IH l eq_refl). reflexivity.
Qed.

Lemma complete_lines_rounds (n : nat) :
  forall (m : nat) (t : pystr),
    (List.length t < n)%nat -> (List.length t < m)%nat ->
    complete_lines n t = complete_lines m t.
Proof.
  induction n as [|n IH]; intros m t Hn Hm; [lia|].
  destruct m as [|m]; [lia|]. cbn [complete_lines].
  destruct (split_newline t) as [[line after]|] eqn:E; [|reflexivity].
  apply split_newline_length in E. f_equal. apply IH; lia.
Qed.

(** **** The receive loop against the specification's receiver *)

Section HandlerFacts.

Variable event : Type.
Variable json_loads : pystr -> option event.
Variable process_raises : event -> bool.

Local Abbreviation handle_line := (handle_line event json_loads process_raises).
Local Abbreviation drain_lines := (drain_lines event json_loads process_raises).
Local Abbreviation _handle_control_client :=
  (_handle_control_client event json_loads process_raises).
Local Abbreviation spec_actions := (spec_actions event json_loads process_raises).

Lemma drain_lines_actions (n : nat) (t : pystr) :
  fst (drain_lines n t) = map handle_line (complete_lines n t).
Proof.
  revert t. induction n as [|n IH]; intros t; cbn [drain_lines complete_lines].
  - reflexivity.
  - destruct (split_newline t) as [[line after]|]; [|reflexivity].
    specialize (IH after). destruct (drain_lines n after) as [acts rest].
    cbn [fst map] in *. now rewrite IH.
Qed.

Lemma drain_lines_rest (n : nat) (t : pystr) :
  (List.length t < n)%nat -> split_newline (snd (drain_lines n t)) = None.
Proof.
  revert t. induction n as [|n IH]; intros t Hn; [lia|]. cbn [drain_lines].
  destruct (split_newline t) as [[line after]|] eqn:E; [|exact E].
  apply split_newline_length in E.
  specialize (IH after ltac:(lia)).
  destruct (drain_lines n after) as [acts rest]. exact IH.
Qed.

(** Lines completed by text that arrives later: what the loop keeps in
    [buffer] is exactly what is needed. *)
Lemma complete_lines_app (n : nat) :
  forall t u : pystr,
    (List.length t < n)%nat ->
    complete_lines (n + List.length u) (t ++ u) =
    complete_lines n t ++
    complete_lines (S (List.length (snd (drain_lines n t) ++ u)))
                   (snd (drain_lines n t) ++ u).
Proof.
  induction n as [|n IH]; intros t u Hn; [lia|].
  cbn [drain_lines]. change (S n + List.length u)%nat with (S (n + List.length u)).
  cbn [complete_lines].
  destruct (split_newline t) as [[line after]|] eqn:E.
  - rewrite (split_newline_app t u line after E).
    apply split_newline_length in E.
    specialize (IH after u ltac:(lia)).
    destruct (drain_lines n after) as [acts rest]. cbn [snd] in *.
    rewrite IH. reflexivity.
  - cbn [snd app].
    destruct (split_newline (t ++ u)) as [[l a]|] eqn:E2; [|reflexivity].
    apply split_newline_length in E2. f_equal.
    apply complete_lines_rounds; rewrite length_app in *; lia.
Qed.

Lemma handle_control_client_decodable (chunks : list bytes) :
  Forall decodable chunks ->
  exists text,
    utf8_decode (List.concat chunks) = Ok text /\
    forall buffer, split_newline buffer = None ->
      _handle_control_client chunks buffer =
      (map handle_line
         (complete_lines (S (List.length (buffer ++ text))) (buffer ++ text)),
       ClientDisconnected).
Proof.
  induction 1 as [|chunk later [Hne [data Hdata]] _ (text' & Htext' & IH)].
  - exists []. split; [reflexivity|]. intros buffer Hbuf.
    cbn [_handle_control_client complete_lines]. now rewrite app_nil_r, Hbuf.
  - exists (data ++ text'). split.
    + cbn [List.concat].
      rewrite (utf8_decode_app _ chunk (Nat.le_refl _) data _ Hdata), Htext'.
      reflexivity.
    + intros buffer Hbuf. cbn [_handle_control_client]. rewrite Hdata.
      destruct chunk as [|c r]; [congruence|].
      pose proof (utf8_decode_nonempty c r data Hdata) as Hd.
      destruct data as [|d ds]; [congruence|]. clear Hd.
      set (t := buffer ++ d :: ds).
      pose proof (drain_lines_actions (S (List.length t)) t) as Hacts.
      pose proof (drain_lines_rest (S (List.length t)) t ltac:(lia)) as Hrest.
      pose proof (complete_lines_app (S (List.length t)) t text' ltac:(lia)) as Happ.
      destruct (drain_lines (S (List.length t)) t) as [acts buffer'].
      cbn [fst snd] in *.
      rewrite (IH buffer' Hrest), Hacts, <- map_app. f_equal. f_equal.
      rewrite <- Happ. unfold t. rewrite <- !app_assoc. cbn [app].
      apply complete_lines_rounds; rewrite !length_app; cbn [List.length];
        rewrite ?length_app; lia.
Qed.

(** X4. While every chunk decodes on its own, the loop does to the complete
    lines of the stream what the specification's receiver does: malformed
    lines are logged and discarded, every later line is still handled, and
    the loop ends only when the peer disconnects. *)
Theorem handle_control_client_refines_spec (chunks : list bytes) :
  Forall decodable chunks ->
  exists acts,
    spec_actions (List.concat chunks) = Ok acts /\
    _handle_control_client chunks [] = (acts, ClientDisconnected).
Proof.
  intros H. destruct (handle_control_client_decodable chunks H) as (text & Ht & Hh).
  unfold spec_actions. rewrite Ht. cbn [bind]. eexists. split; [reflexivity|].
  exact (Hh [] eq_refl).
Qed.

End HandlerFacts.

(** Two events in two reads, cut between the lines, with a [json.loads]
    that rejects every line: both lines are still handled. *)
Lemma handle_control_client_refines_spec_witness :
  Forall decodable [key_event_head ++ key_event_tail ++ [x0a];
                    scroll_event ++ [x0a]] /\
  exists acts,
    spec_actions unit (fun _ => None) (fun _ => false)
      (List.concat [key_event_head ++ key_event_tail ++ [x0a];
                    scroll_event ++ [x0a]]) = Ok acts /\
    _handle_control_client unit (fun _ => None) (fun _ => false)
      [key_event_head ++ key_event_tail ++ [x0a]; scroll_event ++ [x0a]] []
    = (acts, ClientDisconnected).
Proof.
  assert (H : Forall decodable [key_event_head ++ key_event_tail ++ [x0a];
                                scroll_event ++ [x0a]]).
  { repeat constructor; try discriminate; eexists; vm_compute; reflexivity. }
  split; [exact H|].
  exact (handle_control_client_refines_spec unit (fun _ => None)
           (fun _ => false) _ H).
Defined.

(** **** ASCII text, one line per message *)

Lemma utf8_decode_ascii (data : bytes) :
  Forall (fun b => Z_of_byte b < 128) data ->
  utf8_decode data = Ok (map Z_of_byte data).
Proof.
  induction 1 as [|b data Hb _ IH]; [reflexivity|].
  cbn [utf8_decode map]. apply Z.ltb_lt in Hb. rewrite Hb, IH. reflexivity.
Qed.

Lemma split_newline_line (line rest : pystr) :
  Forall (fun c => c <> newline) line ->
  split_newline (line ++ newline :: rest) = Some (line, rest).
Proof.
  induction 1 as [|c line Hc _ IH]; cbn [app split_newline].
  - now rewrite Z.eqb_refl.
  - apply Z.eqb_neq in Hc. now rewrite Hc, IH.
Qed.

(** The text of newline-terminated lines is read back as those lines. *)
Lemma complete_lines_of_lines (lines : list pystr) :
  Forall (Forall (fun c => c <> newline)) lines ->
  forall n,
    (List.length (List.concat (map (fun l => l ++ [newline]) lines)) < n)%nat ->
    complete_lines n (List.concat (map (fun l => l ++ [newline]) lines)) = lines.
Proof.
  induction 1 as [|line lines Hline _ IH]; intros n Hn.
  - destruct n; reflexivity.
  - destruct n as [|n]; [lia|].
    cbn [map List.concat complete_lines] in *.
    rewrite <- app_assoc. cbn [app].
    rewrite (split_newline_line _ _ Hline). f_equal. apply IH.
    rewrite !length_app in Hn. cbn [List.length] in Hn. lia.
Qed.

(** **** The failing reads *)

(** C8 at its failing inputs.  The stream of [split_character_reads] is two
    well-formed JSON lines: read in one piece, both are handled (as the
    specification's receiver does); when the first read ends between the two
    bytes of a character, its [decode] raises outside the inner [try], the
    outer handler ends the loop and no line is handled.  A line that is not
    valid UTF-8 ends the loop in the same way, and the event after it is
    never handled. *)
Theorem control_channel_broken_by_undecodable_read
  (event : Type) (json_loads : pystr -> option event)
  (process_raises : event -> bool) :
  (exists line1 line2,
     utf8_decode (key_event_head ++ key_event_tail) = Ok line1 /\
     utf8_decode scroll_event = Ok line2 /\
     spec_actions event json_loads process_raises
       (List.concat split_character_reads)
     = Ok [handle_line event json_loads process_raises line1;
           handle_line event json_loads process_raises line2] /\
     _handle_control_client event json_loads process_raises whole_read []
     = ([handle_line event json_loads process_raises line1;
         handle_line event json_loads process_raises line2],
        ClientDisconnected))
  /\
  _handle_control_client event json_loads process_raises split_character_reads []
  = ([], HandlerError UnicodeDecodeError)
  /\
  _handle_control_client event json_loads process_raises undecodable_line_reads []
  = ([], HandlerError UnicodeDecodeError).
Proof.
  split; [|split].
  - eexists. eexists. split; [vm_compute; reflexivity|].
    split; [vm_compute; reflexivity|].
    split; vm_compute; reflexivity.
  - vm_compute. reflexivity.
  - vm_compute. reflexivity.
Qed.

End Control.

(** ** The host: [RemoteDesktopServer] *)

Module Server.
Import Py Wire.

Local Open Scope string_scope.
Local Open Scope list_scope.

(** **** State, effects and environment *)

(** Socket and process handles. *)
Definition sock : Set := nat.
Definition proc : Set := nat.

(** The media thread, by its target. *)
Inductive target : Set :=
| stream_ffmpeg_target
| stream_screen_target.

(** The attributes of [RemoteDesktopServer] that the session engine reads
    and writes; the settings are read through their locked properties. *)
Record server : Set := {
  is_running : bool;
  server_socket : option sock;
  client_conn : option sock;
  audio_socket : option sock;
  audio_client_conn : option sock;
  control_socket_listener : option sock;
  control_client_conn : option sock;
  media_process : option proc;
  _media_thread : option target;
  _stop_stream_event : bool;
  _stop_heartbeat_event : bool;
  _stop_control_event : bool;
  jpeg_quality : Z;
  screen_capture_rate : Z;
  is_muted : bool;
  encoder_mode : string;
  ffmpeg_encoder : string
}.

(** Assignments to one attribute. *)
Definition set_is_running (v : bool) (s : server) : server :=
  {| is_running := v; server_socket := server_socket s;
     client_conn := client_conn s; audio_socket := audio_socket s;
     audio_client_conn := audio_client_conn s;
     control_socket_listener := control_socket_listener s;
     control_client_conn := control_client_conn s;
     media_process := media_process s; _media_thread := _media_thread s;
     _stop_stream_event := _stop_stream_event s;
     _stop_heartbeat_event := _stop_heartbeat_event s;
     _stop_control_event := _stop_control_event s;
     jpeg_quality := jpeg_quality s;
     screen_capture_rate := screen_capture_rate s; is_muted := is_muted s;
     encoder_mode := encoder_mode s; ffmpeg_encoder := ffmpeg_encoder s |}.

Definition set_server_socket (v : option sock) (s : server) : server :=
  {| is_running := is_running s; server_socket := v;
     client_conn := client_conn s; audio_socket := audio_socket s;
     audio_client_conn := audio_client_conn s;
     control_socket_listener := control_socket_listener s;
     control_client_conn := control_client_conn s;
     media_process := media_process s; _media_thread := _media_thread s;
     _stop_stream_event := _stop_stream_event s;
     _stop_heartbeat_event := _stop_heartbeat_event s;
     _stop_control_event := _stop_control_event s;
     jpeg_quality := jpeg_quality s;
     screen_capture_rate := screen_capture_rate s; is_muted := is_muted s;
     encoder_mode := encoder_mode s; ffmpeg_encoder := ffmpeg_encoder s |}.

Definition set_client_conn (v : option sock) (s : server) : server :=
  {| is_running := is_running s; server_socket := server_socket s;
     client_conn := v; audio_socket := audio_socket s;
     audio_client_conn := audio_client_conn s;
     control_socket_listener := control_socket_listener s;
     control_client_conn := control_client_conn s;
     media_process := media_process s; _media_thread := _media_thread s;
     _stop_stream_event := _stop_stream_event s;
     _stop_heartbeat_event := _stop_heartbeat_event s;
     _stop_control_event := _stop_control_event s;
     jpeg_quality := jpeg_quality s;
     screen_capture_rate := screen_capture_rate s; is_muted := is_muted s;
     encoder_mode := encoder_mode s; ffmpeg_encoder := ffmpeg_encoder s |}.

Definition set_audio_socket (v : option sock) (s : server) : server :=
  {| is_running := is_running s; server_socket := server_socket s;
     client_conn := client_conn s; audio_socket := v;
     audio_client_conn := audio_client_conn s;
     control_socket_listener := control_socket_listener s;
     control_client_conn := control_client_conn s;
     media_process := media_process s; _media_thread := _media_thread s;
     _stop_stream_event := _stop_stream_event s;
     _stop_heartbeat_event := _stop_heartbeat_event s;
     _stop_control_event := _stop_control_event s;
     jpeg_quality := jpeg_quality s;
     screen_capture_rate := screen_capture_rate s; is_muted := is_muted s;
     encoder_mode := encoder_mode s; ffmpeg_encoder := ffmpeg_encoder s |}.

Definition set_audio_client_conn (v : option sock) (s : server) : server :=
  {| is_running := is_running s; server_socket := server_socket s;
     client_conn := client_conn s; audio_socket := audio_socket s;
     audio_client_conn := v;
     control_socket_listener := control_socket_listener s;
     control_client_conn := control_client_conn s;
     media_process := media_process s; _media_thread := _media_thread s;
     _stop_stream_event := _stop_stream_event s;
     _stop_heartbeat_event := _stop_heartbeat_event s;
     _stop_control_event := _stop_control_event s;
     jpeg_quality := jpeg_quality s;
     screen_capture_rate := screen_capture_rate s; is_muted := is_muted s;
     encoder_mode := encoder_mode s; ffmpeg_encoder := ffmpeg_encoder s |}.

Definition set_control_socket_listener (v : option sock) (s : server) : server :=
  {| is_running := is_running s; server_socket := server_socket s;
     client_conn := client_conn s; audio_socket := audio_socket s;
     audio_client_conn := audio_client_conn s; control_socket_listener := v;
     control_client_conn := control_client_conn s;
     media_process := media_process s; _media_thread := _media_thread s;
     _stop_stream_event := _stop_stream_event s;
     _stop_heartbeat_event := _stop_heartbeat_event s;
     _stop_control_event := _stop_control_event s;
     jpeg_quality := jpeg_quality s;
     screen_capture_rate := screen_capture_rate s; is_muted := is_muted s;
     encoder_mode := encoder_mode s; ffmpeg_encoder := ffmpeg_encoder s |}.

Definition set_control_client_conn (v : option sock) (s : server) : server :=
  {| is_running := is_running s; server_socket := server_socket s;
     client_conn := client_conn s; audio_socket := audio_socket s;
     audio_client_conn := audio_client_conn s;
     control_socket_listener := control_socket_listener s;
     control_client_conn := v; media_process := media_process s;
     _media_thread := _media_thread s;
     _stop_stream_event := _stop_stream_event s;
     _stop_heartbeat_event := _stop_heartbeat_event s;
     _stop_control_event := _stop_control_event s;
     jpeg_quality := jpeg_quality s;
     screen_capture_rate := screen_capture_rate s; is_muted := is_muted s;
     encoder_mode := encoder_mode s; ffmpeg_encoder := ffmpeg_encoder s |}.

Definition set_media_process (v : option proc) (s : server) : server :=
  {| is_running := is_running s; server_socket := server_socket s;
     client_conn := client_conn s; audio_socket := audio_socket s;
     audio_client_conn := audio_client_conn s;
     control_socket_listener := control_socket_listener s;
     control_client_conn := control_client_conn s; media_process := v;
     _media_thread := _media_thread s;
     _stop_stream_event := _stop_stream_event s;
     _stop_heartbeat_event := _stop_heartbeat_event s;
     _stop_control_event := _stop_control_event s;
     jpeg_quality := jpeg_quality s;
     screen_capture_rate := screen_capture_rate s; is_muted := is_muted s;
     encoder_mode := encoder_mode s; ffmpeg_encoder := ffmpeg_encoder s |}.

Definition set_media_thread (v : option target) (s : server) : server :=
  {| is_running := is_running s; server_socket := server_socket s;
     client_conn := client_conn s; audio_socket := audio_socket s;
     audio_client_conn := audio_client_conn s;
     control_socket_listener := control_socket_listener s;
     control_client_conn := control_client_conn s;
     media_process := media_process s; _media_thread := v;
     _stop_stream_event := _stop_stream_event s;
     _stop_heartbeat_event := _stop_heartbeat_event s;
     _stop_control_event := _stop_control_event s;
     jpeg_quality := jpeg_quality s;
     screen_capture_rate := screen_capture_rate s; is_muted := is_muted s;
     encoder_mode := encoder_mode s; ffmpeg_encoder := ffmpeg_encoder s |}.

Definition set_stop_stream_event (v : bool) (s : server) : server :=
  {| is_running := is_running s; server_socket := server_socket s;
     client_conn := client_conn s; audio_socket := audio_socket s;
     audio_client_conn := audio_client_conn s;
     control_socket_listener := control_socket_listener s;
     control_client_conn := control_client_conn s;
     media_process := media_process s; _media_thread := _media_thread s;
     _stop_stream_event := v;
     _stop_heartbeat_event := _stop_heartbeat_event s;
     _stop_control_event := _stop_control_event s;
     jpeg_quality := jpeg_quality s;
     screen_capture_rate := screen_capture_rate s; is_muted := is_muted s;
     encoder_mode := encoder_mode s; ffmpeg_encoder := ffmpeg_encoder s |}.

Definition set_stop_heartbeat_event (v : bool) (s : server) : server :=
  {| is_running := is_running s; server_socket := server_socket s;
     client_conn := client_conn s; audio_socket := audio_socket s;
     audio_client_conn := audio_client_conn s;
     control_socket_listener := control_socket_listener s;
     control_client_conn := control_client_conn s;
     media_process := media_process s; _media_thread := _media_thread s;
     _stop_stream_event := _stop_stream_event s; _stop_heartbeat_event := v;
     _stop_control_event := _stop_control_event s;
     jpeg_quality := jpeg_quality s;
     screen_capture_rate := screen_capture_rate s; is_muted := is_muted s;
     encoder_mode := encoder_mode s; ffmpeg_encoder := ffmpeg_encoder s |}.

Definition set_stop_control_event (v : bool) (s : server) : server :=
  {| is_running := is_running s; server_socket := server_socket s;
     client_conn := client_conn s; audio_socket := audio_socket s;
     audio_client_conn := audio_client_conn s;
     control_socket_listener := control_socket_listener s;
     control_client_conn := control_client_conn s;
     media_process := media_process s; _media_thread := _media_thread s;
     _stop_stream_event := _stop_stream_event s;
     _stop_heartbeat_event := _stop_heartbeat_event s;
     _stop_control_event := v; jpeg_quality := jpeg_quality s;
     screen_capture_rate := screen_capture_rate s; is_muted := is_muted s;
     encoder_mode := encoder_mode s; ffmpeg_encoder := ffmpeg_encoder s |}.

Definition set_jpeg_quality (v : Z) (s : server) : server :=
  {| is_running := is_running s; server_socket := server_socket s;
     client_conn := client_conn s; audio_socket := audio_socket s;
     audio_client_conn := audio_client_conn s;
     control_socket_listener := control_socket_listener s;
     control_client_conn := control_client_conn s;
     media_process := media_process s; _media_thread := _media_thread s;
     _stop_stream_event := _stop_stream_event s;
     _stop_heartbeat_event := _stop_heartbeat_event s;
     _stop_control_event := _stop_control_event s; jpeg_quality := v;
     screen_capture_rate := screen_capture_rate s; is_muted := is_muted s;
     encoder_mode := encoder_mode s; ffmpeg_encoder := ffmpeg_encoder s |}.

Definition set_screen_capture_rate (v : Z) (s : server) : server :=
  {| is_running := is_running s; server_socket := server_socket s;
     client_conn := client_conn s; audio_socket := audio_socket s;
     audio_client_conn := audio_client_conn s;
     control_socket_listener := control_socket_listener s;
     control_client_conn := control_client_conn s;
     media_process := media_process s; _media_thread := _media_thread s;
     _stop_stream_event := _stop_stream_event s;
     _stop_heartbeat_event := _stop_heartbeat_event s;
     _stop_control_event := _stop_control_event s;
     jpeg_quality := jpeg_quality s; screen_capture_rate := v;
     is_muted := is_muted s; encoder_mode := encoder_mode s;
     ffmpeg_encoder := ffmpeg_encoder s |}.

Definition set_is_muted (v : bool) (s : server) : server :=
  {| is_running := is_running s; server_socket := server_socket s;
     client_conn := client_conn s; audio_socket := audio_socket s;
     audio_client_conn := audio_client_conn s;
     control_socket_listener := control_socket_listener s;
     control_client_conn := control_client_conn s;
     media_process := media_process s; _media_thread := _media_thread s;
     _stop_stream_event := _stop_stream_event s;
     _stop_heartbeat_event := _stop_heartbeat_event s;
     _stop_control_event := _stop_control_event s;
     jpeg_quality := jpeg_quality s;
     screen_capture_rate := screen_capture_rate s; is_muted := v;
     encoder_mode := encoder_mode s; ffmpeg_encoder := ffmpeg_encoder s |}.

Definition set_encoder_mode (v : string) (s : server) : server :=
  {| is_running := is_running s; server_socket := server_socket s;
     client_conn := client_conn s; audio_socket := audio_socket s;
     audio_client_conn := audio_client_conn s;
     control_socket_listener := control_socket_listener s;
     control_client_conn := control_client_conn s;
     media_process := media_process s; _media_thread := _media_thread s;
     _stop_stream_event := _stop_stream_event s;
     _stop_heartbeat_event := _stop_heartbeat_event s;
     _stop_control_event := _stop_control_event s;
     jpeg_quality := jpeg_quality s;
     screen_capture_rate := screen_capture_rate s; is_muted := is_muted s;
     encoder_mode := v; ffmpeg_encoder := ffmpeg_encoder s |}.

Definition set_ffmpeg_encoder (v : string) (s : server) : server :=
  {| is_running := is_running s; server_socket := server_socket s;
     client_conn := client_conn s; audio_socket := audio_socket s;
     audio_client_conn := audio_client_conn s;
     control_socket_listener := control_socket_listener s;
     control_client_conn := control_client_conn s;
     media_process := media_process s; _media_thread := _media_thread s;
     _stop_stream_event := _stop_stream_event s;
     _stop_heartbeat_event := _stop_heartbeat_event s;
     _stop_control_event := _stop_control_event s;
     jpeg_quality := jpeg_quality s;
     screen_capture_rate := screen_capture_rate s; is_muted := is_muted s;
     encoder_mode := encoder_mode s; ffmpeg_encoder := v |}.

(** [RemoteDesktopServer.__init__], before [_load_settings]. *)
Definition init_server : server :=
  {| is_running := false;
     server_socket := None; client_conn := None; audio_socket := None;
     audio_client_conn := None; control_socket_listener := None;
     control_client_conn := None;
     media_process := None; _media_thread := None;
     _stop_stream_event := false; _stop_heartbeat_event := false;
     _stop_control_event := false;
     jpeg_quality := 75; screen_capture_rate := 30; is_muted := false;
     encoder_mode := "Legacy (Slow)"; ffmpeg_encoder := "libx264" |}.

(** What an operation does to the outside world, in order.  Status
    messages ([update_status_signal]) are left out. *)
Inductive effect : Set :=
| Shutdown (s : sock)                   (* s.shutdown(SHUT_RDWR) *)
| Close (s : sock)                      (* s.close() *)
| SendAll (s : sock) (data : bytes)     (* s.sendall(data) *)
| Terminate (p : proc)
| Wait (p : proc) (timeout : Z)
| Kill (p : proc)
| Join (t : target) (timeout : Z)
| Start (t : target)
| Popen (p : proc) (command : list string)
| Encode (quality : Z)                  (* pil_img.save(..., quality=quality) *)
| Sleep (rate : Z)                      (* time.sleep(1 / rate if rate > 0 else 1) *)
| SaveSettings (quality rate : Z) (muted : bool) (mode encoder : string)
| ClientConnected
| ClientDisconnectedSignal
| ServerStopped.

(** What the operations observe of threads and processes. *)
Record env : Set := {
  thread_alive : target -> bool;        (* t.is_alive() *)
  process_running : proc -> bool;       (* p.poll() is None *)
  wait_times_out : proc -> bool         (* p.wait(timeout) raises TimeoutExpired *)
}.

Definition is_none {A : Type} (o : option A) : bool :=
  match o with None => true | Some _ => false end.

(** [mode.startswith("FFmpeg")] *)
Definition is_ffmpeg_mode (mode : string) : bool := String.prefix "FFmpeg" mode.

(** **** Teardown: [stop_server] *)

(** The nested [close_socket(sock)]: both calls are attempted, an
    [OSError] of either is swallowed. *)
Definition close_socket (o : option sock) : list effect :=
  match o with
  | Some s => [Shutdown s; Close s]
  | None => []
  end.

(** [p.terminate()], [p.wait(timeout=2)], and [p.kill()] when the wait
    timed out. *)
Definition terminate_wait_kill (e : env) (p : proc) : list effect :=
  Terminate p :: Wait p 2 :: (if wait_times_out e p then [Kill p] else []).

(** [self.config] is a [configparser.ConfigParser()], whose [set] passes a
    non-empty value through [BasicInterpolation.before_set]:
    [tmp_value = value.replace('%%', '')], then
    [tmp_value = self._KEYCRE.sub('', tmp_value)] with
    [_KEYCRE = re.compile(r"%\(([^)]+)\)s")], then
    [if '%' in tmp_value: raise ValueError(...)]. *)

(** [value.replace('%%', '')] *)
Fixpoint drop_escaped (value : string) : string :=
  match value with
  | EmptyString => EmptyString
  | String c rest =>
      match rest with
      | EmptyString => String c EmptyString
      | String c' rest' =>
          if Ascii.eqb c "%" && Ascii.eqb c' "%" then drop_escaped rest'
          else String c (drop_escaped rest)
      end
  end.

(** What follows a match of [[^)]+\)s] at the start of [value]: the
    characters up to the first [)] (at least one, [seen]), then [)s]. *)
Fixpoint after_key (seen : bool) (value : string) : option string :=
  match value with
  | EmptyString => None
  | String c rest =>
      if Ascii.eqb c ")" then
        match rest with
        | String c' rest' =>
            if seen && Ascii.eqb c' "s" then Some rest' else None
        | EmptyString => None
        end
      else after_key true rest
  end.

(** [_KEYCRE.sub('', value)]: the matches are removed from left to right.
    Every round consumes a character, so [String.length value] rounds reach
    the end of the value. *)
Fixpoint KEYCRE_sub (rounds : nat) (value : string) : string :=
  match rounds with
  | O => value
  | S rounds' =>
      match value with
      | EmptyString => EmptyString
      | String c rest =>
          match (if Ascii.eqb c "%" then
                   match rest with
                   | String c' key =>
                       if Ascii.eqb c' "(" then after_key false key else None
                   | EmptyString => None
                   end
                 else None) with
          | Some rest' => KEYCRE_sub rounds' rest'
          | None => String c (KEYCRE_sub rounds' rest)
          end
      end
  end.

(** ['%' in value] *)
Fixpoint has_percent (value : string) : bool :=
  match value with
  | EmptyString => false
  | String c rest => Ascii.eqb c "%" || has_percent rest
  end.

(** [BasicInterpolation.before_set] *)
Definition before_set (value : string) : result string :=
  let tmp_value := drop_escaped value in
  let tmp_value := KEYCRE_sub (String.length tmp_value) tmp_value in
  if has_percent tmp_value then Raise ValueError else Ok value.

(** [_save_settings]: the five [config.set] calls, which are outside the
    [try], and the write of the file (an [IOError] of the write is caught).
    [str] of an int or of a bool holds no [%], so only the two strings can
    be refused. *)
Definition _save_settings (s : server) : result effect :=
  mode <- before_set (encoder_mode s) ;;
  encoder <- before_set (ffmpeg_encoder s) ;;
  Ok (SaveSettings (jpeg_quality s) (screen_capture_rate s) (is_muted s)
                   mode encoder).

Definition set_stop_flags (s : server) : server :=
  set_stop_control_event true
    (set_stop_heartbeat_event true
       (set_stop_stream_event true (set_is_running false s))).

Definition clear_sockets (s : server) : server :=
  set_control_socket_listener None
    (set_audio_socket None
       (set_server_socket None
          (set_control_client_conn None
             (set_audio_client_conn None (set_client_conn None s))))).

(** [stop_server], run by one thread from its first statement to its last
    while no other thread touches the object.  The third component is the
    exception that leaves the method, [None] when it returns: a [ValueError]
    of [_save_settings] leaves it after the sockets were closed and before
    [server_stopped_signal] is emitted. *)
Definition stop_server (e : env) (s : server)
  : server * list effect * option pyexn :=
  if negb (is_running s) && is_none (server_socket s) then (s, [], None)
  else
    let s1 := set_stop_flags s in
    let (s2, fx_process) :=
      match media_process s1 with
      | Some p => (set_media_process None s1, terminate_wait_kill e p)
      | None => (s1, [])
      end in
    let s3 := clear_sockets s2 in
    let fx :=
      fx_process
      ++ close_socket (client_conn s) ++ close_socket (audio_client_conn s)
      ++ close_socket (control_client_conn s) ++ close_socket (server_socket s)
      ++ close_socket (audio_socket s)
      ++ close_socket (control_socket_listener s) in
    match _save_settings s3 with
    | Ok saved => (s3, fx ++ [saved; ServerStopped], None)
    | Raise x => (s3, fx, Some x)
    end.

(** The sockets that [stop_server] closes, in its order, and the [close]
    calls of a trace. *)
Definition open_sockets (s : server) : list sock :=
  let some (o : option sock) := match o with Some k => [k] | None => [] end in
  some (client_conn s) ++ some (audio_client_conn s)
  ++ some (control_client_conn s) ++ some (server_socket s)
  ++ some (audio_socket s) ++ some (control_socket_listener s).

Fixpoint closes (fx : list effect) : list sock :=
  match fx with
  | [] => []
  | Close k :: fx' => k :: closes fx'
  | _ :: fx' => closes fx'
  end.

(** **** [stop_server], statement by statement *)

(** The same method as a transition function on its program points, so
    that two threads running it on one object can be interleaved.  Each
    step is one statement (or a block of consecutive statements) of the
    source and re-reads the attributes it names. *)

(** The six socket attributes. *)
Inductive sockfield : Set :=
| f_client_conn
| f_audio_client_conn
| f_control_client_conn
| f_server_socket
| f_audio_socket
| f_control_socket_listener.

Definition get_field (f : sockfield) (s : server) : option sock :=
  match f with
  | f_client_conn => client_conn s
  | f_audio_client_conn => audio_client_conn s
  | f_control_client_conn => control_client_conn s
  | f_server_socket => server_socket s
  | f_audio_socket => audio_socket s
  | f_control_socket_listener => control_socket_listener s
  end.

Definition clear_field (f : sockfield) (s : server) : server :=
  match f with
  | f_client_conn => set_client_conn None s
  | f_audio_client_conn => set_audio_client_conn None s
  | f_control_client_conn => set_control_client_conn None s
  | f_server_socket => set_server_socket None s
  | f_audio_socket => set_audio_socket None s
  | f_control_socket_listener => set_control_socket_listener None s
  end.

(** The program points of [stop_server]. *)
Inductive pc : Set :=
| at_guard            (* if not self.is_running and self.server_socket is None: return *)
| at_flags            (* is_running = False; the three events are set *)
| at_process_test     (* if self.media_process: *)
| at_terminate        (* self.media_process.terminate() *)
| at_wait             (* try: self.media_process.wait(timeout=2) *)
| at_kill             (* except TimeoutExpired: self.media_process.kill() *)
| at_process_clear    (* self.media_process = None *)
| at_close (f : sockfield)   (* close_socket(self.f) *)
| at_clear (f : sockfield)   (* self.f = None *)
| at_save             (* self._save_settings(); server_stopped_signal.emit() *)
| at_done
| at_raised (x : pyexn).

Definition after_clear (f : sockfield) : pc :=
  match f with
  | f_client_conn => at_close f_audio_client_conn
  | f_audio_client_conn => at_close f_control_client_conn
  | f_control_client_conn => at_close f_server_socket
  | f_server_socket => at_close f_audio_socket
  | f_audio_socket => at_close f_control_socket_listener
  | f_control_socket_listener => at_save
  end.

(** One step of a thread at program point [l]. *)
Definition step (e : env) (s : server) (l : pc) : server * pc * list effect :=
  match l with
  | at_guard =>
      if negb (is_running s) && is_none (server_socket s)
      then (s, at_done, []) else (s, at_flags, [])
  | at_flags => (set_stop_flags s, at_process_test, [])
  | at_process_test =>
      (s, if is_none (media_process s) then at_close f_client_conn
          else at_terminate, [])
  | at_terminate =>
      match media_process s with
      | Some p => (s, at_wait, [Terminate p])
      | None => (s, at_raised AttributeError, [])
      end
  | at_wait =>
      match media_process s with
      | Some p =>
          (s, if wait_times_out e p then at_kill else at_process_clear,
           [Wait p 2])
      | None => (s, at_raised AttributeError, [])
      end
  | at_kill =>
      match media_process s with
      | Some p => (s, at_process_clear, [Kill p])
      | None => (s, at_raised AttributeError, [])
      end
  | at_process_clear => (set_media_process None s, at_close f_client_conn, [])
  | at_close f => (s, at_clear f, close_socket (get_field f s))
  | at_clear f => (clear_field f s, after_clear f, [])
  | at_save =>
      match _save_settings s with
      | Ok saved => (s, at_done, [saved; ServerStopped])
      | Raise x => (s, at_raised x, [])
      end
  | at_done => (s, at_done, [])
  | at_raised x => (s, at_raised x, [])
  end.

(** One thread alone, for [n] steps. *)
Fixpoint run (n : nat) (e : env) (s : server) (l : pc)
  : server * pc * list effect :=
  match n with
  | O => (s, l, [])
  | S n' =>
      let '(s1, l1, fx1) := step e s l in
      let '(s2, l2, fx2) := run n' e s1 l1 in
      (s2, l2, fx1 ++ fx2)
  end.

(** The end of the [finally] block of [stream_ffmpeg], which the media
    thread reaches once it has seen the stop event: a process that is still
    running is terminated and [self.media_process = None]. *)
Definition stream_ffmpeg_finally (e : env) (s : server) : server * list effect :=
  (set_media_process None s,
   match media_process s with
   | Some p => if process_running e p then [Terminate p] else []
   | None => []
   end).

(** Two threads [A] and [B] in [stop_server] on the same object (the
    window's [stop_server] and the [finally] of [run_server]) and the media
    thread [M] in the [finally] block of [stream_ffmpeg], stepped in the
    order of the schedule. *)
Inductive tid : Set := A | B | M.

Fixpoint run_schedule (schedule : list tid) (e : env) (s : server)
  (la lb : pc) : server * pc * pc * list (tid * effect) :=
  match schedule with
  | [] => (s, la, lb, [])
  | A :: later =>
      let '(s1, la1, fx) := step e s la in
      let '(s2, la2, lb2, fx') := run_schedule later e s1 la1 lb in
      (s2, la2, lb2, map (pair A) fx ++ fx')
  | B :: later =>
      let '(s1, lb1, fx) := step e s lb in
      let '(s2, la2, lb2, fx') := run_schedule later e s1 la lb1 in
      (s2, la2, lb2, map (pair B) fx ++ fx')
  | M :: later =>
      let (s1, fx) := stream_ffmpeg_finally e s in
      let '(s2, la2, lb2, fx') := run_schedule later e s1 la lb in
      (s2, la2, lb2, map (pair M) fx ++ fx')
  end.

(** Nothing is left to tear down: the host is not running, and the six
    socket attributes and the process attribute are [None]. *)
Definition torn_down (s : server) : bool :=
  negb (is_running s) && is_none (media_process s)
  && is_none (client_conn s) && is_none (audio_client_conn s)
  && is_none (control_client_conn s) && is_none (server_socket s)
  && is_none (audio_socket s) && is_none (control_socket_listener s).

(** The socket attributes that [stop_server] has cleared when it reaches
    [close_socket(self.f)]. *)
Definition cleared_before (f : sockfield) (s : server) : bool :=
  match f with
  | f_client_conn => true
  | f_audio_client_conn => is_none (client_conn s)
  | f_control_client_conn =>
      is_none (client_conn s) && is_none (audio_client_conn s)
  | f_server_socket =>
      is_none (client_conn s) && is_none (audio_client_conn s)
      && is_none (control_client_conn s)
  | f_audio_socket =>
      is_none (client_conn s) && is_none (audio_client_conn s)
      && is_none (control_client_conn s) && is_none (server_socket s)
  | f_control_socket_listener =>
      is_none (client_conn s) && is_none (audio_client_conn s)
      && is_none (control_client_conn s) && is_none (server_socket s)
      && is_none (audio_socket s)
  end.

(** What holds of the object while a thread is at [l], whatever the other
    threads of a schedule do: they only clear attributes. *)
Definition established (l : pc) (s : server) : bool :=
  match l with
  | at_guard | at_flags | at_raised _ => true
  | at_process_test | at_terminate | at_wait | at_kill | at_process_clear =>
      negb (is_running s)
  | at_close f | at_clear f =>
      negb (is_running s) && is_none (media_process s) && cleared_before f s
  | at_save => torn_down s
  | at_done => negb (is_running s) && is_none (server_socket s)
  end.

(** The thread is past the guard and has not returned. *)
Definition busy (l : pc) : bool :=
  match l with
  | at_guard | at_done => false
  | _ => true
  end.

(** [s'] is [s] with some attributes cleared. *)
Definition only_cleared (s s' : server) : Prop :=
  (is_running s = false -> is_running s' = false) /\
  (media_process s = None -> media_process s' = None) /\
  (client_conn s = None -> client_conn s' = None) /\
  (audio_client_conn s = None -> audio_client_conn s' = None) /\
  (control_client_conn s = None -> control_client_conn s' = None) /\
  (server_socket s = None -> server_socket s' = None) /\
  (audio_socket s = None -> audio_socket s' = None) /\
  (control_socket_listener s = None -> control_socket_listener s' = None).

(** **** Sample states and environments *)

(** A host in the middle of a managed-encoder session: listener sockets 1
    and 3, the viewer's video connection 2 and control connection 4, the
    encoder process 7. *)
Definition running_session : server :=
  {| is_running := true;
     server_socket := Some 1%nat; client_conn := Some 2%nat;
     audio_socket := None; audio_client_conn := None;
     control_socket_listener := Some 3%nat;
     control_client_conn := Some 4%nat;
     media_process := Some 7%nat; _media_thread := Some stream_ffmpeg_target;
     _stop_stream_event := false; _stop_heartbeat_event := false;
     _stop_control_event := false;
     jpeg_quality := 75; screen_capture_rate := 30; is_muted := false;
     encoder_mode := "FFmpeg x264 (CPU)"; ffmpeg_encoder := "libx264" |}.

(** Threads that have finished and a process that exits when asked to. *)
Definition quiet : env :=
  {| thread_alive := fun _ => false;
     process_running := fun _ => false;
     wait_times_out := fun _ => false |}.

(** A host that is listening, with no viewer connected. *)
Definition listening : server :=
  {| is_running := true;
     server_socket := Some 1%nat; client_conn := None;
     audio_socket := None; audio_client_conn := None;
     control_socket_listener := Some 3%nat;
     control_client_conn := None;
     media_process := None; _media_thread := None;
     _stop_stream_event := false; _stop_heartbeat_event := false;
     _stop_control_event := false;
     jpeg_quality := 75; screen_capture_rate := 30; is_muted := false;
     encoder_mode := "FFmpeg x264 (CPU)"; ffmpeg_encoder := "libx264" |}.

(** Ten steps of one thread. *)
Definition ten (t : tid) : list tid := [t; t; t; t; t; t; t; t; t; t].

(** [A] and [B] in turn, [n] steps each. *)
Fixpoint alternate (n : nat) : list tid :=
  match n with
  | O => []
  | S n' => A :: B :: alternate n'
  end.

(** **** The managed-encoder pipeline: [stream_ffmpeg] *)

Inductive platform : Set := win32 | darwin | linux.

(** What [stream_ffmpeg] finds on the host: [sys.platform], [$DISPLAY],
    [self.monitor_dims], whether [ffmpeg] is on the path, the answer of
    [pactl get-default-sink] ([None] when it fails), and the process that
    [Popen] creates. *)
Record host : Set := {
  os : platform;
  display : string;
  monitor_dims : Mapper.MonitorGeometry;
  ffmpeg_installed : bool;
  default_sink : option string;
  new_process : proc
}.

(** [str(n)] for an int. *)
Definition str (n : Z) : string := NilZero.string_of_int (Z.to_int n).

Definition RATE : Z := 48000.
Definition CHANNELS : Z := 2.

(** The audio input of the command: [None] when muted, or when the default
    sink cannot be found on Linux. *)
Definition audio_input (h : host) (is_muted : bool) : option (list string) :=
  if is_muted then None
  else match os h with
       | win32 => Some ["-f"; "dshow"; "-i"; "audio=Stereo Mix"]
       | darwin => Some ["-f"; "avfoundation"; "-i"; "none:0"]
       | linux =>
           match default_sink h with
           | Some sink => Some ["-f"; "pulse"; "-i"; (sink ++ ".monitor")%string]
           | None => None
           end
       end.

(** The [command] list that [stream_ffmpeg] builds from the settings it
    reads when it starts. *)
Definition ffmpeg_command (h : host) (rate : Z) (encoder : string)
  (is_muted : bool) : list string :=
  let g := monitor_dims h in
  ["ffmpeg"; "-y"; "-loglevel"; "error"]
   ++ match os h with
      | win32 => ["-f"; "gdigrab"; "-framerate"; str rate; "-i"; "desktop"]
      | darwin => ["-f"; "avfoundation"; "-framerate"; str rate; "-i"; "1:0"]
      | linux =>
          ["-f"; "x11grab"; "-video_size";
           (str (Mapper.width g) ++ "x" ++ str (Mapper.height g))%string;
           "-framerate"; str rate; "-i";
           (display h ++ "+" ++ str (Mapper.left g) ++ ","
            ++ str (Mapper.top g))%string]
      end
   ++ match audio_input h is_muted with Some input => input | None => [] end
   ++ ["-c:v"; encoder]
   ++ ["-g"; str (rate * 2)]
   ++ (if String.eqb encoder "libx264"
       then ["-preset"; "ultrafast"; "-tune"; "zerolatency"; "-crf"; "28"]
       else ["-preset"; "p1"; "-tune"; "ll"; "-b:v"; "8M"])
   ++ match audio_input h is_muted with
      | Some _ => ["-c:a"; "libopus"; "-b:a"; "128k"; "-ar"; str RATE;
                   "-ac"; str CHANNELS]
      | None => ["-an"]
      end
   ++ ["-f"; "mpegts"; "pipe:1"].

(** What one iteration of the copy loop observes, in the order in which it
    looks: the loop condition ([is_running] and the stop event, which other
    threads set), [poll()] at the top, the chunk read from the encoder's
    output, [poll()] after an empty read, and whether [sendall] raises. *)
Record ffmpeg_tick : Set := {
  stop_requested : bool;
  exited : bool;
  chunk : bytes;
  exited_after_read : bool;
  send_fails : bool
}.

(** Why a pipeline loop ended. *)
Inductive loop_end : Set :=
| StopObserved        (* the loop condition became false *)
| ConnectionGone      (* self.client_conn is None *)
| ProcessExited       (* the encoder process has exited *)
| SendFailed          (* sendall raised *)
| CaptureFailed       (* mss.exception.ScreenShotError *)
| OtherError.         (* any other exception *)

(** The [while] loop of [stream_ffmpeg].  The end of the script stands for
    a stop request. *)
Fixpoint ffmpeg_loop (script : list ffmpeg_tick) (s : server)
  : server * list effect * loop_end :=
  match script with
  | [] => (s, [], StopObserved)
  | t :: later =>
      if stop_requested t then (s, [], StopObserved)
      else
        match client_conn s with
        | None => (s, [], ConnectionGone)
        | Some conn =>
            if exited t then (s, [], ProcessExited)
            else
              match chunk t with
              | [] =>
                  if exited_after_read t then (s, [], ProcessExited)
                  else ffmpeg_loop later s
              | data =>
                  if send_fails t
                  then (set_stop_heartbeat_event true s,
                        [SendAll conn data], SendFailed)
                  else
                    let '(s', fx, why) := ffmpeg_loop later s in
                    (s', SendAll conn data :: fx, why)
              end
        end
  end.

(** [stream_ffmpeg]: the settings are read once, the encoder is started,
    its output is copied to the video socket, and the [finally] block
    terminates a process that is still running and drops the handle. *)
Definition stream_ffmpeg (h : host) (e : env) (script : list ffmpeg_tick)
  (s : server) : server * list effect * option loop_end :=
  if negb (ffmpeg_installed h) then (s, [], None)
  else
    let rate := screen_capture_rate s in
    let encoder := ffmpeg_encoder s in
    let muted := is_muted s in
    let p := new_process h in
    let s1 := set_media_process (Some p) s in
    let '(s2, fx, why) := ffmpeg_loop script s1 in
    (set_media_process None s2,
     Popen p (ffmpeg_command h rate encoder muted) :: fx
     ++ (if process_running e p then [Terminate p] else []),
     Some why).

(** **** The legacy pipeline: [stream_screen_x11] *)

(** What one iteration of the frame loop meets. *)
Inductive send_result : Set :=
| SentBoth
| HeaderFailed        (* the first sendall raises *)
| ImageFailed.        (* the second sendall raises *)

Inductive legacy_tick : Set :=
| StopTick                                          (* loop condition false *)
| FrameTick (img_bytes : bytes) (sent : send_result)
| ScreenShotErrorTick                               (* sct.grab raises *)
| OtherErrorTick.                                   (* e.g. Pillow raises *)

(** The [while] loop of [stream_screen_x11]: each iteration reads the rate
    and the quality, grabs and encodes a frame at that quality, sends the
    length prefix and the image, and sleeps for the frame interval. *)
Fixpoint legacy_loop (script : list legacy_tick) (s : server)
  : server * list effect * loop_end :=
  match script with
  | [] => (s, [], StopObserved)
  | StopTick :: _ => (s, [], StopObserved)
  | ScreenShotErrorTick :: _ =>
      (set_stop_heartbeat_event true s, [], CaptureFailed)
  | OtherErrorTick :: _ => (s, [], OtherError)
  | FrameTick img_bytes sent :: later =>
      let rate := screen_capture_rate s in
      let quality := jpeg_quality s in
      match client_conn s with
      | None => (s, [Encode quality], OtherError)
      | Some conn =>
          match pack_be32 (Z.of_nat (List.length img_bytes)) with
          | Raise _ => (s, [Encode quality], OtherError)
          | Ok header =>
              match sent with
              | HeaderFailed =>
                  (set_stop_heartbeat_event true s,
                   [Encode quality; SendAll conn header], SendFailed)
              | ImageFailed =>
                  (set_stop_heartbeat_event true s,
                   [Encode quality; SendAll conn header; SendAll conn img_bytes],
                   SendFailed)
              | SentBoth =>
                  let '(s', fx, why) := legacy_loop later s in
                  (s', Encode quality :: SendAll conn header
                       :: SendAll conn img_bytes :: Sleep rate :: fx, why)
              end
          end
      end
  end.

(** [stream_screen_x11]: nothing without a connection, else the loop. *)
Definition stream_screen_x11 (script : list legacy_tick) (s : server)
  : server * list effect * option loop_end :=
  match client_conn s with
  | None => (s, [], None)
  | Some _ =>
      let '(s', fx, why) := legacy_loop script s in (s', fx, Some why)
  end.

(** **** In-session restarts *)

(** [if self._media_thread and self._media_thread.is_alive(): join(timeout)] *)
Definition join_media_thread (e : env) (s : server) (timeout : Z) : list effect :=
  match _media_thread s with
  | Some t => if thread_alive e t then [Join t timeout] else []
  | None => []
  end.

(** [restart_ffmpeg_stream], the restart behind the mute toggle. *)
Definition restart_ffmpeg_stream (e : env) (s : server) : server * list effect :=
  if negb (is_running s) || negb (is_ffmpeg_mode (encoder_mode s))
     || is_none (client_conn s)
  then (s, [])
  else
    let s1 := set_stop_stream_event true s in
    let fx_join := join_media_thread e s1 2 in
    let (s2, fx_process) :=
      match media_process s1 with
      | Some p => (set_media_process None s1, terminate_wait_kill e p)
      | None => (s1, [])
      end in
    let s3 := set_stop_stream_event false (set_media_thread None s2) in
    let s4 := set_media_thread (Some stream_ffmpeg_target) s3 in
    (s4, fx_join ++ fx_process ++ [Start stream_ffmpeg_target]).


(** The effects of a trace that touch a socket. *)
Definition on_socket (x : effect) : bool :=
  match x with
  | Shutdown _ | Close _ | SendAll _ _ => true
  | _ => false
  end.

(** The settings, as one snapshot. *)
Definition settings (s : server) : Z * Z * bool * string * string :=
  (jpeg_quality s, screen_capture_rate s, is_muted s, encoder_mode s,
   ffmpeg_encoder s).

(** A media thread that does not stop in time and an encoder that ignores
    the termination request. *)
Definition stubborn : env :=
  {| thread_alive := fun _ => true;
     process_running := fun _ => true;
     wait_times_out := fun _ => true |}.

(** **** Failure policy of the pipeline loops *)

(** The loop ends that set the heartbeat stop event, in each loop. *)
Definition ffmpeg_signals (why : loop_end) : bool :=
  match why with
  | SendFailed => true
  | _ => false
  end.

Definition legacy_signals (why : loop_end) : bool :=
  match why with
  | SendFailed | CaptureFailed => true
  | _ => false
  end.

(** The encoder has exited when the loop looks at it. *)
Definition encoder_exited : ffmpeg_tick :=
  {| stop_requested := false; exited := true; chunk := [];
     exited_after_read := true; send_fails := false |}.

(** The encoder's output ends (an empty read) and it is then found exited. *)
Definition encoder_output_ended : ffmpeg_tick :=
  {| stop_requested := false; exited := false; chunk := [];
     exited_after_read := true; send_fails := false |}.

(** One chunk whose [sendall] raises. *)
Definition send_broken : ffmpeg_tick :=
  {| stop_requested := false; exited := false; chunk := [x47];
     exited_after_read := false; send_fails := true |}.

(** A Linux host with ffmpeg and a default audio sink. *)
Definition this_host : host :=
  {| os := linux; display := ":0"; monitor_dims := Mapper.fallback_dims;
     ffmpeg_installed := true; default_sink := Some "alsa_output";
     new_process := 8%nat |}.

(** **** One accepted viewer: the body of the accept loop of [run_server] *)

(** What the session meets: whether the [sendall] of the mode byte raises,
    the result of the audio [accept] ([None] on a timeout), the mode that
    the window's [update_encoder_mode] stores while the loop is between its
    two reads of [self.encoder_mode] ([None] when no mode button is clicked
    then), and what the media thread observes. *)
Record session_io : Set := {
  mode_send_fails : bool;
  audio_conn : option sock;
  mode_switched : option string;
  ffmpeg_script : list ffmpeg_tick;
  legacy_script : list legacy_tick
}.

Inductive session_end : Set :=
| ModeSendFailed      (* the exception leaves the accept loop *)
| Served              (* the heartbeat thread ended, the session is cleaned up *)
| Blocked.            (* the heartbeat stop event is never set *)

(** ['F' if self.encoder_mode.startswith("FFmpeg") else 'L'], encoded. *)
Definition mode_byte (s : server) : byte :=
  if is_ffmpeg_mode (encoder_mode s) then x46 else x4c.

(** The thread target chosen by the mode. *)
Definition media_target (s : server) : target :=
  if is_ffmpeg_mode (encoder_mode s)
  then stream_ffmpeg_target else stream_screen_target.

(** The [finally] block of the accept loop. *)
Definition session_cleanup (e : env) (s : server) : server * list effect :=
  let s1 :=
    set_stop_control_event true
      (set_stop_heartbeat_event true (set_stop_stream_event true s)) in
  let (s2, fx_join) :=
    match _media_thread s1 with
    | Some t =>
        if thread_alive e t then (set_media_thread None s1, [Join t 2])
        else (s1, [])
    | None => (s1, [])
    end in
  let (s3, fx_process) :=
    match media_process s2 with
    | Some p => (set_media_process None s2, terminate_wait_kill e p)
    | None => (s2, [])
    end in
  (set_control_client_conn None
     (set_audio_client_conn None (set_client_conn None s3)),
   fx_join ++ fx_process
   ++ close_socket (client_conn s) ++ close_socket (audio_client_conn s)
   ++ close_socket (control_client_conn s)).

(** The state in which the media thread is started: the connection is
    stored, the events are cleared, the audio connection is accepted when
    the mode byte was ['L'], and the thread is chosen by the mode as it is
    read again after that [accept]. *)
Definition session_start (io : session_io) (conn : sock) (s : server) : server :=
  let s1 := set_stop_heartbeat_event false (set_client_conn (Some conn) s) in
  let s2 :=
    if Byte.eqb (mode_byte s1) x4c && negb (is_none (audio_socket s1))
    then set_audio_client_conn (audio_conn io) s1 else s1 in
  let s2' :=
    match mode_switched io with
    | Some mode => set_encoder_mode mode s2
    | None => s2
    end in
  let s3 := set_media_thread None (set_stop_stream_event false s2') in
  set_media_thread (Some (media_target s3)) s3.

(** The media thread, run from its start to its end (on an X11 session
    [stream_screen] is [stream_screen_x11]). *)
Definition run_media_thread (h : host) (e : env) (io : session_io) (s : server)
  : server * list effect :=
  match media_target s with
  | stream_ffmpeg_target => fst (stream_ffmpeg h e (ffmpeg_script io) s)
  | stream_screen_target => fst (stream_screen_x11 (legacy_script io) s)
  end.

(** From [accept] to the end of the session.  The mode byte is sent on the
    fresh connection; then the media thread is started and the heartbeat
    thread is joined, which returns once the heartbeat stop event is set.
    When the [sendall] of the mode byte raises, [except Exception] breaks
    out of the accept loop: the loop's [finally] block runs and then the
    [finally] of [run_server], which is [stop_server].  (The legacy audio
    thread writes to the audio socket only and is left out.) *)
Definition run_server_iteration (h : host) (e : env) (io : session_io) (conn : sock)
  (s : server) : server * list effect * session_end :=
  let s1 := set_client_conn (Some conn) s in
  let hello := SendAll conn [mode_byte s1] in
  if mode_send_fails io then
    let (s2, fx) := session_cleanup e s1 in
    let '(s3, fx_stop, _) := stop_server e s2 in
    (s3, hello :: fx ++ fx_stop, ModeSendFailed)
  else
    let s2 := session_start io conn s in
    let (s3, fx_media) := run_media_thread h e io s2 in
    if _stop_heartbeat_event s3 then
      let (s4, fx_cleanup) := session_cleanup e s3 in
      (s4,
       hello :: ClientConnected :: Start (media_target s2) :: fx_media
       ++ ClientDisconnectedSignal :: fx_cleanup,
       Served)
    else
      (s3, hello :: ClientConnected :: Start (media_target s2) :: fx_media,
       Blocked).

(** A session in which the mode byte is sent and the encoder is then found
    exited, and one in which the first chunk cannot be sent. *)
Definition encoder_crash : session_io :=
  {| mode_send_fails := false; audio_conn := None; mode_switched := None;
     ffmpeg_script := [encoder_exited]; legacy_script := [] |}.

Definition viewer_gone : session_io :=
  {| mode_send_fails := false; audio_conn := None; mode_switched := None;
     ffmpeg_script := [send_broken]; legacy_script := [] |}.

(** A session during whose start the user clicks the legacy button; the
    media thread then sends one frame. *)
Definition switched_to_legacy : session_io :=
  {| mode_send_fails := false; audio_conn := None;
     mode_switched := Some "Legacy (Slow)";
     ffmpeg_script := [];
     legacy_script := [FrameTick [xff; xd8; xd9] SentBoth] |}.


(** The byte strings written to one socket, in order. *)
Fixpoint sends_on (conn : sock) (fx : list effect) : list bytes :=
  match fx with
  | [] => []
  | SendAll k data :: fx' =>
      if Nat.eqb k conn then data :: sends_on conn fx' else sends_on conn fx'
  | _ :: fx' => sends_on conn fx'
  end.

(** **** Settings: [_load_settings] and the sliders of [ServerWindow] *)

(** The [ServerSettings] section of [server.ini], as [getint],
    [getboolean] and [get] read it: [None] is an absent key. *)
Record config_store : Set := {
  stored_jpeg_quality : option Z;
  stored_screen_capture_rate : option Z;
  stored_is_muted : option bool;
  stored_encoder_mode : option string;
  stored_ffmpeg_encoder : option string
}.

Definition fallback {A : Type} (o : option A) (default : A) : A :=
  match o with
  | Some v => v
  | None => default
  end.

(** [_load_settings]: each value is taken as stored, or its fallback. *)
Definition _load_settings (c : config_store) (s : server) : server :=
  set_ffmpeg_encoder (fallback (stored_ffmpeg_encoder c) "libx264")
    (set_encoder_mode (fallback (stored_encoder_mode c) "Legacy (Slow)")
       (set_is_muted (fallback (stored_is_muted c) false)
          (set_screen_capture_rate (fallback (stored_screen_capture_rate c) 30)
             (set_jpeg_quality (fallback (stored_jpeg_quality c) 75) s)))).

(** A [QSlider]: [setValue] keeps the value inside the range. *)
Record slider : Set := { minimum : Z; maximum : Z; value : Z }.

(** [QSlider.setValue] *)
Definition setValue (v : Z) (sl : slider) : slider :=
  {| minimum := minimum sl; maximum := maximum sl;
     value := Z.max (minimum sl) (Z.min v (maximum sl)) |}.

(** [update_quality] and [update_rate], the slots of the sliders'
    [valueChanged] signal. *)
Definition update_quality (v : Z) (s : server) : server := set_jpeg_quality v s.
Definition update_rate (v : Z) (s : server) : server := set_screen_capture_rate v s.

(** The part of [_setup_ui] that concerns the settings: the mode falls back
    to legacy when no FFmpeg mode is selected or available, the sliders are
    given their ranges and the loaded values before their signals are
    connected, and the closing [update_encoder_mode] call stores the chosen
    mode label and writes the rate back as it is. *)
Definition _setup_ui (ffmpeg_mode_label : option string) (s : server)
  : server * slider * slider :=
  let s1 :=
    match ffmpeg_mode_label with
    | Some label =>
        if is_ffmpeg_mode (encoder_mode s) then set_encoder_mode label s
        else set_encoder_mode "Legacy (Slow)" s
    | None => set_encoder_mode "Legacy (Slow)" s
    end in
  let quality_slider :=
    setValue (jpeg_quality s1) {| minimum := 10; maximum := 100; value := 10 |} in
  let rate_slider :=
    setValue (screen_capture_rate s1) {| minimum := 1; maximum := 60; value := 1 |} in
  (update_rate (screen_capture_rate s1) s1, quality_slider, rate_slider).

(** What the user does with the window afterwards.  A slider only emits
    values of its range. *)
Inductive ui_event : Set :=
| QualityMoved (v : Z)
| RateMoved (v : Z)
| MuteToggled (checked : bool).

Definition from_slider (ev : ui_event) : Prop :=
  match ev with
  | QualityMoved v => 10 <= v <= 100
  | RateMoved v => 1 <= v <= 60
  | MuteToggled _ => True
  end.

Definition handle_ui_event (ev : ui_event) (s : server) : server :=
  match ev with
  | QualityMoved v => update_quality v s
  | RateMoved v => update_rate v s
  | MuteToggled checked => set_is_muted checked s
  end.

Definition handle_ui_events (evs : list ui_event) (s : server) : server :=
  fold_left (fun s ev => handle_ui_event ev s) evs s.

(** The StreamConfig ranges. *)
Definition in_ranges (s : server) : Prop :=
  10 <= jpeg_quality s <= 100 /\ 1 <= screen_capture_rate s <= 60.

Definition stored_in_ranges (c : config_store) : Prop :=
  match stored_jpeg_quality c with Some q => 10 <= q <= 100 | None => True end /\
  match stored_screen_capture_rate c with Some r => 1 <= r <= 60 | None => True end.

(** The host as the window has it once it is set up. *)
Definition started (c : config_store) (label : option string) : server :=
  fst (fst (_setup_ui label (_load_settings c init_server))).

(** The quality and the rate that a pipeline effect was produced with are
    the given ones. *)
Definition reads (quality rate : Z) (x : effect) : Prop :=
  match x with
  | Encode q => q = quality
  | Sleep r => r = rate
  | _ => True
  end.

(** A [server.ini] edited by hand. *)
Definition out_of_range_store : config_store :=
  {| stored_jpeg_quality := Some 5;
     stored_screen_capture_rate := Some 0;
     stored_is_muted := None;
     stored_encoder_mode := None;
     stored_ffmpeg_encoder := None |}.

(** No [server.ini] yet. *)
Definition default_store : config_store :=
  {| stored_jpeg_quality := None;
     stored_screen_capture_rate := None;
     stored_is_muted := None;
     stored_encoder_mode := None;
     stored_ffmpeg_encoder := None |}.

(** **** The legacy audio pipeline: [stream_audio] *)

(** What [stream_audio] finds on the host: whether [parec] is on the path,
    the answer of [pactl get-default-sink] ([None] when it fails), and the
    process that [Popen] creates. *)
Record audio_host : Set := {
  parec_installed : bool;
  audio_sink : option string;
  parec_process : proc
}.

(** What one iteration of the audio loop observes: a [toggle_mute] of the
    window that ran since the last iteration (its [checked] argument), the
    loop condition, the chunk read from [parec] (empty when its output has
    ended), and whether [sendall] raises. *)
Record audio_tick : Set := {
  mute_toggled : option bool;
  audio_stop : bool;
  audio_data : bytes;
  audio_send_fails : bool
}.

(** The [while] loop of [stream_audio].  The end of the script stands for a
    stop request. *)
Fixpoint audio_loop (script : list audio_tick) (s : server)
  : server * list effect * loop_end :=
  match script with
  | [] => (s, [], StopObserved)
  | t :: later =>
      let s1 :=
        match mute_toggled t with
        | Some checked => set_is_muted checked s
        | None => s
        end in
      if audio_stop t then (s1, [], StopObserved)
      else
        match audio_data t with
        | [] => (s1, [], ProcessExited)
        | data =>
            if is_muted s1 then audio_loop later s1
            else
              match audio_client_conn s1 with
              | None => (s1, [], OtherError)
              | Some conn =>
                  if audio_send_fails t
                  then (set_stop_heartbeat_event true s1,
                        [SendAll conn data], SendFailed)
                  else
                    let '(s', fx, why) := audio_loop later s1 in
                    (s', SendAll conn data :: fx, why)
              end
        end
  end.

(** [stream_audio]: nothing without an audio connection, without [parec]
    or without a default sink; else [parec] is started on the monitor of the
    sink, its output is copied to the audio socket, and the [finally] block
    terminates a process that is still running. *)
Definition stream_audio (a : audio_host) (e : env) (script : list audio_tick)
  (s : server) : server * list effect * option loop_end :=
  match audio_client_conn s with
  | None => (s, [], None)
  | Some _ =>
      if negb (parec_installed a) then (s, [], None)
      else
        match audio_sink a with
        | None => (s, [], None)
        | Some sink =>
            let p := parec_process a in
            let '(s', fx, why) := audio_loop script s in
            (s',
             Popen p ["parec"; "--device"; (sink ++ ".monitor")%string;
                      "--format=s16le"; ("--rate=" ++ str RATE)%string;
                      ("--channels=" ++ str CHANNELS)%string] :: fx
             ++ (if process_running e p then [Terminate p] else []),
             Some why)
        end
  end.

(** **** The legacy pipeline on Wayland: [stream_screen_wayland] *)

(** [command_map.get(tool)] *)
Definition command_map (tool : string) : option (list string) :=
  if String.eqb tool "flameshot" then Some ["flameshot"; "full"; "--raw"]
  else if String.eqb tool "gnome-screenshot"
  then Some ["gnome-screenshot"; "-f"; "/tmp/rd_screenshot.png"]
  else if String.eqb tool "wayshot" then Some ["wayshot"; "--stdout"]
  else if String.eqb tool "grim" then Some ["grim"; "-t"; "ppm"; "-"]
  else None.

(** What one iteration of the Wayland frame loop meets. *)
Inductive wayland_tick : Set :=
| WStopTick                      (* loop condition false *)
| WCaptureErrorTick              (* the tool fails or times out, or an OSError *)
| WFrameTick (img_bytes : bytes) (sent : send_result)
| WOtherErrorTick.               (* any other exception *)

(** How the Wayland loop ended: without a capture command, or as the X11
    loop ends. *)
Inductive wayland_end : Set :=
| NoCommand
| Ended (why : loop_end).

(** The [while] loop of [stream_screen_wayland] for the value of
    [self.wayland_screencap_tool].  Each iteration looks the command up,
    runs it, encodes the captured image at the quality it read, sends the
    length prefix and the image, and sleeps (the run of the capture tool is
    not part of the trace). *)
Fixpoint wayland_loop (tool : option string) (script : list wayland_tick)
  (s : server) : server * list effect * wayland_end :=
  match script with
  | [] => (s, [], Ended StopObserved)
  | WStopTick :: _ => (s, [], Ended StopObserved)
  | t :: later =>
      match match tool with
            | Some name => command_map name
            | None => None
            end with
      | None => (s, [], NoCommand)
      | Some _ =>
          match t with
          | WStopTick => (s, [], Ended StopObserved)
          | WCaptureErrorTick =>
              (set_stop_heartbeat_event true s, [], Ended CaptureFailed)
          | WOtherErrorTick => (s, [], Ended OtherError)
          | WFrameTick img_bytes sent =>
              let rate := screen_capture_rate s in
              let quality := jpeg_quality s in
              match client_conn s with
              | None => (s, [Encode quality], Ended OtherError)
              | Some conn =>
                  match pack_be32 (Z.of_nat (List.length img_bytes)) with
                  | Raise _ => (s, [Encode quality], Ended OtherError)
                  | Ok header =>
                      match sent with
                      | HeaderFailed =>
                          (set_stop_heartbeat_event true s,
                           [Encode quality; SendAll conn header],
                           Ended SendFailed)
                      | ImageFailed =>
                          (set_stop_heartbeat_event true s,
                           [Encode quality; SendAll conn header;
                            SendAll conn img_bytes],
                           Ended SendFailed)
                      | SentBoth =>
                          let '(s', fx, why) := wayland_loop tool later s in
                          (s', Encode quality :: SendAll conn header
                               :: SendAll conn img_bytes :: Sleep rate :: fx,
                           why)
                      end
                  end
              end
          end
      end
  end.

(** [stream_screen_wayland]: nothing without a connection, else the loop. *)
Definition stream_screen_wayland (tool : option string)
  (script : list wayland_tick) (s : server)
  : server * list effect * option wayland_end :=
  match client_conn s with
  | None => (s, [], None)
  | Some _ =>
      let '(s', fx, why) := wayland_loop tool script s in (s', fx, Some why)
  end.

(** The same iteration as the X11 loop meets it. *)
Definition as_x11 (t : wayland_tick) : legacy_tick :=
  match t with
  | WStopTick => StopTick
  | WCaptureErrorTick => ScreenShotErrorTick
  | WFrameTick img_bytes sent => FrameTick img_bytes sent
  | WOtherErrorTick => OtherErrorTick
  end.

(** **** The start of [run_server]: pre-flight checks and listeners *)

(** What [run_server] finds: the optional libraries, [shutil.which] and
    [self.session_type]. *)
Record dependencies : Set := {
  PILLOW_SUPPORT : bool;
  MSS_SUPPORT : bool;
  PYNPUT_SUPPORT : bool;
  which : string -> bool;
  session_type : string
}.

(** The [for tool in tools] loop: the first tool that is installed. *)
Fixpoint first_installed (installed : string -> bool) (tools : list string)
  : option string :=
  match tools with
  | [] => None
  | tool :: later =>
      if installed tool then Some tool else first_installed installed later
  end.

(** The outcome of the pre-flight checks: [server_startup_failed_signal]
    with its message, or the value of [self.wayland_screencap_tool] with
    which the listeners are opened ([None] from [__init__], written nowhere
    else). *)
Inductive startup : Set :=
| StartupFailed (message : string)
| Ready (wayland_screencap_tool : option string).

Definition preflight (d : dependencies) (s : server) : startup :=
  if negb (PILLOW_SUPPORT d) then StartupFailed "Pillow library missing."
  else if String.prefix "Legacy" (encoder_mode s) then
    if String.eqb (session_type d) "wayland" then
      match first_installed (which d)
              ["flameshot"; "gnome-screenshot"; "wayshot"; "grim"] with
      | Some tool => Ready (Some tool)
      | None => StartupFailed "Wayland screenshot tool missing."
      end
    else if negb (MSS_SUPPORT d) then StartupFailed "MSS library missing for X11."
    else Ready None
  else Ready None.

(** The listeners that [run_server] opens when every [bind] succeeds: the
    video listener, the audio listener in a legacy mode, the control
    listener with pynput. *)
Definition bind_listeners (d : dependencies) (video audio control : sock)
  (s : server) : server :=
  let s1 := set_server_socket (Some video) (set_is_running true s) in
  let s2 :=
    if String.prefix "Legacy" (encoder_mode s1)
    then set_audio_socket (Some audio) s1 else s1 in
  if PYNPUT_SUPPORT d then set_control_socket_listener (Some control) s2
  else s2.

(** [stream_screen]: the dispatch on the session type. *)
Definition stream_screen (d : dependencies) (tool : option string)
  (wayland_script : list wayland_tick) (x11_script : list legacy_tick)
  (s : server) : server * list effect * option wayland_end :=
  if String.eqb (session_type d) "wayland"
  then stream_screen_wayland tool wayland_script s
  else
    let '(s', fx, why) := stream_screen_x11 x11_script s in
    (s', fx, option_map Ended why).

(** A Wayland session on which only grim is installed. *)
Definition grim_only : dependencies :=
  {| PILLOW_SUPPORT := true; MSS_SUPPORT := false; PYNPUT_SUPPORT := true;
     which := String.eqb "grim"; session_type := "wayland" |}.

(** A Wayland host without a capture tool, started in an FFmpeg mode. *)
Definition bare_wayland : dependencies :=
  {| PILLOW_SUPPORT := true; MSS_SUPPORT := false; PYNPUT_SUPPORT := true;
     which := fun _ => false; session_type := "wayland" |}.

(** One pass of the accept loop of [run_server]: [accepted] is the
    connection that [accept] returns, [None] when it times out
    ([except socket.timeout: continue], which runs the [finally] block
    before the next pass). *)
Definition accept_pass (h : host) (e : env) (io : session_io)
  (accepted : option sock) (s : server)
  : server * list effect * option session_end :=
  match accepted with
  | Some conn =>
      let '(s', fx, why) := run_server_iteration h e io conn s in
      (s', fx, Some why)
  | None =>
      let (s', fx) := session_cleanup e s in (s', fx, None)
  end.

(** A listening host whose control listener has accepted connection 4
    while no viewer is connected. *)
Definition control_only : server := set_control_client_conn (Some 4%nat) listening.

(** **** A setting that cannot be written back *)

(** A [server.ini] with the line [ffmpeg_encoder = lib%%x264], which
    [config.get] reads as [lib%x264], and the host that is started from it
    and listens on the sockets 1, 5 and 3. *)
Definition percent_store : config_store :=
  {| stored_jpeg_quality := None;
     stored_screen_capture_rate := None;
     stored_is_muted := None;
     stored_encoder_mode := None;
     stored_ffmpeg_encoder := Some "lib%x264" |}.

Definition percent_host : server :=
  bind_listeners grim_only 1%nat 5%nat 3%nat
    (started percent_store (Some "FFmpeg x264 (CPU)")).

(** **** Encoder detection and the mode buttons of [ServerWindow] *)

(** [needle in hay] for two strings. *)
Fixpoint contains (needle hay : string) : bool :=
  String.prefix needle hay
  || match hay with
     | EmptyString => false
     | String _ rest => contains needle rest
     end.

(** What [detect_video_encoder] finds: [sys.platform], whether [ffmpeg] is
    on the path, the output of [ffmpeg -encoders], whether [which
    nvidia-smi] succeeds, and the output of the two [lspci] calls (each
    [None] when the command fails). *)
Record probe : Set := {
  probe_platform : platform;
  probe_ffmpeg : bool;
  encoders_output : option string;
  nvidia_smi : bool;
  lspci_first : option string;
  lspci_second : option string
}.

(** [vendor in lspci_output and ('VGA' in lspci_output or 'Display' in
    lspci_output)] *)
Definition lists_gpu (vendor : string) (lspci_output : option string) : bool :=
  match lspci_output with
  | Some output =>
      contains vendor output
      && (contains "VGA" output || contains "Display" output)
  | None => false
  end.

(** [detect_video_encoder(self.update_status)], its one call: the encoder
    name and the label of the mode button.  [gui_updater] is
    [update_status(self, message, is_error)], so the call with
    [error=True] on a host without [ffmpeg] and the call with the message
    alone for NVENC on win32 raise [TypeError] (the [except] around the
    latter catches [CalledProcessError] and [FileNotFoundError] only). *)
Definition detect_video_encoder (p : probe) : result (option string * string) :=
  if negb (probe_ffmpeg p) then Raise TypeError
  else
    let nvidia := Ok (Some "hevc_nvenc", "FFmpeg HEVC (NVIDIA)") in
    let cpu := Ok (Some "libx264", "FFmpeg x264 (CPU)") in
    match probe_platform p with
    | win32 =>
        match encoders_output p with
        | Some output =>
            if contains "hevc_nvenc" output then Raise TypeError else cpu
        | None => cpu
        end
    | linux =>
        if nvidia_smi p then nvidia
        else if lists_gpu "AMD" (lspci_first p)
        then Ok (Some "hevc_amf", "FFmpeg HEVC (AMD)")
        else if lists_gpu "Intel" (lspci_second p)
        then Ok (Some "hevc_qsv", "FFmpeg HEVC (Intel)")
        else cpu
    | darwin => cpu
    end.

(** The argument of [_setup_ui] for a detection result: the label of the
    FFmpeg button when an encoder name was found. *)
Definition ffmpeg_choice (detected : option string * string) : option string :=
  match fst detected with
  | Some name => if String.eqb name EmptyString then None else Some (snd detected)
  | None => None
  end.

(** [update_encoder_mode(radio_id)], for the text of the FFmpeg button. *)
Definition update_encoder_mode (ffmpeg_rb_text : string) (radio_id : Z)
  (s : server) : server :=
  let mode := if Z.eqb radio_id 0 then "Legacy (Slow)" else ffmpeg_rb_text in
  let s1 := set_encoder_mode mode s in
  update_rate (screen_capture_rate s1) s1.

(** [ServerWindow.toggle_mute(checked)]: the setting is stored, and in a
    running FFmpeg session the restart is started on a thread of its own
    (here run to its end). *)
Definition toggle_mute (checked : bool) (e : env) (s : server)
  : server * list effect :=
  let s1 := set_is_muted checked s in
  if is_ffmpeg_mode (encoder_mode s1) && is_running s1
     && negb (is_none (client_conn s1))
  then restart_ffmpeg_stream e s1
  else (s1, []).

(** What the user does with the window: the sliders, the mute box and the
    mode buttons. *)
Inductive window_event : Set :=
| Slid (ev : ui_event)
| ModeClicked (radio_id : Z).

Definition handle_window_event (ffmpeg_rb_text : string) (ev : window_event)
  (s : server) : server :=
  match ev with
  | Slid ev' => handle_ui_event ev' s
  | ModeClicked radio_id => update_encoder_mode ffmpeg_rb_text radio_id s
  end.

Definition handle_window_events (ffmpeg_rb_text : string)
  (evs : list window_event) (s : server) : server :=
  fold_left (fun s ev => handle_window_event ffmpeg_rb_text ev s) evs s.

(** The buttons that can be clicked: the legacy button, and the FFmpeg
    button unless [_setup_ui] disabled it. *)
Definition clickable (detected : option string * string) (ev : window_event)
  : Prop :=
  match ev with
  | Slid _ => True
  | ModeClicked radio_id =>
      radio_id = 0 \/ (radio_id = 1 /\ ffmpeg_choice detected <> None)
  end.

(** A Linux host with an NVIDIA card, and a host without [ffmpeg], on
    which the window cannot be set up. *)
Definition nvidia_host : probe :=
  {| probe_platform := linux; probe_ffmpeg := true; encoders_output := None;
     nvidia_smi := true; lspci_first := None; lspci_second := None |}.

Definition no_ffmpeg_host : probe :=
  {| probe_platform := linux; probe_ffmpeg := false; encoders_output := None;
     nvidia_smi := true; lspci_first := None; lspci_second := None |}.

(** *** Properties *)

(** **** Teardown *)

Lemma run_add (n m : nat) (e : env) :
  forall (s : server) (l : pc),
    run (n + m) e s l =
    let '(s1, l1, fx1) := run n e s l in
    let '(s2, l2, fx2) := run m e s1 l1 in
    (s2, l2, fx1 ++ fx2).
Proof.
  induction n as [|n IH]; intros s l; cbn [run Nat.add].
  - destruct (run m e s l) as [[s2 l2] fx2]. reflexivity.
  - destruct (step e s l) as [[s1 l1] fx1]. rewrite IH.
    destruct (run n e s1 l1) as [[s2 l2] fx2].
    destruct (run m e s2 l2) as [[s3 l3] fx3].
    now rewrite app_assoc.
Qed.

(** One thread alone does what [stop_server] describes, and stops at the
    statement that raises when [_save_settings] does. *)
Lemma run_stop_server (e : env) (s : server) :
  run 24 e s at_guard =
  let '(s', fx, raised) := stop_server e s in
  (s', match raised with Some x => at_raised x | None => at_done end, fx).
Proof.
  destruct s as [running ss cc asock acc csl ccc mp mt e1 e2 e3 q r m mode enc].
  destruct e as [alive polls timeout].
  destruct running, ss as [k1|], cc as [k2|], asock as [k3|], acc as [k4|],
    csl as [k5|], ccc as [k6|], mp as [p|];
    cbv -[_save_settings];
    try (destruct (timeout p); cbv -[_save_settings]);
    try destruct (_save_settings _); reflexivity.
Qed.

Lemma closes_app (fx fx' : list effect) :
  closes (fx ++ fx') = closes fx ++ closes fx'.
Proof.
  induction fx as [|x fx IH]; [reflexivity|].
  destruct x; cbn [closes app]; rewrite IH; reflexivity.
Qed.

Lemma closes_close_socket (o : option sock) :
  closes (close_socket o) = match o with Some k => [k] | None => [] end.
Proof. destruct o; reflexivity. Qed.

Lemma closes_terminate_wait_kill (e : env) (p : proc) :
  closes (terminate_wait_kill e p) = [].
Proof. unfold terminate_wait_kill. destruct (wait_times_out e p); reflexivity. Qed.

(** What [_save_settings] writes when no value is refused. *)
Lemma save_settings_ok (s : server) (saved : effect) :
  _save_settings s = Ok saved ->
  saved = SaveSettings (jpeg_quality s) (screen_capture_rate s) (is_muted s)
            (encoder_mode s) (ffmpeg_encoder s).
Proof.
  unfold _save_settings, before_set.
  destruct (has_percent _); [discriminate|].
  destruct (has_percent _); [discriminate|].
  cbn. congruence.
Qed.

(** An invocation that passes the guard closes exactly the sockets that
    were open. *)
Lemma closes_stop_server (e : env) (s : server) :
  closes (snd (fst (stop_server e s))) =
  if negb (is_running s) && is_none (server_socket s) then []
  else open_sockets s.
Proof.
  unfold stop_server.
  destruct (negb (is_running s) && is_none (server_socket s)); [reflexivity|].
  unfold open_sockets.
  destruct (media_process (set_stop_flags s)) as [p|];
    destruct (_save_settings _) as [saved|x] eqn:E;
    try (apply save_settings_ok in E; subst saved);
    cbn [fst snd];
    rewrite !closes_app, !closes_close_socket, ?closes_terminate_wait_kill;
    cbn [closes app]; rewrite <- ?app_assoc, ?app_nil_r; reflexivity.
Qed.

(** [_save_settings] reads the settings only. *)
Lemma save_settings_reads_settings (s s' : server) :
  settings s' = settings s -> _save_settings s' = _save_settings s.
Proof.
  unfold settings, _save_settings. intros [= H1 H2 H3 H4 H5].
  rewrite H1, H2, H3, H4, H5. reflexivity.
Qed.

(** The state that an invocation leaves, whether it returns or raises in
    [_save_settings], and the exception that leaves it. *)
Lemma stop_server_state (e : env) (s : server) :
  let '(s1, _, raised) := stop_server e s in
  is_running s1 = false /\ server_socket s1 = None /\
  settings s1 = settings s /\
  (is_running s = true \/ server_socket s <> None ->
   torn_down s1 = true /\
   raised = match _save_settings s with Raise x => Some x | Ok _ => None end).
Proof.
  unfold stop_server.
  destruct (negb (is_running s) && is_none (server_socket s)) eqn:G.
  - apply andb_true_iff in G. destruct G as [G1 G2].
    apply negb_true_iff in G1.
    destruct (server_socket s); [discriminate|].
    split; [exact G1|]. split; [reflexivity|]. split; [reflexivity|].
    intros [H | H]; congruence.
  - destruct (media_process (set_stop_flags s)) as [p|] eqn:E.
    + rewrite (save_settings_reads_settings s
                 (clear_sockets (set_media_process None (set_stop_flags s)))
                 eq_refl).
      destruct (_save_settings s); cbn; auto.
    + rewrite (save_settings_reads_settings s
                 (clear_sockets (set_stop_flags s)) eq_refl).
      cbn in E.
      destruct (_save_settings s); unfold torn_down; cbn; rewrite E; auto.
Qed.

(** On a host that is stopped an invocation returns at its guard. *)
Lemma stop_server_at_guard (e : env) (s : server) :
  is_running s = false -> server_socket s = None ->
  stop_server e s = (s, [], None).
Proof. intros H1 H2. unfold stop_server. rewrite H1, H2. reflexivity. Qed.

Lemma is_none_true {X : Type} (o : option X) : is_none o = true <-> o = None.
Proof. destruct o; cbn; split; congruence. Qed.

Ltac bools :=
  repeat rewrite ?andb_true_iff, ?negb_true_iff, ?is_none_true in *.


Lemma torn_down_only_cleared (s s' : server) :
  only_cleared s s' -> torn_down s = true -> torn_down s' = true.
Proof. unfold only_cleared, torn_down. bools. tauto. Qed.

Lemma established_only_cleared (l : pc) (s s' : server) :
  only_cleared s s' -> established l s = true -> established l s' = true.
Proof.
  intros H. destruct l as [| | | | | | |f|f| | |x]; cbn [established];
    try tauto; try (revert H; apply torn_down_only_cleared);
    try (unfold only_cleared in H; bools; tauto);
    destruct f; unfold only_cleared in H; cbn [cleared_before]; bools; tauto.
Qed.

(** Every statement of [stop_server] and the [finally] block of
    [stream_ffmpeg] only clear attributes. *)
Lemma step_only_cleared (e : env) (s : server) (l : pc) :
  only_cleared s (fst (fst (step e s l))).
Proof.
  destruct l as [| | | | | | |f|f| | |x]; cbn [step];
    try (destruct (negb (is_running s) && is_none (server_socket s)));
    try destruct (media_process s) as [p|] eqn:E;
    try destruct (_save_settings s);
    try destruct f;
    cbn [fst clear_field]; unfold only_cleared; cbn; try tauto;
    repeat split; congruence.
Qed.

Lemma stream_ffmpeg_finally_only_cleared (e : env) (s : server) :
  only_cleared s (fst (stream_ffmpeg_finally e s)).
Proof. unfold only_cleared. cbn. tauto. Qed.

(** A step of a thread establishes what its next program point states. *)
Lemma step_established (e : env) (s : server) (l : pc) :
  established l s = true ->
  established (snd (fst (step e s l))) (fst (fst (step e s l))) = true.
Proof.
  destruct l as [| | | | | | |f|f| | |x]; cbn [step established].
  - intros _. destruct (negb (is_running s) && is_none (server_socket s)) eqn:G;
      cbn; [exact G | reflexivity].
  - intros _. reflexivity.
  - intros H. destruct (media_process s) eqn:E; cbn; rewrite H, ?E; reflexivity.
  - intros H. destruct (media_process s); cbn; [exact H | reflexivity].
  - intros H. destruct (media_process s); cbn; [|reflexivity].
    destruct (wait_times_out e _); exact H.
  - intros H. destruct (media_process s); cbn; [exact H | reflexivity].
  - intros H. cbn. rewrite H. reflexivity.
  - intros H. exact H.
  - destruct f; cbn; unfold torn_down; bools; tauto.
  - intros H. destruct (_save_settings s); cbn; [|reflexivity].
    unfold torn_down in H. bools. tauto.
  - intros H. exact H.
  - intros _. reflexivity.
Qed.

(** While no thread is past the guard, the host is torn down or the guard
    does not let a thread return; a step keeps that. *)
Lemma step_progress (e : env) (s : server) (l other : pc) :
  established l s = true ->
  torn_down s || busy l || busy other
  || negb (negb (is_running s) && is_none (server_socket s)) = true ->
  torn_down (fst (fst (step e s l))) || busy (snd (fst (step e s l)))
  || busy other
  || negb (negb (is_running (fst (fst (step e s l))))
           && is_none (server_socket (fst (fst (step e s l))))) = true.
Proof.
  intros Hl H.
  destruct l as [| | | | | | |f|f| | |x]; cbn [step];
    try (destruct (media_process s) as [p|];
         try destruct (wait_times_out e p);
         cbn; rewrite ?orb_true_r; reflexivity);
    try (cbn [fst snd busy]; rewrite ?orb_true_r; reflexivity).
  - destruct (negb (is_running s) && is_none (server_socket s)) eqn:G;
      cbn [fst snd busy] in *; [|rewrite orb_true_r; reflexivity].
    rewrite G in *. exact H.
  - destruct f; cbn [fst snd busy after_clear]; rewrite ?orb_true_r; reflexivity.
  - cbn [established] in Hl.
    destruct (_save_settings s); cbn [fst snd busy];
      [rewrite Hl; reflexivity | rewrite orb_true_r; reflexivity].
  - exact H.
Qed.

(** The invariant of every schedule of two invocations and the media
    thread. *)
Lemma run_schedule_invariant (e : env) (schedule : list tid) :
  forall (s : server) (la lb : pc),
    established la s = true -> established lb s = true ->
    torn_down s || busy la || busy lb
    || negb (negb (is_running s) && is_none (server_socket s)) = true ->
    let '(s', la', lb', _) := run_schedule schedule e s la lb in
    established la' s' = true /\ established lb' s' = true /\
    torn_down s' || busy la' || busy lb'
    || negb (negb (is_running s') && is_none (server_socket s')) = true.
Proof.
  induction schedule as [|t later IH]; intros s la lb Ha Hb H.
  - cbn. auto.
  - destruct t; cbn [run_schedule].
    + pose proof (step_only_cleared e s la) as Hmono.
      pose proof (step_established e s la Ha) as Ha'.
      pose proof (step_progress e s la lb Ha H) as H'.
      destruct (step e s la) as [[s1 la1] fx]. cbn [fst snd] in *.
      specialize (IH s1 la1 lb Ha' (established_only_cleared lb s s1 Hmono Hb) H').
      destruct (run_schedule later e s1 la1 lb) as [[[s2 la2] lb2] fx'].
      exact IH.
    + pose proof (step_only_cleared e s lb) as Hmono.
      pose proof (step_established e s lb Hb) as Hb'.
      assert (H0 : torn_down s || busy lb || busy la
                   || negb (negb (is_running s) && is_none (server_socket s))
                   = true).
      { rewrite <- H. destruct (torn_down s), (busy la), (busy lb); reflexivity. }
      pose proof (step_progress e s lb la Hb H0) as H'.
      destruct (step e s lb) as [[s1 lb1] fx]. cbn [fst snd] in *.
      assert (H1 : torn_down s1 || busy la || busy lb1
                   || negb (negb (is_running s1) && is_none (server_socket s1))
                   = true).
      { rewrite <- H'. destruct (torn_down s1), (busy la), (busy lb1); reflexivity. }
      specialize (IH s1 la lb1 (established_only_cleared la s s1 Hmono Ha) Hb' H1).
      destruct (run_schedule later e s1 la lb1) as [[[s2 la2] lb2] fx'].
      exact IH.
    + pose proof (stream_ffmpeg_finally_only_cleared e s) as Hmono.
      destruct (stream_ffmpeg_finally e s) as [s1 fx] eqn:E.
      cbn [fst] in Hmono.
      assert (H1 : torn_down s1 || busy la || busy lb
                   || negb (negb (is_running s1) && is_none (server_socket s1))
                   = true).
      { unfold stream_ffmpeg_finally in E. injection E as <- _.
        change (is_running (set_media_process None s)) with (is_running s).
        change (server_socket (set_media_process None s)) with (server_socket s).
        pose proof (torn_down_only_cleared s _ Hmono) as Ht.
        destruct (torn_down s); [rewrite (Ht eq_refl); reflexivity|].
        cbn [orb] in H |- *. destruct (torn_down _); [reflexivity | exact H]. }
      specialize (IH s1 la lb (established_only_cleared la s s1 Hmono Ha)
                    (established_only_cleared lb s s1 Hmono Hb) H1).
      destruct (run_schedule later e s1 la lb) as [[[s2 la2] lb2] fx'].
      exact IH.
Qed.

(** C7.  [stop_server] is safe to repeat only when the invocations do not
    overlap and the settings can be written back.
    What holds: an invocation leaves the host stopped and, when it ran at
    all, torn down; it closes no socket twice; a later invocation returns at
    the guard, changes nothing and closes, terminates and signals nothing;
    and every schedule of two overlapping invocations and the media thread
    in which both invocations return ends with the host torn down.
    What fails: an invocation raises whenever [_save_settings] refuses a
    stored string, as for the encoder [lib%x264] read from [server.ini],
    after the sockets were closed and before [server_stopped_signal]; the
    method takes no lock, so the guard lets a second thread in while
    [server_socket] is still set, and then the listener is shut down and
    closed by both threads (also when both return, and then
    [server_stopped_signal] is emitted twice), or the thread that comes
    second calls
    [terminate] on the [None] that the first has assigned
    ([AttributeError]); and a single invocation raises [AttributeError]
    when the media thread clears [media_process] in its [finally] block
    between the test and [terminate], or between [wait] and [kill]. *)
Theorem stop_server_repeated :
  (forall (e1 e2 : env) (s : server),
     let '(s1, fx1, raised) := stop_server e1 s in
     is_running s1 = false /\ server_socket s1 = None /\
     (is_running s = true \/ server_socket s <> None ->
      torn_down s1 = true /\
      raised = match _save_settings s with Raise x => Some x | Ok _ => None end) /\
     (NoDup (open_sockets s) -> NoDup (closes fx1)) /\
     stop_server e2 s1 = (s1, [], None) /\
     run 24 e2 s1 at_guard = (s1, at_done, []))
  /\
  (forall (e : env) (schedule : list tid) (s : server),
     is_running s = true \/ server_socket s <> None ->
     let '(s', la, lb, _) := run_schedule schedule e s at_guard at_guard in
     la = at_done -> lb = at_done -> torn_down s' = true)
  /\
  (let '(s1, fx1, raised) := stop_server quiet percent_host in
   (torn_down s1, fx1, raised))
  = (true,
     [Shutdown 1%nat; Close 1%nat; Shutdown 5%nat; Close 5%nat;
      Shutdown 3%nat; Close 3%nat],
     Some ValueError)
  /\
  (let '(_, la, lb, fx) :=
     run_schedule (ten A ++ ten B) quiet listening at_guard at_guard in
   (la, lb, fx))
  = (at_clear f_server_socket, at_clear f_server_socket,
     [(A, Shutdown 1%nat); (A, Close 1%nat);
      (B, Shutdown 1%nat); (B, Close 1%nat)])
  /\
  (let '(s', la, lb, fx) :=
     run_schedule (alternate 16) quiet listening at_guard at_guard in
   (la, lb, torn_down s', fx))
  = (at_done, at_done, true,
     [(A, Shutdown 1%nat); (A, Close 1%nat);
      (B, Shutdown 1%nat); (B, Close 1%nat);
      (A, Shutdown 3%nat); (A, Close 3%nat);
      (B, Shutdown 3%nat); (B, Close 3%nat);
      (A, SaveSettings 75 30 false "FFmpeg x264 (CPU)" "libx264");
      (A, ServerStopped);
      (B, SaveSettings 75 30 false "FFmpeg x264 (CPU)" "libx264");
      (B, ServerStopped)])
  /\
  (let '(_, la, lb, _) :=
     run_schedule [A; A; A; B; B; B; A; A; A; B] quiet running_session
       at_guard at_guard in
   (la, lb)) = (at_close f_client_conn, at_raised AttributeError)
  /\
  (let '(_, la, _, fx) :=
     run_schedule [A; A; A; M; A] quiet running_session at_guard at_guard in
   (la, fx)) = (at_raised AttributeError, [])
  /\
  (let '(_, la, _, fx) :=
     run_schedule [A; A; A; A; A; M; A] stubborn running_session
       at_guard at_guard in
   (la, fx))
  = (at_raised AttributeError,
     [(A, Terminate 7%nat); (A, Wait 7%nat 2); (M, Terminate 7%nat)]).
Proof.
  split; [|split].
  - intros e1 e2 s.
    pose proof (stop_server_state e1 s) as Hs.
    pose proof (closes_stop_server e1 s) as Hc.
    destruct (stop_server e1 s) as [[s1 fx1] raised]. cbn [fst snd] in Hc.
    destruct Hs as (Hrun & Hsock & _ & Hdown).
    split; [exact Hrun|]. split; [exact Hsock|]. split; [exact Hdown|].
    split.
    { intros Hdistinct. rewrite Hc.
      destruct (negb (is_running s) && is_none (server_socket s));
        [constructor | assumption]. }
    split; [exact (stop_server_at_guard e2 s1 Hrun Hsock)|].
    rewrite run_stop_server, (stop_server_at_guard e2 s1 Hrun Hsock).
    reflexivity.
  - intros e schedule s Hactive.
    assert (G : negb (negb (is_running s) && is_none (server_socket s)) = true).
    { destruct Hactive as [H | H].
      - rewrite H. reflexivity.
      - destruct (server_socket s); [|congruence].
        cbn. rewrite andb_false_r. reflexivity. }
    pose proof (run_schedule_invariant e schedule s at_guard at_guard
                  eq_refl eq_refl) as Hinv.
    cbn [busy] in Hinv. rewrite G, orb_true_r in Hinv. specialize (Hinv eq_refl).
    destruct (run_schedule schedule e s at_guard at_guard) as [[[s' la] lb] fx].
    destruct Hinv as (Ha & Hb & H). intros -> ->.
    cbn [established busy] in Ha, H. rewrite Ha in H. cbn in H.
    rewrite !orb_false_r in H. exact H.
  - repeat split; vm_compute; reflexivity.
Qed.

(** **** Restarts *)

Lemma filter_on_socket_join (e : env) (s : server) (timeout : Z) :
  filter on_socket (join_media_thread e s timeout) = [].
Proof.
  unfold join_media_thread.
  destruct (_media_thread s) as [t|]; [|reflexivity].
  destruct (thread_alive e t); reflexivity.
Qed.

Lemma filter_on_socket_terminate (e : env) (p : proc) :
  filter on_socket (terminate_wait_kill e p) = [].
Proof.
  unfold terminate_wait_kill. destruct (wait_times_out e p); reflexivity.
Qed.

(** The encoder that the restarted pipeline launches is configured from the
    settings as they are at the restart: a muted stream has no audio input
    and carries [-an]. *)
Lemma muted_command_has_no_audio (h : host) (rate : Z) (encoder : string) :
  audio_input h true = None /\ In "-an" (ffmpeg_command h rate encoder true).
Proof.
  split; [reflexivity|]. unfold ffmpeg_command. cbn [audio_input].
  rewrite !in_app_iff. do 6 right. left. left. reflexivity.
Qed.

Lemma stream_ffmpeg_first_effect (h : host) (e : env)
  (script : list ffmpeg_tick) (s : server) :
  ffmpeg_installed h = true ->
  hd_error (snd (fst (stream_ffmpeg h e script s))) =
  Some (Popen (new_process h)
          (ffmpeg_command h (screen_capture_rate s) (ffmpeg_encoder s)
             (is_muted s))).
Proof.
  intros Hff. unfold stream_ffmpeg. rewrite Hff. cbn [negb].
  destruct (ffmpeg_loop script _) as [[s2 fx] why]. reflexivity.
Qed.




(** **** Failure policy *)

Lemma ffmpeg_loop_heartbeat (script : list ffmpeg_tick) (s : server) :
  let '(s', _, why) := ffmpeg_loop script s in
  _stop_heartbeat_event s' = _stop_heartbeat_event s || ffmpeg_signals why.
Proof.
  induction script as [|t later IH]; cbn [ffmpeg_loop].
  - cbn. now rewrite orb_false_r.
  - destruct (stop_requested t); [cbn; now rewrite orb_false_r|].
    destruct (client_conn s) as [conn|]; [|cbn; now rewrite orb_false_r].
    destruct (exited t); [cbn; now rewrite orb_false_r|].
    destruct (chunk t) as [|b data].
    + destruct (exited_after_read t); [cbn; now rewrite orb_false_r|].
      exact IH.
    + destruct (send_fails t); [cbn; now rewrite orb_true_r|].
      destruct (ffmpeg_loop later s) as [[s' fx] why]. exact IH.
Qed.

Lemma legacy_loop_heartbeat (script : list legacy_tick) (s : server) :
  let '(s', _, why) := legacy_loop script s in
  _stop_heartbeat_event s' = _stop_heartbeat_event s || legacy_signals why.
Proof.
  induction script as [|t later IH]; cbn [legacy_loop].
  - cbn. now rewrite orb_false_r.
  - destruct t as [|img sent| |]; try (cbn; now rewrite ?orb_false_r, ?orb_true_r).
    destruct (client_conn s) as [conn|]; [|cbn; now rewrite orb_false_r].
    destruct (pack_be32 _) as [header|x]; [|cbn; now rewrite orb_false_r].
    destruct sent; try (cbn; now rewrite orb_true_r).
    destruct (legacy_loop later s) as [[s' fx] why]. exact IH.
Qed.

(** C6 at its failing input.  In [stream_ffmpeg] the heartbeat stop event is
    set exactly when a [sendall] raises: a loop that ends because the
    encoder process has exited (at the top of an iteration, or after an
    empty read) leaves the event as it was, so on a running session the
    event is still clear when the loop has ended and nothing triggers the
    teardown.  The legacy frame loop, in contrast, sets it on a send
    failure and on a capture failure.  For the session as a whole: after
    an encoder exit the accept loop stays blocked on the heartbeat thread,
    whereas after a failed send the session is cleaned up. *)
Theorem encoder_exit_leaves_heartbeat_clear :
  (forall script s,
     let '(s', _, why) := ffmpeg_loop script s in
     _stop_heartbeat_event s' = _stop_heartbeat_event s || ffmpeg_signals why)
  /\
  ffmpeg_signals ProcessExited = false
  /\
  (let '(s', fx, why) :=
     stream_ffmpeg this_host quiet [encoder_exited] running_session in
   (why, _stop_heartbeat_event s', filter on_socket fx))
  = (Some ProcessExited, false, [])
  /\
  (let '(s', fx, why) :=
     stream_ffmpeg this_host quiet [encoder_output_ended] running_session in
   (why, _stop_heartbeat_event s'))
  = (Some ProcessExited, false)
  /\
  (let '(s', fx, why) :=
     stream_ffmpeg this_host quiet [send_broken] running_session in
   (why, _stop_heartbeat_event s'))
  = (Some SendFailed, true)
  /\
  (forall script s,
     let '(s', _, why) := legacy_loop script s in
     _stop_heartbeat_event s' = _stop_heartbeat_event s || legacy_signals why)
  /\
  snd (run_server_iteration this_host quiet encoder_crash 2%nat listening)
  = Blocked
  /\
  snd (run_server_iteration this_host quiet viewer_gone 2%nat listening)
  = Served.
Proof.
  split; [exact ffmpeg_loop_heartbeat|].
  split; [reflexivity|].
  split; [vm_compute; reflexivity|].
  split; [vm_compute; reflexivity|].
  split; [vm_compute; reflexivity|].
  split; [exact legacy_loop_heartbeat|].
  split; vm_compute; reflexivity.
Qed.

(** **** Mode negotiation *)

Lemma sends_on_app (conn : sock) (fx fx' : list effect) :
  sends_on conn (fx ++ fx') = sends_on conn fx ++ sends_on conn fx'.
Proof.
  induction fx as [|x fx IH]; [reflexivity|].
  destruct x; cbn [sends_on app]; try exact IH.
  destruct (Nat.eqb s conn); cbn [app]; now rewrite IH.
Qed.

(** The cleanup of a session writes nothing to any socket. *)
Lemma sends_on_cleanup (conn : sock) (e : env) (s : server) :
  sends_on conn (snd (session_cleanup e s)) = [].
Proof.
  unfold session_cleanup.
  destruct (_media_thread _) as [t|]; [destruct (thread_alive e t)|];
    (destruct (media_process _) as [p|];
     [unfold terminate_wait_kill; destruct (wait_times_out e p)|]);
    cbn [snd]; rewrite !sends_on_app;
    destruct (client_conn s), (audio_client_conn s), (control_client_conn s);
    reflexivity.
Qed.

(** Neither does the teardown. *)
Lemma sends_on_stop_server (conn : sock) (e : env) (s : server) :
  sends_on conn (snd (fst (stop_server e s))) = [].
Proof.
  unfold stop_server.
  destruct (negb (is_running s) && is_none (server_socket s)); [reflexivity|].
  destruct (media_process _) as [p|];
    [unfold terminate_wait_kill; destruct (wait_times_out e p)|];
    (destruct (_save_settings _) as [saved|x] eqn:E;
     [apply save_settings_ok in E; subst saved|]);
    cbn [fst snd]; rewrite !sends_on_app;
    destruct (client_conn s), (audio_client_conn s), (control_client_conn s),
      (server_socket s), (audio_socket s), (control_socket_listener s);
    reflexivity.
Qed.

(** C3. On every accepted video connection the first thing the host writes
    is one byte, ['F'] (0x46) when the configured encoder mode starts with
    ["FFmpeg"] and ['L'] (0x4C) otherwise; everything written to the
    connection after it is written by the media pipeline that is started
    afterwards (nothing at all when the mode byte could not be sent), so
    the connection sees exactly one mode byte, and sees it before any
    stream data. *)
Theorem mode_byte_first (h : host) (e : env) (io : session_io) (conn : sock)
  (s : server) :
  let fx := snd (fst (run_server_iteration h e io conn s)) in
  let m := if String.prefix "FFmpeg" (encoder_mode s) then x46 else x4c in
  (exists rest, fx = SendAll conn [m] :: rest /\
     sends_on conn rest =
     if mode_send_fails io then []
     else sends_on conn
            (snd (run_media_thread h e io (session_start io conn s))))
  /\
  sends_on conn fx =
  [m] :: (if mode_send_fails io then []
          else sends_on conn
                 (snd (run_media_thread h e io (session_start io conn s)))).
Proof.
  intros fx m.
  assert (H : exists rest, fx = SendAll conn [m] :: rest /\
     sends_on conn rest =
     if mode_send_fails io then []
     else sends_on conn
            (snd (run_media_thread h e io (session_start io conn s)))).
  { subst fx m. unfold run_server_iteration.
    change (mode_byte (set_client_conn (Some conn) s))
      with (if String.prefix "FFmpeg" (encoder_mode s) then x46 else x4c).
    destruct (mode_send_fails io).
    - pose proof (sends_on_cleanup conn e (set_client_conn (Some conn) s)) as Hc.
      destruct (session_cleanup e _) as [s2 fx2]. cbn [fst snd] in *.
      pose proof (sends_on_stop_server conn e s2) as Hs.
      destruct (stop_server e s2) as [[s3 fx_stop] raised]. cbn [fst snd] in *.
      eexists. split; [reflexivity|].
      rewrite sends_on_app, Hc, Hs. reflexivity.
    - destruct (run_media_thread h e io _) as [s3 fx_media]. cbn [snd].
      destruct (_stop_heartbeat_event s3).
      + pose proof (sends_on_cleanup conn e s3) as Hc.
        destruct (session_cleanup e s3) as [s4 fx4]. cbn [fst snd] in *.
        eexists. split; [reflexivity|].
        cbn [sends_on]. rewrite sends_on_app. cbn [sends_on].
        rewrite Hc. apply app_nil_r.
      + cbn [fst snd]. eexists. split; reflexivity. }
  split; [exact H|].
  destruct H as (rest & -> & Hrest).
  cbn [sends_on]. rewrite Nat.eqb_refl, Hrest. reflexivity.
Qed.

(** The thread that a session starts is chosen by the mode as it is when
    the loop reads it for the second time. *)
Lemma media_target_session_start (io : session_io) (conn : sock) (s : server) :
  media_target (session_start io conn s) =
  if is_ffmpeg_mode (fallback (mode_switched io) (encoder_mode s))
  then stream_ffmpeg_target else stream_screen_target.
Proof.
  unfold session_start, media_target.
  destruct (Byte.eqb _ x4c && negb (is_none _)); destruct (mode_switched io);
    reflexivity.
Qed.

Lemma run_server_iteration_starts (h : host) (e : env) (io : session_io)
  (conn : sock) (s : server) :
  mode_send_fails io = false ->
  exists later,
    snd (fst (run_server_iteration h e io conn s)) =
    SendAll conn [mode_byte s] :: ClientConnected
    :: Start (if is_ffmpeg_mode (fallback (mode_switched io) (encoder_mode s))
              then stream_ffmpeg_target else stream_screen_target)
    :: later.
Proof.
  intros Hsent. unfold run_server_iteration. rewrite Hsent.
  rewrite media_target_session_start.
  change (mode_byte (set_client_conn (Some conn) s)) with (mode_byte s).
  destruct (run_media_thread h e io _) as [s3 fx_media].
  destruct (_stop_heartbeat_event s3).
  - destruct (session_cleanup e s3) as [s4 fx4]. cbn [fst snd]. eauto.
  - cbn [fst snd]. eauto.
Qed.

(** **** Settings *)

(** Every frame of the legacy loop is encoded at the quality, and paced at
    the rate, that the settings hold. *)
Lemma legacy_loop_reads (script : list legacy_tick) (s : server) :
  Forall (reads (jpeg_quality s) (screen_capture_rate s))
         (snd (fst (legacy_loop script s))).
Proof.
  induction script as [|t later IH]; cbn [legacy_loop]; [constructor|].
  destruct t as [|img sent| |]; cbn [fst snd]; try constructor.
  destruct (client_conn s) as [conn|]; cbn [fst snd];
    [|repeat constructor].
  destruct (pack_be32 _) as [header|x]; cbn [fst snd]; [|repeat constructor].
  destruct sent; cbn [fst snd]; try (repeat constructor).
  destruct (legacy_loop later s) as [[s' fx] why]. cbn [fst snd] in *.
  repeat constructor. exact IH.
Qed.

Lemma load_settings_values (c : config_store) (s : server) :
  jpeg_quality (_load_settings c s) = fallback (stored_jpeg_quality c) 75 /\
  screen_capture_rate (_load_settings c s)
  = fallback (stored_screen_capture_rate c) 30.
Proof. split; reflexivity. Qed.

Lemma setup_ui_keeps_values (label : option string) (s : server) :
  jpeg_quality (fst (fst (_setup_ui label s))) = jpeg_quality s /\
  screen_capture_rate (fst (fst (_setup_ui label s))) = screen_capture_rate s.
Proof.
  unfold _setup_ui. destruct label as [l|]; [|split; reflexivity].
  destruct (is_ffmpeg_mode (encoder_mode s)); split; reflexivity.
Qed.

Lemma handle_ui_event_in_ranges (ev : ui_event) (s : server) :
  from_slider ev -> in_ranges s -> in_ranges (handle_ui_event ev s).
Proof.
  unfold in_ranges. destruct ev as [v|v|b]; cbn; intros Hev [Hq Hr]; auto.
Qed.

Lemma handle_ui_events_in_ranges (evs : list ui_event) :
  Forall from_slider evs ->
  forall s, in_ranges s -> in_ranges (handle_ui_events evs s).
Proof.
  unfold handle_ui_events.
  induction 1 as [|ev evs Hev _ IH]; intros s Hs; cbn [fold_left].
  - exact Hs.
  - apply IH, handle_ui_event_in_ranges; assumption.
Qed.

(** C9, as the code has it.  The loaded settings are the stored values (75
    and 30 when absent), taken as they are, and the set-up of the window
    does not change them.  When the stored quality and rate are in
    [[10,100]] and [[1,60]] (or absent), then after any sequence of slider
    moves and mute toggles the settings are in these ranges, and so is
    every quality and rate that the legacy frame loop reads; the rate that
    [stream_ffmpeg] reads when it starts is that same setting. *)
Theorem settings_in_ranges (c : config_store) (label : option string)
  (evs : list ui_event)
  (Hstored : stored_in_ranges c)
  (Hmoves : Forall from_slider evs) :
  let s := handle_ui_events evs (started c label) in
  jpeg_quality (started c label) = fallback (stored_jpeg_quality c) 75 /\
  screen_capture_rate (started c label)
  = fallback (stored_screen_capture_rate c) 30 /\
  in_ranges s /\
  (forall script conn,
     Forall (fun x => match x with
                      | Encode q => 10 <= q <= 100
                      | Sleep r => 1 <= r <= 60
                      | _ => True
                      end)
            (snd (fst (legacy_loop script (set_client_conn (Some conn) s))))) /\
  (forall h e script,
     ffmpeg_installed h = true ->
     hd_error (snd (fst (stream_ffmpeg h e script s))) =
     Some (Popen (new_process h)
             (ffmpeg_command h (screen_capture_rate s) (ffmpeg_encoder s)
                (is_muted s)))).
Proof.
  intros s.
  destruct (setup_ui_keeps_values label (_load_settings c init_server))
    as [Hq Hr].
  destruct (load_settings_values c init_server) as [Lq Lr].
  assert (H0 : in_ranges (started c label)).
  { unfold in_ranges, started. rewrite Hq, Hr, Lq, Lr.
    destruct Hstored as [Sq Sr].
    destruct (stored_jpeg_quality c), (stored_screen_capture_rate c);
      cbn [fallback]; lia. }
  assert (Hs : in_ranges s) by (apply handle_ui_events_in_ranges; assumption).
  split; [unfold started; now rewrite Hq|].
  split; [unfold started; now rewrite Hr|].
  split; [exact Hs|]. split.
  - intros script conn.
    pose proof (legacy_loop_reads script (set_client_conn (Some conn) s)) as Hreads.
    change (jpeg_quality (set_client_conn (Some conn) s))
      with (jpeg_quality s) in Hreads.
    change (screen_capture_rate (set_client_conn (Some conn) s))
      with (screen_capture_rate s) in Hreads.
    eapply Forall_impl; [|exact Hreads].
    destruct Hs as [Hsq Hsr].
    intros x Hx. destruct x; trivial; cbn in Hx; subst; assumption.
  - intros h e script Hff. apply stream_ffmpeg_first_effect, Hff.
Qed.

Lemma settings_in_ranges_witness :
  in_ranges (handle_ui_events [QualityMoved 40; RateMoved 60]
               (started default_store None)) /\
  jpeg_quality (started default_store None) = 75.
Proof.
  assert (Hstored : stored_in_ranges default_store) by (split; exact I).
  assert (Hmoves : Forall from_slider [QualityMoved 40; RateMoved 60]).
  { repeat constructor; cbn; lia. }
  pose proof (settings_in_ranges default_store None
                [QualityMoved 40; RateMoved 60] Hstored Hmoves) as H.
  cbv zeta in H. destruct H as (Hq & _ & Hin & _).
  split; [exact Hin | exact Hq].
Defined.

(** With a stored quality of 5 and a stored rate of 0 the sliders show 10
    and 1, but the settings hold 5 and 0, and the first frame of the legacy
    loop is encoded at quality 5 and paced with rate 0. *)
Lemma loaded_settings_out_of_range :
  (let '(s, quality_slider, rate_slider) :=
     _setup_ui None (_load_settings out_of_range_store init_server) in
   (jpeg_quality s, screen_capture_rate s,
    value quality_slider, value rate_slider)) = (5, 0, 10, 1)
  /\
  snd (fst (legacy_loop [FrameTick [xff; xd8; xd9] SentBoth]
              (set_client_conn (Some 2%nat)
                 (started out_of_range_store None))))
  = [Encode 5; SendAll 2%nat [x00; x00; x00; x03];
     SendAll 2%nat [xff; xd8; xd9]; Sleep 0].
Proof. split; vm_compute; reflexivity. Qed.

(** **** The legacy audio pipeline *)

Lemma audio_loop_facts (script : list audio_tick) :
  forall s : server,
    let '(s', fx, why) := audio_loop script s in
    _stop_heartbeat_event s' = _stop_heartbeat_event s || ffmpeg_signals why /\
    client_conn s' = client_conn s /\
    audio_client_conn s' = audio_client_conn s /\
    closes fx = [] /\
    (forall k, audio_client_conn s <> Some k -> sends_on k fx = []).
Proof.
  induction script as [|t later IH]; intros s; cbn [audio_loop].
  { rewrite orb_false_r. repeat split; reflexivity. }
  set (s1 := match mute_toggled t with
             | Some checked => set_is_muted checked s
             | None => s
             end).
  assert (Hs1 : _stop_heartbeat_event s1 = _stop_heartbeat_event s /\
                client_conn s1 = client_conn s /\
                audio_client_conn s1 = audio_client_conn s).
  { unfold s1. destruct (mute_toggled t); repeat split; reflexivity. }
  destruct Hs1 as (Hh & Hc & Ha). clearbody s1.
  destruct (audio_stop t).
  { rewrite orb_false_r. repeat split; assumption || reflexivity. }
  destruct (audio_data t) as [|b data].
  { rewrite orb_false_r. repeat split; assumption || reflexivity. }
  specialize (IH s1).
  destruct (is_muted s1).
  { destruct (audio_loop later s1) as [[s' fx] why].
    rewrite Hh, Hc, Ha in IH. exact IH. }
  destruct (audio_client_conn s1) as [conn|] eqn:Hconn.
  2:{ rewrite orb_false_r. repeat split; congruence. }
  destruct (audio_send_fails t).
  { cbn. rewrite orb_true_r. repeat split; try congruence.
    intros k Hk. destruct (Nat.eqb_spec conn k); [congruence|reflexivity]. }
  destruct (audio_loop later s1) as [[s' fx] why].
  destruct IH as (IHh & IHc & IHa & IHcl & IHs).
  repeat split; try congruence.
  - exact IHcl.
  - intros k Hk. cbn [sends_on].
    destruct (Nat.eqb_spec conn k); [congruence|]. apply IHs. congruence.
Qed.

(** X5. The legacy audio thread ends the session exactly when a [sendall]
    on the audio connection fails: only then is the heartbeat stop event
    set.  When [parec] ends, when the stream is stopped or when nothing is
    started at all (no audio connection, no [parec], no default sink) the
    event is left as it was.  The thread writes to no socket but the audio
    connection, closes none, and leaves both connections of the session in
    place. *)
Theorem stream_audio_failure_policy (a : audio_host) (e : env)
  (script : list audio_tick) (s : server) :
  let '(s', fx, why) := stream_audio a e script s in
  _stop_heartbeat_event s' =
    _stop_heartbeat_event s
    || match why with Some SendFailed => true | _ => false end /\
  client_conn s' = client_conn s /\
  audio_client_conn s' = audio_client_conn s /\
  closes fx = [] /\
  (forall k, audio_client_conn s <> Some k -> sends_on k fx = []).
Proof.
  unfold stream_audio.
  destruct (audio_client_conn s) as [conn|] eqn:Hconn.
  2:{ rewrite orb_false_r. repeat split; congruence. }
  destruct (parec_installed a); cbn [negb].
  2:{ rewrite orb_false_r. repeat split; congruence. }
  destruct (audio_sink a) as [sink|].
  2:{ rewrite orb_false_r. repeat split; congruence. }
  pose proof (audio_loop_facts script s) as H.
  destruct (audio_loop script s) as [[s' fx] why].
  destruct H as (Hh & Hc & Ha & Hcl & Hs).
  repeat split.
  - rewrite Hh. destruct why; reflexivity.
  - exact Hc.
  - congruence.
  - cbn [closes]. rewrite closes_app, Hcl.
    destruct (process_running e (parec_process a)); reflexivity.
  - intros k Hk. cbn [sends_on]. rewrite sends_on_app, Hs by congruence.
    destruct (process_running e (parec_process a)); reflexivity.
Qed.

(** X6. While the stream is muted the audio loop keeps reading [parec]'s
    output and drops it: whatever the chunks are, nothing is written to a
    socket, the loop ends only on a stop request or at the end of the
    output, and the heartbeat stop event is not touched. *)
Theorem muted_audio_is_read_and_dropped (script : list audio_tick) (s : server)
  (Hmuted : is_muted s = true)
  (Hstays : Forall (fun t => mute_toggled t <> Some false) script) :
  let '(s', fx, why) := audio_loop script s in
  fx = [] /\
  (why = StopObserved \/ why = ProcessExited) /\
  is_muted s' = true /\
  _stop_heartbeat_event s' = _stop_heartbeat_event s.
Proof.
  revert s Hmuted.
  induction Hstays as [|t later Ht _ IH]; intros s Hmuted; cbn [audio_loop].
  { repeat split; auto. }
  set (s1 := match mute_toggled t with
             | Some checked => set_is_muted checked s
             | None => s
             end).
  assert (Hs1 : is_muted s1 = true /\
                _stop_heartbeat_event s1 = _stop_heartbeat_event s).
  { unfold s1. destruct (mute_toggled t) as [[|]|]; try congruence;
      split; trivial. }
  destruct Hs1 as (Hm & Hh). clearbody s1.
  destruct (audio_stop t); [repeat split; auto|].
  destruct (audio_data t) as [|b data]; [repeat split; auto|].
  rewrite Hm. specialize (IH s1 Hm).
  destruct (audio_loop later s1) as [[s' fx] why].
  rewrite <- Hh. exact IH.
Qed.

(** A muted legacy session in which two chunks are read, the second after
    the mute box was ticked again. *)
Lemma muted_audio_is_read_and_dropped_witness :
  snd (fst (audio_loop
              [ {| mute_toggled := None; audio_stop := false;
                   audio_data := [x01; x02]; audio_send_fails := false |};
                {| mute_toggled := Some true; audio_stop := false;
                   audio_data := [x03]; audio_send_fails := true |} ]
              (set_is_muted true
                 (set_audio_client_conn (Some 5%nat) running_session))))
  = [].
Proof.
  pose proof (muted_audio_is_read_and_dropped
    [ {| mute_toggled := None; audio_stop := false;
         audio_data := [x01; x02]; audio_send_fails := false |};
      {| mute_toggled := Some true; audio_stop := false;
         audio_data := [x03]; audio_send_fails := true |} ]
    (set_is_muted true (set_audio_client_conn (Some 5%nat) running_session))
    eq_refl) as H.
  destruct (audio_loop _ _) as [[s' fx] why].
  apply H. repeat constructor; discriminate.
Defined.

(** **** Pre-flight checks and the Wayland pipeline *)

Lemma ffmpeg_mode_not_legacy (mode : string) :
  is_ffmpeg_mode mode = true -> String.prefix "Legacy" mode = false.
Proof.
  unfold is_ffmpeg_mode. destruct mode as [|c m]; [discriminate|].
  cbn [String.prefix]. destruct (ascii_dec "F" c) as [<-|]; [|discriminate].
  reflexivity.
Qed.

Lemma first_installed_spec (installed : string -> bool) (tools : list string)
  (tool : string) :
  first_installed installed tools = Some tool ->
  In tool tools /\ installed tool = true.
Proof.
  induction tools as [|t later IH]; cbn [first_installed]; [discriminate|].
  destruct (installed t) eqn:Ht.
  - intros [= <-]. split; [now left|exact Ht].
  - intros H. destruct (IH H). split; [now right|assumption].
Qed.

Lemma wayland_loop_with_command (name : string) (command : list string)
  (script : list wayland_tick) :
  command_map name = Some command ->
  forall s : server,
    wayland_loop (Some name) script s =
    let '(s', fx, why) := legacy_loop (map as_x11 script) s in
    (s', fx, Ended why).
Proof.
  intros Hcommand.
  induction script as [|t later IH]; intros s; [reflexivity|].
  cbn [wayland_loop map legacy_loop]. rewrite Hcommand.
  destruct t as [| |img_bytes sent|]; cbn [as_x11]; try reflexivity.
  destruct (client_conn s) as [conn|]; [|reflexivity].
  destruct (pack_be32 (Z.of_nat (List.length img_bytes))) as [header|];
    [|reflexivity].
  destruct sent; try reflexivity.
  rewrite IH. destruct (legacy_loop (map as_x11 later) s) as [[s' fx] why].
  reflexivity.
Qed.

(** X7. When the pre-flight checks of [run_server] choose a Wayland capture
    tool, it is the first installed one of flameshot, gnome-screenshot,
    wayshot and grim, and [stream_screen_wayland] has a command for it: the
    frame loop never stops for want of a command, and it sends, sleeps and
    signals the end of the session exactly as the X11 loop does when it
    meets the same frames and failures. *)
Theorem preflight_tool_is_usable (d : dependencies) (s : server) (tool : string)
  (Hready : preflight d s = Ready (Some tool)) :
  first_installed (which d)
    ["flameshot"; "gnome-screenshot"; "wayshot"; "grim"] = Some tool /\
  which d tool = true /\
  (exists command, command_map tool = Some command) /\
  forall script s0,
    wayland_loop (Some tool) script s0 =
    let '(s', fx, why) := legacy_loop (map as_x11 script) s0 in
    (s', fx, Ended why).
Proof.
  unfold preflight in Hready.
  destruct (PILLOW_SUPPORT d); cbn [negb] in Hready; [|discriminate].
  destruct (String.prefix "Legacy" (encoder_mode s)); [|discriminate].
  destruct (String.eqb (session_type d) "wayland").
  2:{ destruct (MSS_SUPPORT d); discriminate. }
  destruct (first_installed _ _) as [found|] eqn:Hfirst; [|discriminate].
  injection Hready as ->.
  destruct (first_installed_spec _ _ _ Hfirst) as (Hin & Hwhich).
  assert (Hcommand : exists command, command_map tool = Some command).
  { cbn [In] in Hin.
    destruct Hin as [<-|[<-|[<-|[<-|[]]]]]; eexists; reflexivity. }
  repeat split; trivial.
  destruct Hcommand as (command & Hcommand).
  intros script s0. exact (wayland_loop_with_command _ _ script Hcommand s0).
Qed.

Lemma preflight_tool_is_usable_witness :
  preflight grim_only init_server = Ready (Some "grim") /\
  command_map "grim" = Some ["grim"; "-t"; "ppm"; "-"].
Proof.
  assert (H : preflight grim_only init_server = Ready (Some "grim"))
    by reflexivity.
  split; [exact H|].
  destruct (preflight_tool_is_usable grim_only init_server "grim" H)
    as (_ & _ & (command & Hcommand) & _).
  reflexivity.
Defined.

(** X8. The pre-flight checks look for a capture tool only when the host
    starts in a legacy mode.  On a Wayland session that starts in an FFmpeg
    mode they succeed without choosing one (whether [ffmpeg] is installed
    or not), and when the mode is then switched to legacy the media thread
    of the next viewer finds no command: [stream_screen] returns at its
    first frame without sending anything and without setting the heartbeat
    stop event. *)
Theorem legacy_after_ffmpeg_start_on_wayland (d : dependencies) (s : server)
  (label : string) (conn : sock)
  (Hpillow : PILLOW_SUPPORT d = true)
  (Hwayland : session_type d = "wayland")
  (Hmode : is_ffmpeg_mode (encoder_mode s) = true) :
  preflight d s = Ready None /\
  forall img_bytes sent later x11_script,
    let s1 := set_client_conn (Some conn) (update_encoder_mode label 0 s) in
    mode_byte s1 = x4c /\
    media_target s1 = stream_screen_target /\
    stream_screen d None (WFrameTick img_bytes sent :: later) x11_script s1
    = (s1, [], Some NoCommand).
Proof.
  split.
  - unfold preflight. rewrite Hpillow. cbn [negb].
    now rewrite (ffmpeg_mode_not_legacy _ Hmode).
  - intros img_bytes sent later x11_script. cbn zeta.
    repeat split. unfold stream_screen. rewrite Hwayland. reflexivity.
Qed.

Lemma legacy_after_ffmpeg_start_on_wayland_witness :
  preflight bare_wayland listening = Ready None /\
  snd (stream_screen bare_wayland None [WFrameTick [xff; xd8; xd9] SentBoth] []
         (set_client_conn (Some 2%nat)
            (update_encoder_mode "FFmpeg x264 (CPU)" 0 listening)))
  = Some NoCommand.
Proof.
  destruct (legacy_after_ffmpeg_start_on_wayland bare_wayland listening
              "FFmpeg x264 (CPU)" 2%nat eq_refl eq_refl eq_refl) as (H1 & H2).
  split; [exact H1|].
  destruct (H2 [xff; xd8; xd9] SentBoth [] []) as (_ & _ & H3).
  exact (f_equal snd H3).
Defined.

(** **** Encoder detection and the mode buttons *)

(** When [detect_video_encoder] returns, [ffmpeg] is installed, the label
    starts with ["FFmpeg"] and the FFmpeg button is enabled. *)
Lemma detected_label (p : probe) (detected : option string * string) :
  detect_video_encoder p = Ok detected ->
  probe_ffmpeg p = true /\
  is_ffmpeg_mode (snd detected) = true /\
  ffmpeg_choice detected = Some (snd detected).
Proof.
  unfold detect_video_encoder.
  destruct (probe_ffmpeg p); [|discriminate]. cbn [negb].
  destruct (probe_platform p).
  - destruct (encoders_output p) as [output|];
      [destruct (contains "hevc_nvenc" output); [discriminate|]|];
      intros [= <-]; repeat split.
  - intros [= <-]; repeat split.
  - destruct (nvidia_smi p); [intros [= <-]; repeat split|].
    destruct (lists_gpu "AMD" (lspci_first p)); [intros [= <-]; repeat split|].
    destruct (lists_gpu "Intel" (lspci_second p)); intros [= <-]; repeat split.
Qed.

(** It raises on a host without [ffmpeg], and on win32 when [ffmpeg] lists
    the NVIDIA encoder. *)
Lemma detect_video_encoder_raises (p : probe) (x : pyexn) :
  detect_video_encoder p = Raise x <->
  x = TypeError /\
  (probe_ffmpeg p = false \/
   probe_platform p = win32 /\
   exists output, encoders_output p = Some output /\
                  contains "hevc_nvenc" output = true).
Proof.
  unfold detect_video_encoder.
  destruct (probe_ffmpeg p); cbn [negb].
  - destruct (probe_platform p).
    + destruct (encoders_output p) as [output|].
      * destruct (contains "hevc_nvenc" output) eqn:E.
        -- split; [intros [= <-]; split; [reflexivity|]; right; split;
                   [reflexivity | exists output; auto]
                  | intros [-> _]; reflexivity].
        -- split; [discriminate|].
           intros [_ [H | [_ (o & [= <-] & H)]]]; congruence.
      * split; [discriminate|].
        intros [_ [H | [_ (o & H & _)]]]; discriminate.
    + split; [discriminate|]. intros [_ [H | [H _]]]; discriminate.
    + destruct (nvidia_smi p);
        [|destruct (lists_gpu "AMD" (lspci_first p));
          [|destruct (lists_gpu "Intel" (lspci_second p))]];
        (split; [discriminate|]; intros [_ [H | [H _]]]; discriminate).
  - split; [intros [= <-]; auto | intros [-> _]; reflexivity].
Qed.

Example no_ffmpeg_host_raises :
  detect_video_encoder no_ffmpeg_host = Raise TypeError.
Proof. reflexivity. Qed.

Lemma handle_window_events_app (label : string) (evs evs' : list window_event)
  (s : server) :
  handle_window_events label (evs ++ evs') s =
  handle_window_events label evs' (handle_window_events label evs s).
Proof. unfold handle_window_events. apply fold_left_app. Qed.

(** What the mode buttons keep true of the host. *)
Lemma window_mode_invariant (detected : option string * string)
  (evs : list window_event) :
  Forall (clickable detected) evs ->
  forall s : server,
    (encoder_mode s = "Legacy (Slow)" \/ encoder_mode s = snd detected) ->
    audio_socket s = None ->
    let s' := handle_window_events (snd detected) evs s in
    (encoder_mode s' = "Legacy (Slow)" \/ encoder_mode s' = snd detected) /\
    audio_socket s' = None.
Proof.
  induction 1 as [|ev evs Hev _ IH]; intros s Hmode Haudio; [now split|].
  cbn [handle_window_events fold_left].
  apply IH.
  - destruct ev as [ev'|radio_id]; cbn [handle_window_event].
    + destruct ev'; exact Hmode.
    + cbn [clickable] in Hev. unfold update_encoder_mode.
      destruct Hev as [-> | [-> Hchoice]]; cbn; [now left | now right].
  - destruct ev as [ev'|radio_id]; cbn [handle_window_event].
    + destruct ev'; exact Haudio.
    + exact Haudio.
Qed.

(** X9. However [server.ini] was written and whatever the user clicks,
    the mode of the host is ["Legacy (Slow)"] or the label of the detected
    FFmpeg encoder, which [detect_video_encoder] returns only when [ffmpeg]
    is installed, and every such label starts with ["FFmpeg"].  So the two
    tests that [run_server] applies to a mode never disagree: for such a
    mode it opens the audio listener ([startswith("Legacy")]) exactly when
    the mode byte for that mode is ['L'] (not [startswith("FFmpeg")]). *)
Theorem window_modes_agree_with_listeners (p : probe)
  (detected : option string * string) (c : config_store)
  (evs : list window_event)
  (Hdetected : detect_video_encoder p = Ok detected)
  (Hclicks : Forall (clickable detected) evs) :
  let s := handle_window_events (snd detected) evs
             (started c (ffmpeg_choice detected)) in
  probe_ffmpeg p = true /\
  is_ffmpeg_mode (snd detected) = true /\
  (encoder_mode s = "Legacy (Slow)" \/
   (encoder_mode s = snd detected /\ probe_ffmpeg p = true)) /\
  String.prefix "Legacy" (encoder_mode s) = negb (is_ffmpeg_mode (encoder_mode s)) /\
  forall d video audio control,
    audio_socket (bind_listeners d video audio control s) =
    if Byte.eqb (mode_byte s) x4c then Some audio else None.
Proof.
  cbn zeta.
  destruct (detected_label p detected Hdetected) as (Hff & Hlabel & Hchoice).
  destruct (window_mode_invariant detected evs Hclicks
              (started c (ffmpeg_choice detected)))
    as (Hmode & Haudio).
  { unfold started, _setup_ui. rewrite Hchoice.
    destruct (is_ffmpeg_mode (encoder_mode (_load_settings c init_server)));
      [right|left]; reflexivity. }
  { unfold started, _setup_ui. rewrite Hchoice.
    destruct (is_ffmpeg_mode (encoder_mode (_load_settings c init_server)));
      reflexivity. }
  set (s := handle_window_events _ evs _) in *.
  assert (Hprefix : String.prefix "Legacy" (encoder_mode s)
                    = negb (is_ffmpeg_mode (encoder_mode s))).
  { destruct Hmode as [-> | ->]; [reflexivity|].
    rewrite Hlabel. now apply ffmpeg_mode_not_legacy. }
  split; [exact Hff|]. split; [exact Hlabel|].
  split; [destruct Hmode; [left | right]; auto|].
  split; [exact Hprefix|].
  intros d video audio control. unfold bind_listeners, mode_byte.
  change (encoder_mode (set_server_socket (Some video) (set_is_running true s)))
    with (encoder_mode s).
  rewrite Hprefix.
  destruct (is_ffmpeg_mode (encoder_mode s)); cbn [negb];
    destruct (PYNPUT_SUPPORT d); cbn; trivial.
Qed.

Lemma window_modes_agree_with_listeners_witness :
  detect_video_encoder nvidia_host
  = Ok (Some "hevc_nvenc", "FFmpeg HEVC (NVIDIA)") /\
  encoder_mode
    (handle_window_events "FFmpeg HEVC (NVIDIA)"
       [ModeClicked 1; ModeClicked 0; ModeClicked 1]
       (started default_store (Some "FFmpeg HEVC (NVIDIA)")))
  = "FFmpeg HEVC (NVIDIA)" /\
  audio_socket
    (bind_listeners grim_only 1%nat 2%nat 3%nat
       (handle_window_events "FFmpeg HEVC (NVIDIA)"
          [ModeClicked 1; ModeClicked 0; ModeClicked 1]
          (started default_store (Some "FFmpeg HEVC (NVIDIA)"))))
  = None.
Proof.
  assert (Hclicks : Forall (clickable (Some "hevc_nvenc", "FFmpeg HEVC (NVIDIA)"))
                      [ModeClicked 1; ModeClicked 0; ModeClicked 1]).
  { constructor; [right; split; [reflexivity|cbv; discriminate]|].
    constructor; [left; reflexivity|].
    constructor; [right; split; [reflexivity|cbv; discriminate]|].
    constructor. }
  destruct (window_modes_agree_with_listeners nvidia_host
              (Some "hevc_nvenc", "FFmpeg HEVC (NVIDIA)") default_store _
              eq_refl Hclicks)
    as (_ & _ & _ & _ & H).
  split; [reflexivity|]. split; [reflexivity|].
  exact (H grim_only 1%nat 2%nat 3%nat).
Defined.

Lemma handle_window_events_encoder (label : string) (evs : list window_event) :
  forall s : server,
    ffmpeg_encoder (handle_window_events label evs s) = ffmpeg_encoder s.
Proof.
  induction evs as [|ev evs IH]; intros s; [reflexivity|].
  cbn [handle_window_events fold_left].
  change (ffmpeg_encoder (handle_window_events label evs
                            (handle_window_event label ev s))
          = ffmpeg_encoder s).
  rewrite IH. destruct ev as [[| |]|]; reflexivity.
Qed.

(** X10. The encoder that [detect_video_encoder] finds never reaches the
    encoder process: the window keeps it for the label of the mode button
    only.  Whatever is detected and whatever the user does in the window,
    [stream_ffmpeg] starts [ffmpeg] with the encoder stored in [server.ini],
    or [libx264] when none is stored, even on a host on which the NVIDIA
    encoder was detected and the button reads ["FFmpeg HEVC (NVIDIA)"]. *)
Theorem detected_encoder_is_not_used (detected : option string * string)
  (c : config_store) (evs : list window_event) :
  let s := handle_window_events (snd detected) evs
             (started c (ffmpeg_choice detected)) in
  ffmpeg_encoder s = fallback (stored_ffmpeg_encoder c) "libx264" /\
  (forall h e script,
     ffmpeg_installed h = true ->
     hd_error (snd (fst (stream_ffmpeg h e script s))) =
     Some (Popen (new_process h)
             (ffmpeg_command h (screen_capture_rate s)
                (fallback (stored_ffmpeg_encoder c) "libx264") (is_muted s))))
  /\
  detect_video_encoder nvidia_host
  = Ok (Some "hevc_nvenc", "FFmpeg HEVC (NVIDIA)") /\
  settings (handle_window_events "FFmpeg HEVC (NVIDIA)" [ModeClicked 1]
              (started default_store
                 (ffmpeg_choice (Some "hevc_nvenc", "FFmpeg HEVC (NVIDIA)"))))
  = (75, 30, false, "FFmpeg HEVC (NVIDIA)", "libx264").
Proof.
  cbn zeta.
  assert (Hencoder :
            ffmpeg_encoder
              (handle_window_events (snd detected) evs
                 (started c (ffmpeg_choice detected)))
            = fallback (stored_ffmpeg_encoder c) "libx264").
  { rewrite handle_window_events_encoder. unfold started, _setup_ui.
    destruct (ffmpeg_choice detected); [|reflexivity].
    destruct (is_ffmpeg_mode (encoder_mode (_load_settings c init_server)));
      reflexivity. }
  split; [exact Hencoder|]. split; [|split; reflexivity].
  intros h e script Hh.
  rewrite (stream_ffmpeg_first_effect h e script _ Hh), Hencoder. reflexivity.
Qed.

(** **** The mute box *)

Lemma muted_command_tail (h : host) (rate : Z) (encoder : string) :
  exists front,
    ffmpeg_command h rate encoder true =
    front ++ ["-an"; "-f"; "mpegts"; "pipe:1"].
Proof.
  unfold ffmpeg_command.
  change (audio_input h true) with (@None (list string)).
  match goal with
  | |- exists front, ?a ++ ?b ++ ?c ++ ?d ++ ?e ++ ?f ++ _ = _ =>
      exists (a ++ b ++ c ++ d ++ e ++ f)
  end.
  rewrite <- !app_assoc. reflexivity.
Qed.

(** X11. Ticking or clearing the mute box stores the setting, and in a
    running FFmpeg session with a viewer it restarts the encoder on the
    same video connection: no socket is touched, and the next encoder is
    started with the new mute setting and the rate and encoder of the
    session.  When muted its command has no audio input and ends with
    [-an -f mpegts pipe:1].  Outside such a session (legacy mode, host
    stopped, no viewer) nothing is done beyond storing the setting. *)
Theorem toggle_mute_restarts_encoder (checked : bool) (e : env) (s : server)
  (conn : sock)
  (Hrunning : is_running s = true)
  (Hmode : is_ffmpeg_mode (encoder_mode s) = true)
  (Hconn : client_conn s = Some conn) :
  (let s' := fst (toggle_mute checked e s) in
   let fx := snd (toggle_mute checked e s) in
   is_muted s' = checked /\
   filter on_socket fx = [] /\
   client_conn s' = Some conn /\
   _media_thread s' = Some stream_ffmpeg_target /\
   (forall h script,
      ffmpeg_installed h = true ->
      hd_error (snd (fst (stream_ffmpeg h e script s'))) =
      Some (Popen (new_process h)
              (ffmpeg_command h (screen_capture_rate s) (ffmpeg_encoder s)
                 checked))) /\
   (forall h rate encoder,
      audio_input h true = None /\
      exists front,
        ffmpeg_command h rate encoder true =
        front ++ ["-an"; "-f"; "mpegts"; "pipe:1"]))
  /\
  (forall s0,
     is_ffmpeg_mode (encoder_mode s0) = false \/ is_running s0 = false \/
     client_conn s0 = None ->
     toggle_mute checked e s0 = (set_is_muted checked s0, [])).
Proof.
  split.
  - cbn zeta. unfold toggle_mute.
    change (encoder_mode (set_is_muted checked s)) with (encoder_mode s).
    change (is_running (set_is_muted checked s)) with (is_running s).
    change (client_conn (set_is_muted checked s)) with (client_conn s).
    rewrite Hmode, Hrunning, Hconn. cbn [andb negb is_none].
    unfold restart_ffmpeg_stream.
    change (encoder_mode (set_is_muted checked s)) with (encoder_mode s).
    change (is_running (set_is_muted checked s)) with (is_running s).
    change (client_conn (set_is_muted checked s)) with (client_conn s).
    rewrite Hmode, Hrunning, Hconn. cbn [orb negb is_none].
    change (media_process (set_stop_stream_event true (set_is_muted checked s)))
      with (media_process s).
    destruct (media_process s) as [p|]; cbn [fst snd].
    + repeat split; trivial.
      * rewrite !filter_app, filter_on_socket_join, filter_on_socket_terminate.
        reflexivity.
      * intros h script Hh.
        rewrite (stream_ffmpeg_first_effect h e script _ Hh). reflexivity.
      * apply muted_command_tail.
    + repeat split; trivial.
      * rewrite !filter_app, filter_on_socket_join. reflexivity.
      * intros h script Hh.
        rewrite (stream_ffmpeg_first_effect h e script _ Hh). reflexivity.
      * apply muted_command_tail.
  - intros s0 H. unfold toggle_mute.
    change (encoder_mode (set_is_muted checked s0)) with (encoder_mode s0).
    change (is_running (set_is_muted checked s0)) with (is_running s0).
    change (client_conn (set_is_muted checked s0)) with (client_conn s0).
    destruct H as [-> | [-> | ->]]; [reflexivity| |].
    + now rewrite andb_false_r.
    + cbn [is_none negb]. now rewrite andb_false_r.
Qed.

Lemma toggle_mute_restarts_encoder_witness :
  snd (toggle_mute true quiet running_session) =
  [Terminate 7%nat; Wait 7%nat 2; Start stream_ffmpeg_target] /\
  filter on_socket (snd (toggle_mute true quiet running_session)) = [].
Proof.
  destruct (toggle_mute_restarts_encoder true quiet running_session 2%nat
              eq_refl eq_refl eq_refl) as ((_ & H & _) & _).
  split; [reflexivity|exact H].
Defined.

(** **** The end of a session *)




Lemma session_cleanup_state (e : env) (s : server) :
  let s' := fst (session_cleanup e s) in
  client_conn s' = None /\ audio_client_conn s' = None /\
  control_client_conn s' = None /\ media_process s' = None /\
  _stop_stream_event s' = true /\ _stop_heartbeat_event s' = true /\
  _stop_control_event s' = true /\
  is_running s' = is_running s /\ server_socket s' = server_socket s /\
  audio_socket s' = audio_socket s /\
  control_socket_listener s' = control_socket_listener s /\
  settings s' = settings s.
Proof.
  unfold session_cleanup.
  destruct s as [r ss cc asock acc csl ccc mp mt sse she sce q rate m em enc].
  cbn.
  destruct mt as [t|]; [destruct (thread_alive e t)|]; destruct mp; cbn;
    repeat split.
Qed.

Lemma session_cleanup_closes (e : env) (s : server) :
  closes (snd (session_cleanup e s)) =
  match client_conn s with Some k => [k] | None => [] end
  ++ match audio_client_conn s with Some k => [k] | None => [] end
  ++ match control_client_conn s with Some k => [k] | None => [] end.
Proof.
  unfold session_cleanup.
  change (_media_thread (set_stop_control_event true
            (set_stop_heartbeat_event true (set_stop_stream_event true s))))
    with (_media_thread s).
  assert (Hjoin : forall X : server * list effect,
            closes (snd X) = [] ->
            closes (snd (let (s2, fx_join) := X in
              let (s3, fx_process) :=
                match media_process s2 with
                | Some p => (set_media_process None s2, terminate_wait_kill e p)
                | None => (s2, [])
                end in
              (set_control_client_conn None
                 (set_audio_client_conn None (set_client_conn None s3)),
               fx_join ++ fx_process
               ++ close_socket (client_conn s)
               ++ close_socket (audio_client_conn s)
               ++ close_socket (control_client_conn s)))) =
            match client_conn s with Some k => [k] | None => [] end
            ++ match audio_client_conn s with Some k => [k] | None => [] end
            ++ match control_client_conn s with Some k => [k] | None => [] end).
  { intros [s2 fx_join] Hj. cbn [snd] in Hj.
    destruct (media_process s2) as [p|]; cbn [snd];
      rewrite !closes_app, Hj, ?closes_terminate_wait_kill, !closes_close_socket;
      reflexivity. }
  apply Hjoin.
  destruct (_media_thread s) as [t|]; [destruct (thread_alive e t)|];
    reflexivity.
Qed.




(** **** A control connection without a viewer *)

(** X23. The host keeps a control connection only during a video session.
    Every pass of the accept loop in which no viewer arrives within the
    timeout runs the session clean-up: a control connection that was
    accepted in the meantime is shut down and closed, its attribute is
    cleared and the control stop event is set (which ends the loop of its
    handler), while [is_running], the listeners and the settings stay as
    they are. *)
Theorem idle_host_drops_control_client (h : host) (e : env) (io : session_io)
  (s : server) (k : sock)
  (Hidle : client_conn s = None)
  (Hno_audio : audio_client_conn s = None)
  (Hcontrol : control_client_conn s = Some k) :
  let s' := fst (fst (accept_pass h e io None s)) in
  let fx := snd (fst (accept_pass h e io None s)) in
  snd (accept_pass h e io None s) = None /\
  closes fx = [k] /\ filter on_socket fx = [Shutdown k; Close k] /\
  control_client_conn s' = None /\ _stop_control_event s' = true /\
  is_running s' = is_running s /\ server_socket s' = server_socket s /\
  audio_socket s' = audio_socket s /\
  control_socket_listener s' = control_socket_listener s /\
  settings s' = settings s.
Proof.
  cbn zeta. unfold accept_pass.
  pose proof (session_cleanup_state e s) as Hst.
  pose proof (session_cleanup_closes e s) as Hcl.
  assert (Hfx : filter on_socket (snd (session_cleanup e s))
                = [Shutdown k; Close k]).
  { unfold session_cleanup.
    destruct s as [r ss cc asock acc csl ccc mp mt sse she sce q rate m em enc].
    cbn in Hidle, Hno_audio, Hcontrol. subst cc acc ccc. cbn.
    destruct mt as [t|]; [destruct (thread_alive e t)|]; destruct mp as [p|];
      cbn; unfold terminate_wait_kill;
      try destruct (wait_times_out e p); reflexivity. }
  destruct (session_cleanup e s) as [s1 fx1]. cbn [fst snd] in *.
  rewrite Hidle, Hno_audio, Hcontrol in Hcl.
  destruct Hst as (H1 & H2 & H3 & H4 & H5 & H6 & H7 & H8 & H9 & H10 & H11 & H12).
  repeat split; trivial.
Qed.

Lemma idle_host_drops_control_client_witness :
  snd (fst (accept_pass this_host quiet viewer_gone None control_only))
  = [Shutdown 4%nat; Close 4%nat] /\
  control_client_conn
    (fst (fst (accept_pass this_host quiet viewer_gone None control_only)))
  = None.
Proof.
  destruct (idle_host_drops_control_client this_host quiet viewer_gone
              control_only 4%nat eq_refl eq_refl eq_refl)
    as (_ & _ & _ & H & _).
  split; [reflexivity|exact H].
Defined.

End Server.

(** ** The viewer: [Worker] of [pyviewer_client.py] *)

Module Viewer.
Import Py Wire Control.

Local Open Scope list_scope.

(** **** State and effects *)

(** The three ports of a host. *)
Inductive endpoint : Set :=
| video_port          (* self.port *)
| audio_port          (* self.port + 1 *)
| control_port.       (* CONTROL_PORT *)

(** The attributes of [Worker].  [control_socket] is the video connection,
    [control_socket_client] the control connection. *)
Record worker : Set := {
  mode : option pystr;
  control_socket : option Server.sock;
  audio_socket : option Server.sock;
  control_socket_client : option Server.sock;
  ffplay_process : option Server.proc;
  stop_event : bool;
  _stop_control_send_event : bool
}.

Definition set_mode (v : option pystr) (w : worker) : worker :=
  {| mode := v; control_socket := control_socket w;
     audio_socket := audio_socket w;
     control_socket_client := control_socket_client w;
     ffplay_process := ffplay_process w; stop_event := stop_event w;
     _stop_control_send_event := _stop_control_send_event w |}.

Definition set_control_socket (v : option Server.sock) (w : worker) : worker :=
  {| mode := mode w; control_socket := v; audio_socket := audio_socket w;
     control_socket_client := control_socket_client w;
     ffplay_process := ffplay_process w; stop_event := stop_event w;
     _stop_control_send_event := _stop_control_send_event w |}.

Definition set_audio_socket (v : option Server.sock) (w : worker) : worker :=
  {| mode := mode w; control_socket := control_socket w; audio_socket := v;
     control_socket_client := control_socket_client w;
     ffplay_process := ffplay_process w; stop_event := stop_event w;
     _stop_control_send_event := _stop_control_send_event w |}.

Definition set_control_socket_client (v : option Server.sock) (w : worker)
  : worker :=
  {| mode := mode w; control_socket := control_socket w;
     audio_socket := audio_socket w; control_socket_client := v;
     ffplay_process := ffplay_process w; stop_event := stop_event w;
     _stop_control_send_event := _stop_control_send_event w |}.

Definition set_ffplay_process (v : option Server.proc) (w : worker) : worker :=
  {| mode := mode w; control_socket := control_socket w;
     audio_socket := audio_socket w;
     control_socket_client := control_socket_client w;
     ffplay_process := v; stop_event := stop_event w;
     _stop_control_send_event := _stop_control_send_event w |}.

Definition set_stop_event (v : bool) (w : worker) : worker :=
  {| mode := mode w; control_socket := control_socket w;
     audio_socket := audio_socket w;
     control_socket_client := control_socket_client w;
     ffplay_process := ffplay_process w; stop_event := v;
     _stop_control_send_event := _stop_control_send_event w |}.

Definition set_stop_control_send_event (v : bool) (w : worker) : worker :=
  {| mode := mode w; control_socket := control_socket w;
     audio_socket := audio_socket w;
     control_socket_client := control_socket_client w;
     ffplay_process := ffplay_process w; stop_event := stop_event w;
     _stop_control_send_event := v |}.

(** [Worker.__init__] *)
Definition init_worker : worker :=
  {| mode := None; control_socket := None; audio_socket := None;
     control_socket_client := None; ffplay_process := None;
     stop_event := false; _stop_control_send_event := false |}.

(** What the worker does to the outside world, in order.  Status messages
    are left out. *)
Inductive effect : Set :=
| Connect (s : Server.sock) (port : endpoint)   (* s.connect(...) *)
| Close (s : Server.sock)
| SendAll (s : Server.sock) (data : bytes)
| Popen (p : Server.proc)                       (* the ffplay process *)
| Write (p : Server.proc) (data : bytes)        (* p.stdin.write(data) *)
| Terminate (p : Server.proc)
| Wait (p : Server.proc) (timeout : Z)
| Kill (p : Server.proc)
| ReadyToEmbed                                  (* ffmpeg_ready_to_embed_signal *)
| LegacyFrame (img_data : bytes)                (* legacy_frame_signal *)
| Disconnected.                                 (* disconnected_signal *)

(** **** [disconnect] *)

Definition close_all (socks : list (option Server.sock)) : list effect :=
  flat_map (fun o => match o with Some k => [Close k] | None => [] end) socks.

(** [disconnect]: everything is guarded by the stop event, which the first
    call sets. *)
Definition disconnect (e : Server.env) (w : worker) : worker * list effect :=
  if stop_event w then (w, [])
  else
    (set_stop_control_send_event true (set_stop_event true w),
     Disconnected
     :: match ffplay_process w with
        | Some p =>
            if Server.process_running e p
            then Terminate p :: Wait p 1
                 :: (if Server.wait_times_out e p then [Kill p] else [])
            else []
        | None => []
        end
     ++ close_all [control_socket w; audio_socket w; control_socket_client w]).

(** **** [_send_control_event] *)

(** One event handed to [_send_control_event]: the UTF-8 bytes of
    [json.dumps({"type": event_type, "data": data})] ([None] when
    [json.dumps] raises), and whether [sendall] raises. *)
Record control_event : Set := {
  dumped : option bytes;
  send_raises : bool
}.

Definition _send_control_event (ev : control_event) (w : worker)
  : worker * list effect :=
  match control_socket_client w with
  | None => (w, [])
  | Some k =>
      if _stop_control_send_event w then (w, [])
      else
        match dumped ev with
        | None => (w, [])
        | Some text =>
            let message := text ++ [x0a] in
            if send_raises ev
            then (set_stop_control_send_event true w, [SendAll k message])
            else (w, [SendAll k message])
        end
  end.

(** The events of a session, one after the other. *)
Fixpoint send_control_events (evs : list control_event) (w : worker)
  : worker * list effect :=
  match evs with
  | [] => (w, [])
  | ev :: later =>
      let (w1, fx1) := _send_control_event ev w in
      let (w2, fx2) := send_control_events later w1 in
      (w2, fx1 ++ fx2)
  end.

(** The byte strings written to one socket, in order. *)
Fixpoint sends_on (k : Server.sock) (fx : list effect) : list bytes :=
  match fx with
  | [] => []
  | SendAll k' data :: fx' =>
      if Nat.eqb k' k then data :: sends_on k fx' else sends_on k fx'
  | _ :: fx' => sends_on k fx'
  end.

(** An event that is sent without trouble. *)
Definition sent_event (text : bytes) : control_event :=
  {| dumped := Some text; send_raises := false |}.

(** The output of [json.dumps] with its default [ensure_ascii]: ASCII
    characters only, and no raw newline (control characters are escaped). *)
Definition json_text (text : bytes) : Prop :=
  Forall (fun b => Z_of_byte b < 128 /\ Z_of_byte b <> newline) text.

(** **** Connecting: [_connect_sockets], [_connect_control_socket] and
    [connect_and_run] *)

(** What the worker meets when it connects: the sockets that
    [socket.socket()] creates, whether each [connect] succeeds, and the
    bytes that arrive on the video connection. *)
Record peer : Set := {
  video_sock : Server.sock;
  audio_sock : Server.sock;
  control_sock : Server.sock;
  video_accepts : bool;
  audio_accepts : bool;
  control_accepts : bool;
  video_stream : network
}.

(** The text ['L']. *)
Definition is_L (text : pystr) : bool :=
  match text with
  | [c] => c =? 76
  | _ => false
  end.

(** The text ['F']. *)
Definition is_F (text : pystr) : bool :=
  match text with
  | [c] => c =? 70
  | _ => false
  end.

(** [_connect_sockets]: [Some] of the rest of the video stream when it
    returns [True]; on any exception [disconnect] is called and it returns
    [False]. *)
Definition _connect_sockets (e : Server.env) (p : peer) (w : worker)
  : worker * list effect * option network :=
  let w1 := set_control_socket (Some (video_sock p)) w in
  let failed (w : worker) (fx : list effect)
    : worker * list effect * option network :=
    let (w', fx') := disconnect e w in (w', fx ++ fx', None) in
  if negb (video_accepts p) then failed w1 [Connect (video_sock p) video_port]
  else
    let (mode_byte, net) := recv (video_stream p) 1 in
    match mode_byte with
    | [] => failed w1 [Connect (video_sock p) video_port]
    | _ =>
        match utf8_decode mode_byte with
        | Raise _ => failed w1 [Connect (video_sock p) video_port]
        | Ok text =>
            let w2 := set_mode (Some text) w1 in
            if is_L text then
              let w3 := set_audio_socket (Some (audio_sock p)) w2 in
              if audio_accepts p
              then (w3, [Connect (video_sock p) video_port;
                         Connect (audio_sock p) audio_port], Some net)
              else failed w3 [Connect (video_sock p) video_port;
                              Connect (audio_sock p) audio_port]
            else (w2, [Connect (video_sock p) video_port], Some net)
        end
    end.

(** [_connect_control_socket] *)
Definition _connect_control_socket (p : peer) (w : worker)
  : worker * list effect * bool :=
  let w1 := set_control_socket_client (Some (control_sock p)) w in
  if control_accepts p
  then (set_stop_control_send_event false w1,
        [Connect (control_sock p) control_port], true)
  else (w1, [Connect (control_sock p) control_port], false).

(** The stream handler that [connect_and_run] enters. *)
Inductive handler : Set :=
| FFmpegStream        (* _handle_ffmpeg_stream *)
| LegacyStream.       (* _handle_legacy_stream *)

(** The handler that reads what a media thread of the host writes. *)
Definition handler_of (t : Server.target) : handler :=
  match t with
  | Server.stream_ffmpeg_target => FFmpegStream
  | Server.stream_screen_target => LegacyStream
  end.

(** [connect_and_run] up to the call of the stream handler: the handler
    that is entered and the video stream it will read, or [None] when the
    method returns without entering one. *)
Definition connect_and_run (PYNPUT_SUPPORT : bool) (e : Server.env) (p : peer)
  (w : worker) : worker * list effect * option (handler * network) :=
  match _connect_sockets e p w with
  | (w1, fx1, None) => (w1, fx1, None)
  | (w1, fx1, Some net) =>
      let '(w2, fx2, connected) :=
        if PYNPUT_SUPPORT then _connect_control_socket p w1
        else (w1, [], true) in
      if connected then
        (w2, fx1 ++ fx2,
         match mode w2 with
         | Some text =>
             if is_F text then Some (FFmpegStream, net)
             else if is_L text then Some (LegacyStream, net)
             else None
         | None => None
         end)
      else
        let (w3, fx3) := disconnect e w2 in
        (w3, fx1 ++ fx2 ++ fx3, None)
  end.

(** **** The stream handlers *)

(** The loop of [_handle_legacy_stream].  [rounds] iterations pass before
    the [disconnect] of another thread (the Disconnect button) runs and the
    loop sees the stop event set. *)
Fixpoint legacy_stream_loop (e : Server.env) (rounds : nat) (net : network)
  (w : worker) : worker * list effect :=
  match rounds with
  | O => disconnect e w
  | S rounds' =>
      if stop_event w then (w, [])
      else
        match recv_frame net with
        | Break => (w, [])
        | Frame img_data net' =>
            let (w', fx) := legacy_stream_loop e rounds' net' w in
            (w', LegacyFrame img_data :: fx)
        end
  end.

(** [_handle_legacy_stream]: the loop and its [finally] (the audio player
    thread is left out). *)
Definition _handle_legacy_stream (e : Server.env) (rounds : nat)
  (net : network) (w : worker) : worker * list effect :=
  let (w1, fx1) := legacy_stream_loop e rounds net w in
  let (w2, fx2) := disconnect e w1 in
  (w2, fx1 ++ fx2).

(** What one iteration of the loop of [_handle_ffmpeg_stream] observes
    after a read: whether [ffplay] has exited, and whether the write to its
    input raises. *)
Record player_tick : Set := {
  player_exited : bool;
  write_fails : bool
}.

(** The loop of [_handle_ffmpeg_stream].  The end of the script is the
    [disconnect] of another thread. *)
Fixpoint ffmpeg_stream_loop (e : Server.env) (p : Server.proc)
  (script : list player_tick) (net : network) (w : worker)
  : worker * list effect :=
  match script with
  | [] => disconnect e w
  | t :: later =>
      if stop_event w then (w, [])
      else
        let (data, net') := recv net 4096 in
        match data with
        | [] => (w, [])
        | _ =>
            if player_exited t then (w, [])
            else if write_fails t then (w, [Write p data])
            else
              let (w', fx) := ffmpeg_stream_loop e p later net' w in
              (w', Write p data :: fx)
        end
  end.

(** [_handle_ffmpeg_stream]: without [ffplay] the worker disconnects;
    else the player is started, the loop runs, and the [finally] block
    disconnects. *)
Definition _handle_ffmpeg_stream (ffplay_installed : bool) (e : Server.env)
  (p : Server.proc) (script : list player_tick) (net : network) (w : worker)
  : worker * list effect :=
  if negb ffplay_installed then disconnect e w
  else
    let w1 := set_ffplay_process (Some p) w in
    let (w2, fx2) := ffmpeg_stream_loop e p script net w1 in
    let (w3, fx3) := disconnect e w2 in
    (w3, Popen p :: ReadyToEmbed :: fx2 ++ fx3).

(** The bytes written to the player, the frames shown, and the number of
    [disconnected_signal]s and the sockets closed in a trace. *)
Fixpoint writes (fx : list effect) : list bytes :=
  match fx with
  | [] => []
  | Write _ data :: fx' => data :: writes fx'
  | _ :: fx' => writes fx'
  end.

Fixpoint frames (fx : list effect) : list bytes :=
  match fx with
  | [] => []
  | LegacyFrame img_data :: fx' => img_data :: frames fx'
  | _ :: fx' => frames fx'
  end.

Fixpoint disconnections (fx : list effect) : nat :=
  match fx with
  | [] => O
  | Disconnected :: fx' => S (disconnections fx')
  | _ :: fx' => disconnections fx'
  end.

Fixpoint closes (fx : list effect) : list Server.sock :=
  match fx with
  | [] => []
  | Close k :: fx' => k :: closes fx'
  | _ :: fx' => closes fx'
  end.

(** A host that accepts every connection and sends [stream] on the video
    connection; a host with no audio listener. *)
Definition accepting (stream : network) : peer :=
  {| video_sock := 11%nat; audio_sock := 12%nat; control_sock := 13%nat;
     video_accepts := true; audio_accepts := true; control_accepts := true;
     video_stream := stream |}.

Definition without_audio (stream : network) : peer :=
  {| video_sock := 11%nat; audio_sock := 12%nat; control_sock := 13%nat;
     video_accepts := true; audio_accepts := false; control_accepts := true;
     video_stream := stream |}.

(** A player that runs and accepts what is written to it. *)
Definition playing : player_tick :=
  {| player_exited := false; write_fails := false |}.

(** An encoder iteration that reads [data] and sends it. *)
Definition encoded (data : bytes) : Server.ffmpeg_tick :=
  {| Server.stop_requested := false; Server.exited := false;
     Server.chunk := data; Server.exited_after_read := false;
     Server.send_fails := false |}.

(** The bytes of one legacy frame as the host writes them, and of a run of
    frames. *)
Definition frame_bytes (img_bytes : bytes) : bytes :=
  match send_frame img_bytes with
  | Ok parts => List.concat parts
  | Raise _ => []
  end.

Fixpoint wire (imgs : list bytes) : bytes :=
  match imgs with
  | [] => []
  | img_bytes :: later => frame_bytes img_bytes ++ wire later
  end.

(** An encoded image: not empty, and of a size that fits the prefix. *)
Definition image (img_bytes : bytes) : Prop :=
  img_bytes <> [] /\ Z.of_nat (List.length img_bytes) < 2 ^ 32.

(** A frame loop iteration of the host that captures [img_bytes] and sends
    it. *)
Definition captured (img_bytes : bytes) : Server.legacy_tick :=
  Server.FrameTick img_bytes Server.SentBoth.

(** *** Properties *)

(** **** Disconnecting *)

Lemma disconnect_live (e : Server.env) (w : worker) :
  stop_event w = false ->
  stop_event (fst (disconnect e w)) = true /\
  _stop_control_send_event (fst (disconnect e w)) = true /\
  disconnections (snd (disconnect e w)) = 1%nat /\
  closes (snd (disconnect e w)) =
  closes (close_all [control_socket w; audio_socket w; control_socket_client w]).
Proof.
  intros Hlive. unfold disconnect. rewrite Hlive. cbn [fst snd].
  repeat split.
  - cbn [disconnections]. f_equal.
    destruct (ffplay_process w) as [p|];
      [destruct (Server.process_running e p);
       [destruct (Server.wait_times_out e p)|]|];
      destruct (control_socket w), (audio_socket w), (control_socket_client w);
      reflexivity.
  - cbn [closes].
    destruct (ffplay_process w) as [p|];
      [destruct (Server.process_running e p);
       [destruct (Server.wait_times_out e p)|]|];
      reflexivity.
Qed.

Lemma disconnect_again (e e' : Server.env) (w : worker) :
  stop_event w = false ->
  disconnect e' (fst (disconnect e w)) = (fst (disconnect e w), []).
Proof.
  intros Hlive. unfold disconnect at 1.
  now rewrite (proj1 (disconnect_live e w Hlive)).
Qed.

Lemma frames_app (fx fx' : list effect) :
  frames (fx ++ fx') = frames fx ++ frames fx'.
Proof.
  induction fx as [|x fx IH]; [reflexivity|].
  destruct x; cbn [app frames]; rewrite ?IH; reflexivity.
Qed.

Lemma writes_app (fx fx' : list effect) :
  writes (fx ++ fx') = writes fx ++ writes fx'.
Proof.
  induction fx as [|x fx IH]; [reflexivity|].
  destruct x; cbn [app writes]; rewrite ?IH; reflexivity.
Qed.

Lemma disconnections_app (fx fx' : list effect) :
  disconnections (fx ++ fx') = (disconnections fx + disconnections fx')%nat.
Proof.
  induction fx as [|x fx IH]; [reflexivity|].
  destruct x; cbn [app disconnections]; rewrite ?IH; reflexivity.
Qed.

Lemma closes_of_app (fx fx' : list effect) :
  closes (fx ++ fx') = closes fx ++ closes fx'.
Proof.
  induction fx as [|x fx IH]; [reflexivity|].
  destruct x; cbn [app closes]; rewrite ?IH; reflexivity.
Qed.

Lemma frames_disconnect (e : Server.env) (w : worker) :
  frames (snd (disconnect e w)) = [] /\ writes (snd (disconnect e w)) = [].
Proof.
  unfold disconnect. destruct (stop_event w); [split; reflexivity|].
  cbn [snd frames writes].
  destruct (ffplay_process w) as [p|];
    [destruct (Server.process_running e p);
     [destruct (Server.wait_times_out e p)|]|];
    destruct (control_socket w), (audio_socket w), (control_socket_client w);
    split; reflexivity.
Qed.

(** However the legacy loop ends, the handler as a whole shows some frames
    and then disconnects the worker once. *)
Lemma handle_legacy_stream_shape (e : Server.env) (rounds : nat) :
  forall (net : network) (w : worker),
    stop_event w = false ->
    exists imgs,
      _handle_legacy_stream e rounds net w =
      (fst (disconnect e w), map LegacyFrame imgs ++ snd (disconnect e w)).
Proof.
  unfold _handle_legacy_stream.
  induction rounds as [|rounds IH]; intros net w Hlive; cbn [legacy_stream_loop].
  - exists []. destruct (disconnect e w) as [w1 fx1] eqn:Hd.
    pose proof (disconnect_again e e w Hlive) as Hagain.
    rewrite Hd in Hagain. cbn [fst] in Hagain. rewrite Hagain.
    cbn [fst snd map app]. now rewrite app_nil_r.
  - rewrite Hlive. destruct (recv_frame net) as [img_data net'|].
    + destruct (IH net' w Hlive) as (imgs & Himgs).
      destruct (legacy_stream_loop e rounds net' w) as [w1 fx1].
      destruct (disconnect e w1) as [w2 fx2].
      exists (img_data :: imgs). injection Himgs as -> Hfx.
      cbn [map app]. now rewrite <- Hfx.
    + exists []. destruct (disconnect e w) as [w1 fx1]. reflexivity.
Qed.

Lemma ffmpeg_stream_loop_shape (e : Server.env) (p : Server.proc)
  (script : list player_tick) :
  forall (net : network) (w : worker),
    stop_event w = false ->
    exists datas,
      (let (w1, fx1) := ffmpeg_stream_loop e p script net w in
       let (w2, fx2) := disconnect e w1 in (w2, fx1 ++ fx2)) =
      (fst (disconnect e w), map (Write p) datas ++ snd (disconnect e w)).
Proof.
  induction script as [|t later IH]; intros net w Hlive;
    cbn [ffmpeg_stream_loop].
  - exists []. destruct (disconnect e w) as [w1 fx1] eqn:Hd.
    pose proof (disconnect_again e e w Hlive) as Hagain.
    rewrite Hd in Hagain. cbn [fst] in Hagain. rewrite Hagain.
    cbn [fst snd map app]. now rewrite app_nil_r.
  - rewrite Hlive. destruct (recv net 4096) as [data net'].
    destruct data as [|b data].
    { exists []. destruct (disconnect e w) as [w1 fx1]. reflexivity. }
    destruct (player_exited t).
    { exists []. destruct (disconnect e w) as [w1 fx1]. reflexivity. }
    destruct (write_fails t).
    { exists [b :: data]. destruct (disconnect e w) as [w1 fx1]. reflexivity. }
    destruct (IH net' w Hlive) as (datas & Hdatas).
    destruct (ffmpeg_stream_loop e p later net' w) as [w1 fx1].
    destruct (disconnect e w1) as [w2 fx2].
    exists ((b :: data) :: datas). injection Hdatas as -> Hfx.
    cbn [map app]. now rewrite <- Hfx.
Qed.

(** X13. A live worker is disconnected exactly once, however its stream
    handler ends (end of the stream, a short read, a dead player, a failed
    write, the Disconnect button during the loop) and however often
    [disconnect] is called afterwards: [disconnected_signal] is emitted
    once, each socket of the worker is closed once, the stop event is set,
    and a later [disconnect] does nothing. *)
Theorem worker_disconnects_once (e : Server.env) (w : worker)
  (Hlive : stop_event w = false) :
  (forall rounds net,
     let w' := fst (_handle_legacy_stream e rounds net w) in
     let fx := snd (_handle_legacy_stream e rounds net w) in
     stop_event w' = true /\ disconnections fx = 1%nat /\
     closes fx =
     closes (close_all [control_socket w; audio_socket w;
                        control_socket_client w]) /\
     forall e', disconnect e' w' = (w', []))
  /\
  (forall ffplay_installed p script net,
     let w' := fst (_handle_ffmpeg_stream ffplay_installed e p script net w) in
     let fx := snd (_handle_ffmpeg_stream ffplay_installed e p script net w) in
     stop_event w' = true /\ disconnections fx = 1%nat /\
     closes fx =
     closes (close_all [control_socket w; audio_socket w;
                        control_socket_client w]) /\
     forall e', disconnect e' w' = (w', [])).
Proof.
  split.
  - intros rounds net. cbn zeta.
    destruct (handle_legacy_stream_shape e rounds net w Hlive) as (imgs & ->).
    cbn [fst snd].
    destruct (disconnect_live e w Hlive) as (Hs & _ & Hd & Hc).
    repeat split; trivial.
    + rewrite disconnections_app, Hd.
      clear. induction imgs; [reflexivity|assumption].
    + rewrite closes_of_app, Hc.
      replace (closes (map LegacyFrame imgs)) with (@nil Server.sock);
        [reflexivity|].
      clear. induction imgs; [reflexivity|assumption].
    + intros e'. now apply disconnect_again.
  - intros ffplay_installed p script net. cbn zeta.
    unfold _handle_ffmpeg_stream.
    destruct ffplay_installed; cbn [negb].
    + set (w1 := set_ffplay_process (Some p) w).
      assert (Hlive1 : stop_event w1 = false) by exact Hlive.
      destruct (ffmpeg_stream_loop_shape e p script net w1 Hlive1)
        as (datas & Hshape).
      destruct (ffmpeg_stream_loop e p script net w1) as [w2 fx2].
      destruct (disconnect e w2) as [w3 fx3].
      injection Hshape as -> ->. cbn [fst snd].
      destruct (disconnect_live e w1 Hlive1) as (Hs & _ & Hd & Hc).
      repeat split; trivial.
      * cbn [disconnections]. rewrite disconnections_app, Hd.
        clear. induction datas; [reflexivity|assumption].
      * cbn [closes]. rewrite closes_of_app, Hc.
        replace (closes (map (Write p) datas)) with (@nil Server.sock);
          [reflexivity|].
        clear. induction datas; [reflexivity|assumption].
      * intros e'. now apply disconnect_again.
    + destruct (disconnect_live e w Hlive) as (Hs & _ & Hd & Hc).
      repeat split; trivial. intros e'. now apply disconnect_again.
Qed.

(** A worker in a legacy session: video socket 11, audio socket 12,
    control socket 13. *)
Lemma worker_disconnects_once_witness :
  closes (snd (_handle_legacy_stream Server.quiet 5 [[x00; x00]]
                 (set_control_socket_client (Some 13%nat)
                    (set_audio_socket (Some 12%nat)
                       (set_control_socket (Some 11%nat) init_worker)))))
  = [11; 12; 13]%nat.
Proof.
  destruct (worker_disconnects_once Server.quiet
              (set_control_socket_client (Some 13%nat)
                 (set_audio_socket (Some 12%nat)
                    (set_control_socket (Some 11%nat) init_worker)))
              eq_refl) as (H & _).
  destruct (H 5%nat [[x00; x00]]) as (_ & _ & Hc & _).
  rewrite Hc. reflexivity.
Defined.

(** **** The control channel, from the viewer to the host *)

Lemma send_control_events_latched (evs : list control_event) :
  forall w : worker,
    _stop_control_send_event w = true ->
    send_control_events evs w = (w, []).
Proof.
  induction evs as [|ev evs IH]; intros w Hlatch; [reflexivity|].
  cbn [send_control_events]. unfold _send_control_event.
  destruct (control_socket_client w); rewrite ?Hlatch, (IH w Hlatch);
    reflexivity.
Qed.

(** X14. The control channel of a worker is closed for good by the first
    [sendall] that fails: the events before it are written in order, each
    as its JSON text and one newline, the failing one is attempted, and
    nothing is written for any later event.  Nothing is written either
    once a live worker has been disconnected. *)
Theorem failed_send_ends_control (before after : list bytes)
  (failing : bytes) (later : list control_event) (w : worker) (k : Server.sock)
  (Hsock : control_socket_client w = Some k)
  (Hopen : _stop_control_send_event w = false) :
  (let evs := map sent_event before
              ++ {| dumped := Some failing; send_raises := true |} :: later in
   _stop_control_send_event (fst (send_control_events evs w)) = true /\
   snd (send_control_events evs w) =
   map (fun text => SendAll k (text ++ [x0a])) (before ++ [failing]))
  /\
  (forall e evs,
     stop_event w = false ->
     snd (send_control_events evs (fst (disconnect e w))) = []).
Proof.
  split.
  - cbn zeta. revert w Hsock Hopen.
    induction before as [|text before IH]; intros w Hsock Hopen;
      cbn [map app send_control_events].
    + unfold _send_control_event. rewrite Hsock, Hopen. cbn [dumped send_raises].
      rewrite send_control_events_latched by reflexivity.
      split; reflexivity.
    + unfold _send_control_event.
      rewrite Hsock, Hopen. cbn [dumped send_raises sent_event].
      specialize (IH w Hsock Hopen).
      destruct (send_control_events _ w) as [w2 fx2]. cbn [fst snd] in *.
      destruct IH as (IH1 & IH2). split; [exact IH1|]. now rewrite IH2.
  - intros e evs Hlive.
    rewrite send_control_events_latched; [reflexivity|].
    apply (disconnect_live e w Hlive).
Qed.

Lemma failed_send_ends_control_witness :
  snd (send_control_events
         [sent_event scroll_event;
          {| dumped := Some scroll_event; send_raises := true |};
          sent_event scroll_event]
         (set_control_socket_client (Some 13%nat) init_worker))
  = [SendAll 13%nat (scroll_event ++ [x0a]);
     SendAll 13%nat (scroll_event ++ [x0a])].
Proof.
  destruct (failed_send_ends_control [scroll_event] [] scroll_event
              [sent_event scroll_event]
              (set_control_socket_client (Some 13%nat) init_worker) 13%nat
              eq_refl eq_refl) as ((_ & H) & _).
  exact H.
Defined.

Lemma sends_of_sent_events (messages : list bytes) (w : worker)
  (k : Server.sock) :
  control_socket_client w = Some k ->
  _stop_control_send_event w = false ->
  send_control_events (map sent_event messages) w =
  (w, map (fun text => SendAll k (text ++ [x0a])) messages).
Proof.
  intros Hsock Hopen.
  induction messages as [|text messages IH]; [reflexivity|].
  cbn [map send_control_events]. unfold _send_control_event.
  rewrite Hsock, Hopen. cbn [dumped send_raises sent_event].
  now rewrite IH.
Qed.

Lemma sends_on_sent (k : Server.sock) (messages : list bytes) :
  sends_on k (map (fun text => SendAll k (text ++ [x0a])) messages) =
  map (fun text => text ++ [x0a]) messages.
Proof.
  induction messages as [|text messages IH]; [reflexivity|].
  cbn [map sends_on]. now rewrite Nat.eqb_refl, IH.
Qed.

Lemma Forall_concat_inv {A : Type} (P : A -> Prop) (ls : list (list A)) :
  Forall P (List.concat ls) -> Forall (Forall P) ls.
Proof.
  induction ls as [|l ls IH]; cbn [List.concat]; [constructor|].
  intros H. apply Forall_app in H. destruct H. constructor; auto.
Qed.

Lemma json_text_line (text : bytes) :
  json_text text -> Forall (fun c => c <> newline) (map Z_of_byte text).
Proof.
  induction 1 as [|b text [_ Hb] _ IH]; cbn [map]; constructor; assumption.
Qed.

(** X15. The control events that a viewer sends arrive at the host as
    they were sent.  Each event is written as the output of [json.dumps]
    (ASCII, no raw newline) and one newline; however TCP cuts the bytes
    into reads, the receive loop of the host hands exactly these texts to
    [json.loads] and [process_control_event], one per event and in the
    order of sending, and it ends only when the viewer closes the
    connection. *)
Theorem control_events_arrive_in_order
  (event : Type) (json_loads : pystr -> option event)
  (process_raises : event -> bool)
  (messages : list bytes) (w : worker) (k : Server.sock)
  (chunks : list bytes)
  (Hsock : control_socket_client w = Some k)
  (Hopen : _stop_control_send_event w = false)
  (Htexts : Forall json_text messages)
  (Hreads : Forall (fun chunk => chunk <> []) chunks)
  (Hstream : List.concat chunks =
             List.concat
               (sends_on k (snd (send_control_events
                                   (map sent_event messages) w)))) :
  _handle_control_client event json_loads process_raises chunks [] =
  (map (fun text =>
          handle_line event json_loads process_raises (map Z_of_byte text))
       messages,
   ClientDisconnected).
Proof.
  rewrite (sends_of_sent_events messages w k Hsock Hopen) in Hstream.
  cbn [snd] in Hstream. rewrite sends_on_sent in Hstream.
  assert (Hascii : Forall (fun b => Z_of_byte b < 128) (List.concat chunks)).
  { rewrite Hstream. clear - Htexts.
    induction Htexts as [|text messages Htext _ IH]; cbn [map List.concat];
      [constructor|].
    rewrite <- app_assoc. apply Forall_app. split.
    - eapply Forall_impl; [|exact Htext]. cbn. tauto.
    - constructor; [cbn; lia|exact IH]. }
  assert (Hdecodable : Forall decodable chunks).
  { apply Forall_concat_inv in Hascii.
    clear - Hascii Hreads. induction Hreads as [|chunk chunks Hne _ IH];
      [constructor|].
    inversion Hascii as [|? ? Hchunk Hrest]; subst.
    constructor; [|auto]. split; [exact Hne|].
    eexists. now apply utf8_decode_ascii. }
  destruct (handle_control_client_decodable event json_loads process_raises
              chunks Hdecodable) as (text & Htext & Hloop).
  rewrite (Hloop [] eq_refl). cbn [app]. f_equal.
  rewrite (utf8_decode_ascii _ Hascii) in Htext. apply Ok_inj in Htext.
  subst text. rewrite Hstream.
  rewrite <- map_map with (f := fun text => map Z_of_byte text)
                          (g := handle_line event json_loads process_raises).
  f_equal.
  assert (Hlines : map Z_of_byte
                     (List.concat (map (fun text => text ++ [x0a]) messages))
                   = List.concat (map (fun l => l ++ [newline])
                                      (map (map Z_of_byte) messages))).
  { clear. induction messages as [|text messages IH]; [reflexivity|].
    cbn [map List.concat]. rewrite !map_app, IH, <- !app_assoc. reflexivity. }
  rewrite Hlines. apply complete_lines_of_lines.
  - clear - Htexts. induction Htexts as [|text messages Htext _ IH];
      cbn [map]; constructor; [now apply json_text_line|exact IH].
  - apply Nat.lt_succ_diag_r.
Qed.

(** Two scroll events, read by the host as three chunks that cut the first
    event in two. *)
Lemma control_events_arrive_in_order_witness :
  _handle_control_client unit (fun _ => Some tt) (fun _ => false)
    [firstn 10 scroll_event;
     skipn 10 scroll_event ++ [x0a];
     scroll_event ++ [x0a]] []
  = ([Processed unit tt; Processed unit tt], ClientDisconnected).
Proof.
  refine (control_events_arrive_in_order unit (fun _ => Some tt)
            (fun _ => false) [scroll_event; scroll_event]
            (set_control_socket_client (Some 13%nat) init_worker) 13%nat
            [firstn 10 scroll_event; skipn 10 scroll_event ++ [x0a];
             scroll_event ++ [x0a]]
            eq_refl eq_refl _ _ _).
  - repeat constructor; vm_compute; intuition discriminate.
  - repeat constructor; discriminate.
  - vm_compute. reflexivity.
Defined.

(** **** The mode byte *)

(** X16. The viewer enters the stream handler that the mode byte names,
    and the host starts the media thread of the mode that it reads again
    after the byte is sent.  When the first byte on the video connection is
    the byte that the host sent and the connections are accepted,
    [connect_and_run] enters [_handle_ffmpeg_stream] when the host's mode
    was an FFmpeg mode at the accept and [_handle_legacy_stream] otherwise,
    on the stream that follows the mode byte; the audio connection is
    opened in the second case only, and nothing is disconnected.  The host
    starts [stream_ffmpeg] or [stream_screen] by the mode as it is after a
    click on a mode button in between.  So the handler is the one of the
    pipeline that the host runs when no button is clicked between the two
    reads, or the click keeps the kind of mode, and it is the other one
    when the click changes the kind. *)
Theorem viewer_follows_host_mode (h : Server.host) (s : Server.server)
  (io : Server.session_io) (conn : Server.sock) (PYNPUT_SUPPORT : bool)
  (e : Server.env) (p : peer) (w : worker) (rest : network)
  (Hsent : Server.mode_send_fails io = false)
  (Hstream : video_stream p = [Server.mode_byte s] :: rest)
  (Hvideo : video_accepts p = true)
  (Haudio : audio_accepts p = true)
  (Hcontrol : control_accepts p = true) :
  let fx_host := snd (fst (Server.run_server_iteration h e io conn s)) in
  let at_accept := Server.is_ffmpeg_mode (Server.encoder_mode s) in
  let at_start :=
    Server.is_ffmpeg_mode
      (Server.fallback (Server.mode_switched io) (Server.encoder_mode s)) in
  let started :=
    if at_start then Server.stream_ffmpeg_target
    else Server.stream_screen_target in
  let w' := fst (fst (connect_and_run PYNPUT_SUPPORT e p w)) in
  let fx := snd (fst (connect_and_run PYNPUT_SUPPORT e p w)) in
  (exists later,
     fx_host =
     Server.SendAll conn [Server.mode_byte s] :: Server.ClientConnected
     :: Server.Start started :: later) /\
  snd (connect_and_run PYNPUT_SUPPORT e p w) =
  Some (if at_accept then FFmpegStream else LegacyStream, rest) /\
  (snd (connect_and_run PYNPUT_SUPPORT e p w) = Some (handler_of started, rest)
   <-> at_start = at_accept) /\
  (Server.mode_switched io = None -> at_start = at_accept) /\
  audio_socket w' =
  (if at_accept then audio_socket w else Some (audio_sock p)) /\
  control_socket w' = Some (video_sock p) /\
  disconnections fx = 0%nat /\ closes fx = [].
Proof.
  cbn zeta.
  assert (Hviewer :
            snd (connect_and_run PYNPUT_SUPPORT e p w) =
            Some (if Server.is_ffmpeg_mode (Server.encoder_mode s)
                  then FFmpegStream else LegacyStream, rest) /\
            audio_socket (fst (fst (connect_and_run PYNPUT_SUPPORT e p w))) =
            (if Server.is_ffmpeg_mode (Server.encoder_mode s)
             then audio_socket w else Some (audio_sock p)) /\
            control_socket (fst (fst (connect_and_run PYNPUT_SUPPORT e p w)))
            = Some (video_sock p) /\
            disconnections (snd (fst (connect_and_run PYNPUT_SUPPORT e p w)))
            = 0%nat /\
            closes (snd (fst (connect_and_run PYNPUT_SUPPORT e p w))) = []).
  { unfold connect_and_run, _connect_sockets, _connect_control_socket.
    rewrite Hstream, Hvideo, Hcontrol. cbn [negb recv firstn skipn].
    unfold Server.mode_byte.
    destruct (Server.is_ffmpeg_mode (Server.encoder_mode s)).
    - change (utf8_decode [x46]) with (@Ok pystr [70]).
      cbn [is_L is_F Z.eqb Pos.eqb].
      destruct PYNPUT_SUPPORT; cbn; repeat split.
    - change (utf8_decode [x4c]) with (@Ok pystr [76]).
      cbn [is_L Z.eqb Pos.eqb]. rewrite Haudio.
      destruct PYNPUT_SUPPORT; cbn; repeat split. }
  destruct Hviewer as (Hhandler & Ha & Hc & Hd & Hcl).
  split; [exact (Server.run_server_iteration_starts h e io conn s Hsent)|].
  split; [exact Hhandler|].
  split.
  { rewrite Hhandler.
    destruct (Server.is_ffmpeg_mode (Server.encoder_mode s)),
      (Server.is_ffmpeg_mode (Server.fallback _ _)); cbn [handler_of];
      split; congruence. }
  split; [intros ->; reflexivity|].
  repeat split; assumption.
Qed.

(** A host in an FFmpeg mode whose user clicks the legacy button while the
    viewer connects: the viewer starts the player, the host sends JPEG
    frames. *)
Lemma viewer_follows_host_mode_witness :
  snd (fst (Server.run_server_iteration Server.this_host Server.quiet
              Server.switched_to_legacy 2%nat Server.listening))
  = [Server.SendAll 2%nat [x46]; Server.ClientConnected;
     Server.Start Server.stream_screen_target; Server.Encode 75;
     Server.SendAll 2%nat [x00; x00; x00; x03];
     Server.SendAll 2%nat [xff; xd8; xd9]; Server.Sleep 30] /\
  snd (connect_and_run true Server.quiet
         (accepting [[x46]; [x00; x00; x00; x03]; [xff; xd8; xd9]]) init_worker)
  = Some (FFmpegStream, [[x00; x00; x00; x03]; [xff; xd8; xd9]]).
Proof.
  destruct (viewer_follows_host_mode Server.this_host Server.listening
              Server.switched_to_legacy 2%nat true Server.quiet
              (accepting [[x46]; [x00; x00; x00; x03]; [xff; xd8; xd9]])
              init_worker [[x00; x00; x00; x03]; [xff; xd8; xd9]]
              eq_refl eq_refl eq_refl eq_refl eq_refl) as (_ & H & _).
  split; [vm_compute; reflexivity | exact H].
Defined.

Lemma recv_closed (net : network) (bufsize : nat) :
  List.concat net = [] -> fst (recv net bufsize) = [].
Proof.
  intros Hnet. destruct (recv net bufsize) as [packet net'] eqn:Hrecv.
  destruct (recv_spec _ _ _ _ Hrecv) as (Hcat & _ & _).
  rewrite Hnet in Hcat. now apply app_eq_nil in Hcat.
Qed.

Lemma utf8_decode_high_byte (b : byte) :
  128 <= Z_of_byte b -> utf8_decode [b] = Raise UnicodeDecodeError.
Proof.
  intros Hb. cbn [utf8_decode].
  destruct (Z.ltb_spec (Z_of_byte b) 128); [lia|].
  repeat (destruct (in_range _ _ (Z_of_byte b)); [reflexivity|]).
  reflexivity.
Qed.

Lemma Z_of_byte_inj (b c : byte) : Z_of_byte b = Z_of_byte c -> b = c.
Proof.
  unfold Z_of_byte. intros H. apply N2Z.inj in H.
  pose proof (Byte.of_to_N b) as Hb. pose proof (Byte.of_to_N c) as Hc.
  rewrite H in Hb. congruence.
Qed.

(** X24. What [connect_and_run] does with a first byte that is not a mode
    byte of the host.  When the host closes before sending one, or sends a
    byte that is not ASCII, [_connect_sockets] fails and the worker is
    disconnected (once; its video socket is closed).  When the byte is an
    ASCII character other than ['F'] and ['L'], [_connect_sockets] succeeds,
    the control connection is made, and [connect_and_run] returns without
    entering a stream handler and without disconnecting: the worker stays
    connected, its stop event clear and no socket closed. *)
Theorem first_byte_that_is_no_mode (PYNPUT_SUPPORT : bool) (e : Server.env)
  (p : peer) (w : worker)
  (Hlive : stop_event w = false)
  (Hvideo : video_accepts p = true) :
  let w' := fst (fst (connect_and_run PYNPUT_SUPPORT e p w)) in
  let fx := snd (fst (connect_and_run PYNPUT_SUPPORT e p w)) in
  ((List.concat (video_stream p) = [] \/
    exists b rest, video_stream p = [b] :: rest /\ 128 <= Z_of_byte b) ->
   snd (connect_and_run PYNPUT_SUPPORT e p w) = None /\
   stop_event w' = true /\ disconnections fx = 1%nat /\
   closes fx =
   video_sock p
   :: match audio_socket w with Some k => [k] | None => [] end
   ++ match control_socket_client w with Some k => [k] | None => [] end)
  /\
  (forall b rest,
     video_stream p = [b] :: rest ->
     Z_of_byte b < 128 -> b <> x46 -> b <> x4c ->
     control_accepts p = true ->
     snd (connect_and_run PYNPUT_SUPPORT e p w) = None /\
     stop_event w' = false /\ disconnections fx = 0%nat /\ closes fx = [] /\
     control_socket w' = Some (video_sock p)).
Proof.
  cbn zeta. split.
  - intros Hbad.
    set (w1 := set_control_socket (Some (video_sock p)) w).
    assert (Hlive1 : stop_event w1 = false) by exact Hlive.
    destruct (disconnect_live e w1 Hlive1) as (Hs & _ & Hd & Hc).
    assert (Hfail : _connect_sockets e p w =
                    (fst (disconnect e w1),
                     [Connect (video_sock p) video_port]
                     ++ snd (disconnect e w1), None)).
    { unfold _connect_sockets. rewrite Hvideo. cbn [negb]. fold w1.
      destruct Hbad as [Hclosed|(b & rest & Hstream & Hb)].
      - pose proof (recv_closed (video_stream p) 1 Hclosed) as Hrecv.
        destruct (recv (video_stream p) 1) as [mode_byte net].
        cbn [fst] in Hrecv. subst mode_byte.
        destruct (disconnect e w1); reflexivity.
      - rewrite Hstream. cbn [recv firstn skipn].
        rewrite (utf8_decode_high_byte b Hb).
        destruct (disconnect e w1); reflexivity. }
    unfold connect_and_run. rewrite Hfail. cbn [fst snd].
    repeat split; trivial.
    cbn [app closes]. rewrite Hc. cbn.
    destruct (audio_socket w), (control_socket_client w); reflexivity.
  - intros b rest Hstream Hascii HF HL Hcontrol.
    unfold connect_and_run, _connect_sockets, _connect_control_socket.
    rewrite Hstream, Hvideo, Hcontrol. cbn [negb recv firstn skipn].
    assert (Hdecode : utf8_decode [b] = Ok [Z_of_byte b]).
    { apply (utf8_decode_ascii [b]). repeat constructor. exact Hascii. }
    rewrite Hdecode. cbn [is_L is_F].
    assert (HneL : (Z_of_byte b =? 76) = false).
    { apply Z.eqb_neq. intros H. apply HL. now apply Z_of_byte_inj. }
    assert (HneF : (Z_of_byte b =? 70) = false).
    { apply Z.eqb_neq. intros H. apply HF. now apply Z_of_byte_inj. }
    rewrite HneL.
    destruct PYNPUT_SUPPORT; cbn [fst snd mode set_mode set_control_socket
      set_control_socket_client set_stop_control_send_event is_F is_L];
      rewrite HneF, ?HneL; repeat split; exact Hlive.
Qed.

(** A host that answers with the byte ['X']. *)
Lemma first_byte_that_is_no_mode_witness :
  snd (connect_and_run true Server.quiet (accepting [[x58]]) init_worker) = None /\
  closes (snd (fst (connect_and_run true Server.quiet (accepting [[x58]])
                      init_worker))) = [].
Proof.
  destruct (first_byte_that_is_no_mode true Server.quiet (accepting [[x58]])
              init_worker eq_refl eq_refl) as (_ & H).
  destruct (H x58 [] eq_refl) as (H1 & _ & _ & H4 & _);
    try discriminate; try reflexivity.
  split; [exact H1|exact H4].
Defined.

(** X17. A viewer of a host in a legacy mode gives the whole connection
    up when the audio port refuses it: the mode byte ['L'] makes
    [_connect_sockets] connect to the audio port, the failure is taken as a
    failure to connect at all, the worker is disconnected (the video and
    audio sockets are closed) and no stream handler is entered, although
    the video connection itself was accepted. *)
Theorem legacy_viewer_needs_audio_port (s : Server.server)
  (PYNPUT_SUPPORT : bool) (e : Server.env) (p : peer) (w : worker)
  (rest : network)
  (Hstream : video_stream p = [Server.mode_byte s] :: rest)
  (Hmode : Server.is_ffmpeg_mode (Server.encoder_mode s) = false)
  (Hvideo : video_accepts p = true)
  (Haudio : audio_accepts p = false)
  (Hlive : stop_event w = false) :
  let w' := fst (fst (connect_and_run PYNPUT_SUPPORT e p w)) in
  let fx := snd (fst (connect_and_run PYNPUT_SUPPORT e p w)) in
  snd (connect_and_run PYNPUT_SUPPORT e p w) = None /\
  stop_event w' = true /\
  disconnections fx = 1%nat /\
  closes fx =
  video_sock p :: audio_sock p
  :: match control_socket_client w with Some k => [k] | None => [] end.
Proof.
  cbn zeta. unfold connect_and_run, _connect_sockets.
  rewrite Hstream, Hvideo. cbn [negb recv firstn skipn].
  unfold Server.mode_byte. rewrite Hmode.
  change (utf8_decode [x4c]) with (@Ok pystr [76]).
  cbn [is_L Z.eqb Pos.eqb]. rewrite Haudio.
  set (w3 := set_audio_socket _ _).
  assert (Hlive3 : stop_event w3 = false) by exact Hlive.
  destruct (disconnect_live e w3 Hlive3) as (Hs & _ & Hd & Hc).
  destruct (disconnect e w3) as [w4 fx4]. cbn [fst snd] in *.
  repeat split; trivial.
  cbn [app closes]. rewrite Hc. cbn.
  destruct (control_socket_client w); reflexivity.
Qed.

Lemma legacy_viewer_needs_audio_port_witness :
  snd (connect_and_run true Server.quiet
         (without_audio [[x4c]; [x00; x00; x00; x03]]) init_worker) = None /\
  closes (snd (fst (connect_and_run true Server.quiet
                      (without_audio [[x4c]; [x00; x00; x00; x03]])
                      init_worker))) = [11; 12]%nat.
Proof.
  destruct (legacy_viewer_needs_audio_port
              (Server.set_encoder_mode "Legacy (Slow)" Server.listening) true
              Server.quiet (without_audio [[x4c]; [x00; x00; x00; x03]])
              init_worker [[x00; x00; x00; x03]]
              eq_refl eq_refl eq_refl eq_refl eq_refl) as (H1 & _ & _ & H4).
  split; [exact H1|exact H4].
Defined.

(** **** Legacy frames, from the host to the viewer *)

Lemma pack_be32_image (img_bytes : bytes) :
  image img_bytes ->
  exists header,
    pack_be32 (Z.of_nat (List.length img_bytes)) = Ok header /\
    frame_bytes img_bytes = header ++ img_bytes.
Proof.
  intros [_ Hsize]. unfold frame_bytes, send_frame, pack_be32.
  replace (0 <=? Z.of_nat (List.length img_bytes)) with true
    by (symmetry; apply Z.leb_le; lia).
  replace (Z.of_nat (List.length img_bytes) <? 2 ^ 32) with true
    by (symmetry; apply Z.ltb_lt; lia).
  cbn [andb bind]. eexists. split; [reflexivity|].
  cbn [List.concat]. now rewrite app_nil_r.
Qed.

(** What the host writes for a run of captured images. *)
Lemma legacy_loop_wire (imgs : list bytes) (s : Server.server)
  (conn : Server.sock) :
  Server.client_conn s = Some conn ->
  Forall image imgs ->
  List.concat
    (Server.sends_on conn
       (snd (fst (Server.legacy_loop (map captured imgs) s)))) = wire imgs.
Proof.
  intros Hconn Himgs.
  induction Himgs as [|img_bytes imgs Himg _ IH]; [reflexivity|].
  cbn [map captured Server.legacy_loop]. fold (captured img_bytes).
  rewrite Hconn.
  destruct (pack_be32_image _ Himg) as (header & Hpack & Hframe).
  rewrite Hpack.
  change (map (fun img => Server.FrameTick img Server.SentBoth) imgs)
    with (map captured imgs).
  destruct (Server.legacy_loop (map captured imgs) s) as [[s' fx] why].
  cbn [fst snd Server.sends_on] in *. rewrite Nat.eqb_refl.
  cbn [List.concat wire]. rewrite IH, Hframe, <- app_assoc. reflexivity.
Qed.

Lemma recv_frame_closed (net : network) :
  List.concat net = [] -> recv_frame net = Break.
Proof.
  intros Hnet. unfold recv_frame.
  pose proof (recv_all_short net 4) as Hshort.
  destruct (_recv_all net 4) as [got net1]. cbn [fst] in Hshort.
  rewrite Hshort; [reflexivity|]. rewrite Hnet. cbn. lia.
Qed.

(** The frames that the viewer's loop shows of a run of frames of which
    [missing] has not arrived when the host closes: all of them when
    nothing is missing, and otherwise those before the frame in which the
    stream ends. *)
Lemma legacy_stream_loop_wire (e : Server.env) (imgs : list bytes) :
  Forall image imgs ->
  forall (net : network) (missing : bytes) (rounds : nat) (w : worker),
    stop_event w = false ->
    (List.length imgs < rounds)%nat ->
    List.concat net ++ missing = wire imgs ->
    (missing = [] /\
     legacy_stream_loop e rounds net w = (w, map LegacyFrame imgs)) \/
    (exists shown cut later partial rest_of_cut,
       imgs = shown ++ cut :: later /\
       List.concat net = wire shown ++ partial /\
       partial ++ rest_of_cut = frame_bytes cut /\
       rest_of_cut <> [] /\
       missing = rest_of_cut ++ wire later /\
       legacy_stream_loop e rounds net w = (w, map LegacyFrame shown)).
Proof.
  induction 1 as [|img_bytes imgs Himg _ IH];
    intros net missing rounds w Hlive Hrounds Hnet.
  - cbn [wire] in Hnet. apply app_eq_nil in Hnet. destruct Hnet as [Hnet ->].
    left. destruct rounds as [|rounds]; [cbn in Hrounds; lia|].
    cbn [legacy_stream_loop]. rewrite Hlive, (recv_frame_closed net Hnet).
    split; reflexivity.
  - destruct rounds as [|rounds]; [cbn in Hrounds; lia|].
    cbn [List.length] in Hrounds.
    destruct (pack_be32_image _ Himg) as (header & Hpack & Hframe).
    cbn [wire] in Hnet. rewrite Hframe in Hnet.
    pose proof Hnet as Hnet0.
    cbn [legacy_stream_loop]. rewrite Hlive.
    assert (Hcases :
              (exists l, List.concat net = header ++ img_bytes ++ l /\
                         l ++ missing = wire imgs) \/
              (exists l, l <> [] /\
                         List.concat net ++ l = header ++ img_bytes)).
    { apply app_eq_app in Hnet. destruct Hnet as (l & [[H1 H2]|[H1 H2]]).
      - left. exists l. rewrite <- app_assoc in H1. auto.
      - destruct l as [|b l].
        + left. exists []. rewrite app_nil_r in H1. cbn [app] in H2.
          rewrite <- H1, app_nil_r. split; [reflexivity|].
          now rewrite H2.
        + right. exists (b :: l). split; [discriminate|]. now rewrite H1. }
    destruct Hcases as [(l & Hhead & Htail)|(l & Hl & Hcut)].
    + destruct (recv_frame_complete img_bytes header net l (proj1 Himg)
                  Hpack Hhead) as (net' & Hframe' & Hnet').
      rewrite Hframe'.
      destruct (IH net' missing rounds w Hlive ltac:(lia))
        as [(Hnone & Hloop)
           |(shown & cut & later & partial & rest_of_cut
             & Himgs & Hshown & Hpartial & Hrest & Hmissing & Hloop)].
      { now rewrite Hnet'. }
      * left. rewrite Hloop. split; [exact Hnone | reflexivity].
      * right. exists (img_bytes :: shown), cut, later, partial, rest_of_cut.
        rewrite Hloop.
        split; [cbn [app]; now rewrite Himgs|].
        split.
        { cbn [wire]. rewrite Hhead, Hframe, <- Hnet', Hshown, <- !app_assoc.
          reflexivity. }
        repeat split; trivial.
    + rewrite (recv_frame_truncated img_bytes header l net Hpack Hl Hcut).
      right. exists [], img_bytes, imgs, (List.concat net), l.
      split; [reflexivity|]. split; [reflexivity|].
      split; [now rewrite Hframe|]. split; [exact Hl|].
      split; [|reflexivity].
      rewrite <- Hcut, <- app_assoc in Hnet0.
      now apply app_inv_head in Hnet0.
Qed.

(** X18. Every image that the host's legacy loop captures and sends is
    shown by the viewer, unchanged and in order.  For any run of encoded
    images, the bytes that [stream_screen_x11] writes to the video
    connection, cut into reads in any way, make [_handle_legacy_stream]
    emit exactly these images, one [legacy_frame_signal] each, and
    disconnect when the stream ends. *)
Theorem viewer_shows_every_frame (imgs : list bytes) (s : Server.server)
  (conn : Server.sock) (net : network) (e : Server.env) (rounds : nat)
  (w : worker)
  (Hconn : Server.client_conn s = Some conn)
  (Himgs : Forall image imgs)
  (Hnet : List.concat net =
          List.concat
            (Server.sends_on conn
               (snd (fst (Server.stream_screen_x11 (map captured imgs) s)))))
  (Hlive : stop_event w = false)
  (Hrounds : (List.length imgs < rounds)%nat) :
  snd (_handle_legacy_stream e rounds net w) =
  map LegacyFrame imgs ++ snd (disconnect e w) /\
  frames (snd (_handle_legacy_stream e rounds net w)) = imgs.
Proof.
  assert (Hwire : List.concat net ++ [] = wire imgs).
  { rewrite app_nil_r, Hnet. unfold Server.stream_screen_x11. rewrite Hconn.
    pose proof (legacy_loop_wire imgs s conn Hconn Himgs) as H.
    destruct (Server.legacy_loop (map captured imgs) s) as [[s' fx] why].
    exact H. }
  destruct (legacy_stream_loop_wire e imgs Himgs net [] rounds w Hlive
              Hrounds Hwire)
    as [(_ & Hloop)|(shown & cut & later & partial & rest_of_cut
                     & _ & _ & _ & Hrest & Hmissing & _)].
  2:{ symmetry in Hmissing. apply app_eq_nil in Hmissing.
      destruct Hmissing as [Hnil _]. contradiction. }
  unfold _handle_legacy_stream. rewrite Hloop.
  pose proof (frames_disconnect e w) as [Hf _].
  destruct (disconnect e w) as [w2 fx2]. cbn [fst snd] in *.
  split; [reflexivity|].
  rewrite frames_app, Hf, app_nil_r. clear. induction imgs as [|img imgs IH];
    [reflexivity|]. cbn [map frames]. now rewrite IH.
Qed.

(** Two images, delivered in reads that cut across the frames. *)
Lemma viewer_shows_every_frame_witness :
  frames (snd (_handle_legacy_stream Server.quiet 3
                 [[x00; x00; x00]; [x02; xff; xd8; x00; x00];
                  [x00; x01]; [xd9]]
                 init_worker))
  = [[xff; xd8]; [xd9]].
Proof.
  refine (proj2 (viewer_shows_every_frame [[xff; xd8]; [xd9]]
                   Server.running_session 2%nat
                   [[x00; x00; x00]; [x02; xff; xd8; x00; x00];
                    [x00; x01]; [xd9]]
                   Server.quiet 3 init_worker eq_refl _ _ eq_refl _)).
  - repeat constructor; try discriminate; cbn; lia.
  - vm_compute. reflexivity.
  - cbn. lia.
Defined.

(** X19. The viewer never shows a part of an image.  When the video
    connection ends inside the stream of frames that the host wrote
    (wherever the cut falls: inside a length prefix or inside an image),
    the frames split into those that arrived whole, the frame [cut] of
    which only the part [partial] arrived (possibly nothing of it), and the
    frames after it; [_handle_legacy_stream] shows exactly the images that
    arrived whole, in order, shows nothing of the frame that was cut nor of
    any later one, and disconnects. *)
Theorem viewer_drops_cut_frame (imgs : list bytes) (s : Server.server)
  (conn : Server.sock) (net : network) (missing : bytes) (e : Server.env)
  (rounds : nat) (w : worker)
  (Hconn : Server.client_conn s = Some conn)
  (Himgs : Forall image imgs)
  (Hmissing : missing <> [])
  (Hnet : List.concat net ++ missing =
          List.concat
            (Server.sends_on conn
               (snd (fst (Server.stream_screen_x11 (map captured imgs) s)))))
  (Hlive : stop_event w = false)
  (Hrounds : (List.length imgs < rounds)%nat) :
  exists shown cut later partial rest_of_cut,
    imgs = shown ++ cut :: later /\
    List.concat net = wire shown ++ partial /\
    partial ++ rest_of_cut = frame_bytes cut /\
    rest_of_cut <> [] /\
    missing = rest_of_cut ++ wire later /\
    snd (_handle_legacy_stream e rounds net w) =
    map LegacyFrame shown ++ snd (disconnect e w) /\
    frames (snd (_handle_legacy_stream e rounds net w)) = shown.
Proof.
  assert (Hwire : List.concat net ++ missing = wire imgs).
  { rewrite Hnet. unfold Server.stream_screen_x11. rewrite Hconn.
    pose proof (legacy_loop_wire imgs s conn Hconn Himgs) as H.
    destruct (Server.legacy_loop (map captured imgs) s) as [[s' fx] why].
    exact H. }
  destruct (legacy_stream_loop_wire e imgs Himgs net missing rounds w Hlive
              Hrounds Hwire)
    as [(Hnone & _)|(shown & cut & later & partial & rest_of_cut
                     & Hsplit & Hshown & Hpartial & Hrest & Hmiss & Hloop)];
    [contradiction|].
  exists shown, cut, later, partial, rest_of_cut.
  split; [exact Hsplit|]. split; [exact Hshown|]. split; [exact Hpartial|].
  split; [exact Hrest|]. split; [exact Hmiss|].
  unfold _handle_legacy_stream. rewrite Hloop.
  pose proof (frames_disconnect e w) as [Hf _].
  destruct (disconnect e w) as [w2 fx2]. cbn [fst snd] in *.
  split; [reflexivity|].
  rewrite frames_app, Hf, app_nil_r. clear.
  induction shown as [|img shown IH]; [reflexivity|].
  cbn [map frames]. now rewrite IH.
Qed.

(** The stream of the two images above, cut before the last byte. *)
Lemma viewer_drops_cut_frame_witness :
  exists shown cut later partial rest_of_cut,
    [[xff; xd8]; [xd9]] = shown ++ cut :: later /\
    List.concat [[x00; x00; x00]; [x02; xff; xd8; x00; x00]; [x00; x01]]
    = wire shown ++ partial /\
    partial ++ rest_of_cut = frame_bytes cut /\
    rest_of_cut <> [] /\
    [xd9] = rest_of_cut ++ wire later /\
    snd (_handle_legacy_stream Server.quiet 3
           [[x00; x00; x00]; [x02; xff; xd8; x00; x00]; [x00; x01]]
           init_worker)
    = map LegacyFrame shown ++ snd (disconnect Server.quiet init_worker) /\
    frames (snd (_handle_legacy_stream Server.quiet 3
                   [[x00; x00; x00]; [x02; xff; xd8; x00; x00]; [x00; x01]]
                   init_worker)) = shown.
Proof.
  refine (viewer_drops_cut_frame [[xff; xd8]; [xd9]]
            Server.running_session 2%nat
            [[x00; x00; x00]; [x02; xff; xd8; x00; x00]; [x00; x01]]
            [xd9] Server.quiet 3 init_worker eq_refl _ _ _ eq_refl _).
  - repeat constructor; try discriminate; cbn; lia.
  - discriminate.
  - vm_compute. reflexivity.
  - cbn. lia.
Defined.

(** **** The encoder's output, from the host to the player *)

Lemma recv_empty (net : network) (bufsize : nat) (net' : network) :
  (0 < bufsize)%nat ->
  recv net bufsize = ([], net') -> List.concat net = [].
Proof.
  intros Hpos Hrecv. destruct (recv_spec _ _ _ _ Hrecv) as (_ & _ & Hne).
  destruct (List.concat net) as [|b l] eqn:E; [reflexivity|].
  exfalso. apply (Hne Hpos); congruence.
Qed.

(** What [ffmpeg_loop] writes for a run of reads that are all sent. *)
Lemma ffmpeg_loop_sends (chunks : list bytes) (s : Server.server)
  (conn : Server.sock) :
  Server.client_conn s = Some conn ->
  List.concat
    (Server.sends_on conn
       (snd (fst (Server.ffmpeg_loop (map encoded chunks) s))))
  = List.concat chunks.
Proof.
  intros Hconn. induction chunks as [|data chunks IH]; [reflexivity|].
  cbn [map Server.ffmpeg_loop encoded Server.stop_requested Server.exited
       Server.chunk Server.exited_after_read Server.send_fails].
  rewrite Hconn. fold (encoded data).
  destruct data as [|b data].
  - exact IH.
  - change (map (fun d => encoded d) chunks) with (map encoded chunks).
    destruct (Server.ffmpeg_loop (map encoded chunks) s) as [[s' fx] why].
    cbn [fst snd Server.sends_on] in *. rewrite Nat.eqb_refl.
    cbn [List.concat]. now rewrite IH.
Qed.

(** The player is never given anything but the bytes of the stream, in
    order. *)
Lemma ffmpeg_stream_loop_prefix (e : Server.env) (p : Server.proc)
  (script : list player_tick) :
  forall (net : network) (w : worker),
    exists rest,
      List.concat (writes (snd (ffmpeg_stream_loop e p script net w))) ++ rest
      = List.concat net.
Proof.
  induction script as [|t later IH]; intros net w; cbn [ffmpeg_stream_loop].
  - rewrite (proj2 (frames_disconnect e w)). now exists (List.concat net).
  - destruct (stop_event w); [now exists (List.concat net)|].
    destruct (recv net 4096) as [data net'] eqn:Hrecv.
    destruct (recv_spec _ _ _ _ Hrecv) as (Hcat & _ & _).
    destruct data as [|b data]; [now exists (List.concat net)|].
    destruct (player_exited t); [now exists (List.concat net)|].
    destruct (write_fails t).
    { exists (List.concat net'). cbn [snd writes List.concat].
      now rewrite app_nil_r. }
    destruct (IH net' w) as (rest & Hrest).
    destruct (ffmpeg_stream_loop e p later net' w) as [w' fx].
    exists rest. cbn [snd writes List.concat] in *.
    now rewrite <- app_assoc, Hrest.
Qed.

(** A player that keeps running is given the whole stream. *)
Lemma ffmpeg_stream_loop_all (e : Server.env) (p : Server.proc) (n : nat) :
  forall (net : network) (w : worker),
    stop_event w = false ->
    (List.length (List.concat net) < n)%nat ->
    List.concat (writes (snd (ffmpeg_stream_loop e p (repeat playing n) net w)))
    = List.concat net.
Proof.
  induction n as [|n IH]; intros net w Hlive Hn; [lia|].
  cbn [repeat ffmpeg_stream_loop playing player_exited write_fails].
  rewrite Hlive.
  destruct (recv net 4096) as [data net'] eqn:Hrecv.
  destruct (recv_spec _ _ _ _ Hrecv) as (Hcat & _ & _).
  destruct data as [|b data].
  - cbn [snd writes List.concat]. symmetry.
    apply (recv_empty net 4096 net'); [lia|exact Hrecv].
  - fold playing. specialize (IH net' w Hlive).
    destruct (ffmpeg_stream_loop e p (repeat playing n) net' w) as [w' fx].
    cbn [snd writes List.concat] in *. rewrite IH, <- Hcat; [reflexivity|].
    rewrite <- Hcat, length_app in Hn. cbn [List.length] in Hn. lia.
Qed.

(** X20. In FFmpeg mode the player is given the encoder's output and
    nothing else.  For any reads from the encoder that the host's copy loop
    sends, and any way TCP cuts these bytes into the viewer's reads, what
    [_handle_ffmpeg_stream] writes to ffplay's input is always a prefix of
    the bytes read from the encoder, in their order (whenever the player
    dies, a write fails or the user disconnects), and it is all of them
    when the player keeps running until the stream ends. *)
Theorem player_receives_encoder_output (chunks : list bytes)
  (s : Server.server) (conn : Server.sock) (net : network) (e : Server.env)
  (p : Server.proc) (w : worker)
  (Hconn : Server.client_conn s = Some conn)
  (Hnet : List.concat net =
          List.concat
            (Server.sends_on conn
               (snd (fst (Server.ffmpeg_loop (map encoded chunks) s)))))
  (Hlive : stop_event w = false) :
  (forall script,
     exists rest,
       List.concat
         (writes (snd (_handle_ffmpeg_stream true e p script net w))) ++ rest
       = List.concat chunks)
  /\
  (forall n,
     (List.length (List.concat chunks) < n)%nat ->
     List.concat
       (writes (snd (_handle_ffmpeg_stream true e p (repeat playing n) net w)))
     = List.concat chunks).
Proof.
  rewrite (ffmpeg_loop_sends chunks s conn Hconn) in Hnet.
  unfold _handle_ffmpeg_stream. cbn [negb].
  set (w1 := set_ffplay_process (Some p) w).
  split.
  - intros script.
    destruct (ffmpeg_stream_loop_prefix e p script net w1) as (rest & Hrest).
    destruct (ffmpeg_stream_loop e p script net w1) as [w2 fx2].
    pose proof (frames_disconnect e w2) as [_ Hw].
    destruct (disconnect e w2) as [w3 fx3]. cbn [fst snd] in *.
    exists rest. cbn [writes]. rewrite writes_app, Hw, app_nil_r.
    now rewrite Hrest.
  - intros n Hn.
    pose proof (ffmpeg_stream_loop_all e p n net w1 Hlive) as Hall.
    destruct (ffmpeg_stream_loop e p (repeat playing n) net w1) as [w2 fx2].
    pose proof (frames_disconnect e w2) as [_ Hw].
    destruct (disconnect e w2) as [w3 fx3]. cbn [fst snd] in *.
    cbn [writes]. rewrite writes_app, Hw, app_nil_r, Hall; [exact Hnet|].
    now rewrite Hnet.
Qed.

(** Two reads from the encoder (and an empty one between them), delivered
    to the viewer one byte at a time. *)
Lemma player_receives_encoder_output_witness :
  List.concat
    (writes (snd (_handle_ffmpeg_stream true Server.quiet 21%nat
                    (repeat playing 4) [[x47]; [x40]; [x11]] init_worker)))
  = [x47; x40; x11].
Proof.
  refine (proj2 (player_receives_encoder_output [[x47; x40]; []; [x11]]
                   Server.running_session 2%nat [[x47]; [x40]; [x11]]
                   Server.quiet 21%nat init_worker eq_refl _ eq_refl) 4%nat _).
  - vm_compute. reflexivity.
  - cbn. lia.
Defined.

End Viewer.

(** ** Control events: the branches of [process_control_event] after
    [mouse_move], and the events that the viewer builds *)

Module Events.
Import Py.

Local Open Scope string_scope.
Local Open Scope list_scope.

(** **** Values and objects *)

(** A member of the [data] object as [json.loads] delivers it (the members
    that these events carry are scalars), and the object itself. *)
Inductive value : Set :=
| VNone
| VBool (b : bool)
| VNum (n : pynum)
| VStr (s : string).

Definition dict : Set := list (string * value).

(** [data.get(key)] *)
Fixpoint get (data : dict) (key : string) : option value :=
  match data with
  | [] => None
  | (k, v) :: later => if String.eqb k key then Some v else get later key
  end.

(** [data[key]] *)
Definition getitem (data : dict) (key : string) : result value :=
  match get data key with
  | Some v => Ok v
  | None => Raise KeyError
  end.

(** The truth value of a member. *)
Definition value_truthy (v : value) : bool :=
  match v with
  | VNone => false
  | VBool b => b
  | VNum n => num_truthy n
  | VStr s => negb (String.eqb s EmptyString)
  end.

(** [s.split('.')]: never an empty list. *)
Fixpoint split_dot (s : string) : list string :=
  match s with
  | EmptyString => [EmptyString]
  | String c rest =>
      if Ascii.eqb c "." then EmptyString :: split_dot rest
      else
        match split_dot rest with
        | head :: tail => String c head :: tail
        | [] => [String c EmptyString]
        end
  end.

(** [v.split('.')[-1]]: [AttributeError] when [v] is not a [str]. *)
Definition last_of_split (v : value) : result string :=
  match v with
  | VStr s => Ok (List.last (split_dot s) EmptyString)
  | _ => Raise AttributeError
  end.

(** Whether a text holds a dot. *)
Fixpoint has_dot (s : string) : bool :=
  match s with
  | EmptyString => false
  | String c rest => Ascii.eqb c "." || has_dot rest
  end.

(** **** The host *)

(** A key as the host hands it to the keyboard controller: an attribute of
    [keyboard.Key], or [keyboard.KeyCode(char=...)]. *)
Inductive key : Set :=
| KeyAttr (name : string)
| KeyCode (char : value).

(** The call of a controller. *)
Inductive injected : Set :=
| Press (button : string)             (* mouse_controller.press *)
| Release (button : string)           (* mouse_controller.release *)
| Scroll (dx dy : value)              (* mouse_controller.scroll *)
| KeyPress (k : key)                  (* keyboard_controller.press *)
| KeyRelease (k : key).               (* keyboard_controller.release *)

(** What [process_control_event] does with an event. *)
Inductive outcome : Set :=
| MoveBranch                  (* the mouse_move branch: see Mapper *)
| Injected (x : injected)     (* the controller is called *)
| Ignored                     (* nothing is done *)
| Swallowed (e : pyexn)       (* except (AttributeError, ValueError): pass *)
| Logged (e : pyexn).         (* the outer except: a status message *)

Section Pynput.

(** The names of the members of [mouse.Button] and of the attributes of
    [keyboard.Key] on the host. *)
Variable button_member : string -> bool.
Variable key_attribute : string -> bool.

(** [mouse.Button[data['button'].split('.')[-1]]] *)
Definition resolve_button (data : dict) : result string :=
  v <- getitem data "button" ;;
  name <- last_of_split v ;;
  if button_member name then Ok name else Raise KeyError.

(** [getattr(keyboard.Key, data['name'].split('.')[-1]) if 'name' in data
    else keyboard.KeyCode(char=data['char'])] *)
Definition resolve_key (data : dict) : result key :=
  match get data "name" with
  | Some v =>
      name <- last_of_split v ;;
      if key_attribute name then Ok (KeyAttr name) else Raise AttributeError
  | None =>
      char <- getitem data "char" ;;
      Ok (KeyCode char)
  end.

(** The two keyboard branches, for the controller method they call. *)
Definition keyboard_event (call : key -> injected) (data : dict) : outcome :=
  match resolve_key data with
  | Ok k => Injected (call k)
  | Raise AttributeError => Swallowed AttributeError
  | Raise ValueError => Swallowed ValueError
  | Raise e => Logged e
  end.

(** [process_control_event] for the value of [event_data['type']] and the
    object [event_data['data']]; [controllers] is false when
    [PYNPUT_SUPPORT] is off or a controller is [None]. *)
Definition process_control_event (controllers : bool) (event_type : value)
  (data : dict) : outcome :=
  if negb controllers then Ignored
  else
    match event_type with
    | VStr name =>
        if String.eqb name "mouse_move" then MoveBranch
        else if String.eqb name "mouse_click" then
          match
            (button <- resolve_button data ;;
             pressed <- getitem data "pressed" ;;
             Ok (if value_truthy pressed then Press button
                 else Release button))
          with
          | Ok x => Injected x
          | Raise e => Logged e
          end
        else if String.eqb name "mouse_scroll" then
          match
            (dx <- getitem data "dx" ;;
             dy <- getitem data "dy" ;;
             Ok (Scroll dx dy))
          with
          | Ok x => Injected x
          | Raise e => Logged e
          end
        else if String.eqb name "keyboard_press"
        then keyboard_event KeyPress data
        else if String.eqb name "keyboard_release"
        then keyboard_event KeyRelease data
        else Ignored
    | _ => Ignored
    end.

End Pynput.

(** **** The viewer *)

(** A key as the viewer's listener reports it: a member of [keyboard.Key],
    or a [keyboard.KeyCode] with its [char] ([None] for a key without a
    character). *)
Inductive pynput_key : Set :=
| Key (name : string)
| KeyCodeOf (char : option string).

(** [str(member)] for a member of the enumeration [enum]. *)
Definition str_member (enum name : string) : string := enum ++ "." ++ name.

(** The [data] of [on_click]. *)
Definition click_data (button : string) (pressed : bool) : dict :=
  [("button", VStr (str_member "Button" button)); ("pressed", VBool pressed)].

(** [_pynput_key_to_dict] *)
Definition _pynput_key_to_dict (k : pynput_key) : dict :=
  match k with
  | Key name => [("name", VStr (str_member "Key" name))]
  | KeyCodeOf char =>
      [("char", match char with Some c => VStr c | None => VNone end)]
  end.

(** The event that [send_clipboard] emits for the text of the clipboard,
    its type and its [data]: none for an empty text or without a worker. *)
Definition send_clipboard (text : string) (worker : bool)
  : option (value * dict) :=
  if negb (String.eqb text EmptyString) && worker
  then Some (VStr "keyboard_type", [("text", VStr text)])
  else None.

(** The key that the host makes of a key of the viewer. *)
Definition host_key (k : pynput_key) : key :=
  match k with
  | Key name => KeyAttr name
  | KeyCodeOf char => KeyCode (match char with Some c => VStr c | None => VNone end)
  end.

(** The key names that the host knows, in the sample below. *)
Definition sample_names (name : string) : bool :=
  String.eqb name "left" || String.eqb name "enter".

(** *** Properties *)

(** **** Names across the control channel *)

Lemma split_dot_cons (s : string) : exists head tail, split_dot s = head :: tail.
Proof.
  destruct s as [|c rest]; cbn [split_dot]; [eauto|].
  destruct (Ascii.eqb c "."); [eauto|].
  destruct (split_dot rest); eauto.
Qed.

Lemma split_dot_no_dot (s : string) : has_dot s = false -> split_dot s = [s].
Proof.
  induction s as [|c rest IH]; cbn [has_dot split_dot]; [reflexivity|].
  destruct (Ascii.eqb c "."); [discriminate|]. cbn [orb].
  intros H. now rewrite (IH H).
Qed.

(** The component after the last dot is the last component of what follows
    any dot. *)
Lemma last_split_dot_app (prefix name : string) :
  (exists head second tail,
     split_dot (prefix ++ String "." name)%string = head :: second :: tail) /\
  List.last (split_dot (prefix ++ String "." name)%string) EmptyString =
  List.last (split_dot name) EmptyString.
Proof.
  induction prefix as [|c prefix (Hlen & IH)].
  - cbn [String.append split_dot]. change (Ascii.eqb "." ".") with true.
    cbv iota. destruct (split_dot_cons name) as (head & tail & ->).
    split; [eauto|reflexivity].
  - cbn [String.append split_dot].
    destruct Hlen as (head & second & tail & Hsplit).
    rewrite Hsplit in *.
    destruct (Ascii.eqb c "."); (split; [eauto|exact IH]).
Qed.

Lemma last_of_split_member (enum name : string) :
  has_dot name = false ->
  last_of_split (VStr (str_member enum name)) = Ok name.
Proof.
  intros Hname. unfold last_of_split, str_member.
  change (enum ++ "." ++ name)%string with (enum ++ String "." name)%string.
  rewrite (proj2 (last_split_dot_app enum name)).
  now rewrite (split_dot_no_dot name Hname).
Qed.

(** X21. Keys and buttons keep their identity across the control channel.
    The viewer names a mouse button and a special key by [str(member)]
    (["Button.left"], ["Key.enter"]) and a character key by its [char]; the
    host takes the text after the last dot and looks it up by name.  For
    every member name (an identifier: no dot) that the host's pynput knows,
    the host presses or releases the very button or key that the viewer
    reported, and a character key arrives as a [KeyCode] of the same
    character. *)
Theorem keys_and_buttons_keep_identity
  (button_member key_attribute : string -> bool)
  (name : string)
  (Hname : has_dot name = false) :
  (button_member name = true ->
   forall pressed,
     process_control_event button_member key_attribute true
       (VStr "mouse_click") (click_data name pressed)
     = Injected (if pressed then Press name else Release name))
  /\
  (key_attribute name = true ->
   process_control_event button_member key_attribute true
     (VStr "keyboard_press") (_pynput_key_to_dict (Key name))
   = Injected (KeyPress (KeyAttr name)) /\
   process_control_event button_member key_attribute true
     (VStr "keyboard_release") (_pynput_key_to_dict (Key name))
   = Injected (KeyRelease (KeyAttr name)))
  /\
  (forall char,
     process_control_event button_member key_attribute true
       (VStr "keyboard_press") (_pynput_key_to_dict (KeyCodeOf char))
     = Injected (KeyPress (host_key (KeyCodeOf char))) /\
     process_control_event button_member key_attribute true
       (VStr "keyboard_release") (_pynput_key_to_dict (KeyCodeOf char))
     = Injected (KeyRelease (host_key (KeyCodeOf char)))).
Proof.
  split; [|split].
  - intros Hmember pressed.
    cbn [process_control_event negb String.eqb Ascii.eqb Bool.eqb].
    unfold resolve_button, click_data. cbn [getitem get String.eqb Ascii.eqb Bool.eqb bind].
    rewrite (last_of_split_member "Button" name Hname). cbn [bind].
    rewrite Hmember. cbn [bind getitem get String.eqb Ascii.eqb Bool.eqb value_truthy].
    reflexivity.
  - intros Hattribute.
    cbn [process_control_event negb String.eqb Ascii.eqb Bool.eqb].
    unfold keyboard_event, resolve_key, _pynput_key_to_dict.
    cbn [get String.eqb Ascii.eqb Bool.eqb].
    rewrite (last_of_split_member "Key" name Hname). cbn [bind].
    rewrite Hattribute. split; reflexivity.
  - intros char. split; reflexivity.
Qed.

Lemma keys_and_buttons_keep_identity_witness :
  process_control_event sample_names sample_names true (VStr "mouse_click")
    (click_data "left" false) = Injected (Release "left") /\
  process_control_event sample_names sample_names true (VStr "keyboard_press")
    (_pynput_key_to_dict (Key "enter")) = Injected (KeyPress (KeyAttr "enter")).
Proof.
  split.
  - exact (proj1 (keys_and_buttons_keep_identity sample_names sample_names
                    "left" eq_refl) eq_refl false).
  - exact (proj1 (proj1 (proj2 (keys_and_buttons_keep_identity sample_names
                                  sample_names "enter" eq_refl)) eq_refl)).
Defined.

(** X25. Names that the host does not know inject nothing.  A click
    with a button name that is not a member of the host's [mouse.Button]
    raises [KeyError], which the outer handler logs; a key name that is not
    an attribute of the host's [keyboard.Key] raises [AttributeError],
    which the inner handler drops without a message; a keyboard event with
    neither [name] nor [char] is logged as a [KeyError].  In none of these
    cases is a controller called. *)
Theorem unknown_names_inject_nothing
  (button_member key_attribute : string -> bool)
  (name : string)
  (Hname : has_dot name = false) :
  (button_member name = false ->
   forall pressed,
     process_control_event button_member key_attribute true
       (VStr "mouse_click") (click_data name pressed) = Logged KeyError)
  /\
  (key_attribute name = false ->
   process_control_event button_member key_attribute true
     (VStr "keyboard_press") (_pynput_key_to_dict (Key name))
   = Swallowed AttributeError /\
   process_control_event button_member key_attribute true
     (VStr "keyboard_release") (_pynput_key_to_dict (Key name))
   = Swallowed AttributeError)
  /\
  (forall data,
     get data "name" = None -> get data "char" = None ->
     process_control_event button_member key_attribute true
       (VStr "keyboard_press") data = Logged KeyError /\
     process_control_event button_member key_attribute true
       (VStr "keyboard_release") data = Logged KeyError).
Proof.
  split; [|split].
  - intros Hmember pressed.
    cbn [process_control_event negb String.eqb Ascii.eqb Bool.eqb].
    unfold resolve_button, click_data.
    cbn [getitem get String.eqb Ascii.eqb Bool.eqb bind].
    rewrite (last_of_split_member "Button" name Hname). cbn [bind].
    rewrite Hmember. reflexivity.
  - intros Hattribute.
    cbn [process_control_event negb String.eqb Ascii.eqb Bool.eqb].
    unfold keyboard_event, resolve_key, _pynput_key_to_dict.
    cbn [get String.eqb Ascii.eqb Bool.eqb].
    rewrite (last_of_split_member "Key" name Hname). cbn [bind].
    rewrite Hattribute. split; reflexivity.
  - intros data Hno_name Hno_char.
    cbn [process_control_event negb String.eqb Ascii.eqb Bool.eqb].
    unfold keyboard_event, resolve_key, getitem.
    rewrite Hno_name, Hno_char. split; reflexivity.
Qed.

Lemma unknown_names_inject_nothing_witness :
  process_control_event sample_names sample_names true (VStr "mouse_click")
    (click_data "x2" true) = Logged KeyError /\
  process_control_event sample_names sample_names true (VStr "keyboard_press")
    (_pynput_key_to_dict (Key "media_play_pause")) = Swallowed AttributeError.
Proof.
  split.
  - exact (proj1 (unknown_names_inject_nothing sample_names sample_names
                    "x2" eq_refl) eq_refl true).
  - exact (proj1 (proj1 (proj2 (unknown_names_inject_nothing sample_names
                                  sample_names "media_play_pause" eq_refl))
                    eq_refl)).
Defined.

(** **** Event types without a branch *)

(** X22. The host has no branch for the event that the viewer's "Paste as
    Keys" button sends: [send_clipboard] emits an event of type
    ['keyboard_type'], and [process_control_event] does nothing with it,
    whatever the text is and whichever keys and buttons the host knows.
    The same holds for every event type other than the five that the
    method names. *)
Theorem paste_as_keys_is_ignored
  (button_member key_attribute : string -> bool) (controllers : bool) :
  (forall text worker event_type data,
     send_clipboard text worker = Some (event_type, data) ->
     process_control_event button_member key_attribute controllers
       event_type data = Ignored)
  /\
  (forall event_type data,
     (forall name,
        In name ["mouse_move"; "mouse_click"; "mouse_scroll";
                 "keyboard_press"; "keyboard_release"] ->
        event_type <> VStr name) ->
     process_control_event button_member key_attribute controllers
       event_type data = Ignored).
Proof.
  split.
  - intros text worker event_type data. unfold send_clipboard.
    destruct (negb (String.eqb text EmptyString) && worker); [|discriminate].
    intros [= <- <-]. unfold process_control_event.
    destruct controllers; reflexivity.
  - intros event_type data Hother. unfold process_control_event.
    destruct controllers; [|reflexivity]. cbn [negb].
    destruct event_type as [| | |name]; try reflexivity.
    assert (Hne : forall known,
              In known ["mouse_move"; "mouse_click"; "mouse_scroll";
                        "keyboard_press"; "keyboard_release"] ->
              String.eqb name known = false).
    { intros known Hin. apply String.eqb_neq. intros ->.
      exact (Hother known Hin eq_refl). }
    rewrite !Hne by (cbn [In]; tauto). reflexivity.
Qed.

End Events.
